(** * STARTUPai: the analysis orchestration pipeline of [startup/agent.py]

    A shallow embedding of [StartupAIAgent] (src/src/startup/agent.py) and of
    the [delete_analysis] route of src/src/startup/api.py.

    Conventions of the embedding.
    - A Python [str] is a [string] whose characters are the code points
      0..255; text outside Latin-1 is not represented.
    - Python values that reach [json.dumps] are the JSON-compatible ones
      ([None], [bool], [int], [str], [list], [dict] with [str] keys); floats
      are left out.  A [dict] is an association list in insertion order.
    - The Gemini client and the wall clock are the only effects of the agent;
      both are oracles over an abstract [World].  Console progress messages
      ([print]) are not modelled.  A service call either returns the text of
      the response or raises an [Exception]; the calls of one agent run one
      after the other (interleaved coroutines are not modelled).
    - The functions of Python's standard library that the agent calls
      ([json.dumps], [str], [repr], [str.lower], [datetime.__str__],
      [datetime.isoformat]) and [json.loads], which the round-trip property
      is stated with, are modelled after their documented behaviour. *)

From Stdlib Require Import String Ascii List ZArith NArith Lia Bool Arith.
From Stdlib Require Import DecimalString DecimalN.
Import ListNotations.
Open Scope string_scope.

(** ** Characters and strings *)

Definition LF : ascii := "010"%char.
Definition CR : ascii := "013"%char.
Definition TAB : ascii := "009"%char.
Definition BS : ascii := "008"%char.
Definition FF : ascii := "012"%char.
Definition DQ : ascii := "034"%char.
Definition SQ : ascii := "039"%char.
Definition BSL : ascii := "092"%char.

Definition chr (c : ascii) : string := String c "".

Definition code (c : ascii) : N := N_of_ascii c.

(** [sep.join(parts)] *)
Definition join (sep : string) (parts : list string) : string :=
  String.concat sep parts.

Fixpoint contains_char (c : ascii) (s : string) : bool :=
  match s with
  | "" => false
  | String d s' => Ascii.eqb c d || contains_char c s'
  end.

(** [str.lower()] on the Latin-1 code points: A-Z and the accented capitals
    0xC0-0xDE (the multiplication sign 0xD7 apart) move up by 32. *)
Definition lower_char (c : ascii) : ascii :=
  let n := code c in
  if ((65 <=? n) && (n <=? 90))%N then ascii_of_N (n + 32)
  else if ((192 <=? n) && (n <=? 222) && negb (n =? 215))%N then ascii_of_N (n + 32)
  else c.

Fixpoint lower (s : string) : string :=
  match s with
  | "" => ""
  | String c s' => String (lower_char c) (lower s')
  end.

(** [str.upper()] restricted to the ASCII letters; used only to say what a
    capitalization of a format name is. *)
Definition upper_ascii_char (c : ascii) : ascii :=
  let n := code c in
  if ((97 <=? n) && (n <=? 122))%N then ascii_of_N (n - 32) else c.

(** ** Decimal and hexadecimal numerals *)

(** [repr] of a non-negative [int]. *)
Definition nat_str (n : N) : string :=
  NilEmpty.string_of_uint (N.to_uint n).

(** [repr] of an [int]; [json.dumps] prints integers the same way. *)
Definition int_str (z : Z) : string :=
  if (z <? 0)%Z then String "-" (nat_str (Z.abs_N z)) else nat_str (Z.to_N z).

Fixpoint zeros (k : nat) : string :=
  match k with
  | O => ""
  | S k' => String "0" (zeros k')
  end.

(** ["%0<w>d" % n] for a non-negative [n]. *)
Definition zero_pad (w : nat) (n : N) : string :=
  let s := nat_str n in zeros (w - String.length s) ++ s.

Definition hex_digit (n : N) : ascii :=
  if (n <? 10)%N then ascii_of_N (48 + n) else ascii_of_N (87 + n).

(** two lower-case hexadecimal digits of a code point below 256 *)
Definition hex2 (c : ascii) : string :=
  String (hex_digit (code c / 16)) (String (hex_digit (code c mod 16)) "").

(** ** Python values *)

Set Warnings "-register-all".

Inductive pyval : Type :=
| PNone
| PBool (b : bool)
| PInt (z : Z)
| PStr (s : string)
| PList (l : list pyval)
| PDict (d : list (string * pyval)).

Definition pydict := list (string * pyval).

(** [d[k]], [None] standing for [KeyError]. *)
Fixpoint dict_get (d : pydict) (k : string) : option pyval :=
  match d with
  | [] => None
  | (k', v) :: d' => if String.eqb k' k then Some v else dict_get d' k
  end.

(** [d[k] = v]: an existing key keeps its position, a new one goes last. *)
Fixpoint dict_set (d : pydict) (k : string) (v : pyval) : pydict :=
  match d with
  | [] => [(k, v)]
  | (k', v') :: d' =>
      if String.eqb k' k then (k', v) :: d' else (k', v') :: dict_set d' k v
  end.

(** [k in d] *)
Definition dict_has (d : pydict) (k : string) : bool :=
  match dict_get d k with Some _ => true | None => false end.

(** [dict(pairs)] *)
Definition dict_of_pairs (pairs : list (string * pyval)) : pydict :=
  fold_left (fun d kv => dict_set d (fst kv) (snd kv)) pairs [].

Fixpoint nodup_keys (ks : list string) : bool :=
  match ks with
  | [] => true
  | k :: ks' => negb (existsb (String.eqb k) ks') && nodup_keys ks'
  end.

(** A value as Python can hold it: no dict has one key twice. *)
Fixpoint valid_value (v : pyval) : bool :=
  match v with
  | PList l => forallb valid_value l
  | PDict d => nodup_keys (map fst d) && forallb (fun kv => valid_value (snd kv)) d
  | _ => true
  end.

(** *** [repr] and [str] *)

(** [repr] uses the single quote unless the text has a single quote and no
    double quote. *)
Definition repr_quote (s : string) : ascii :=
  if contains_char SQ s && negb (contains_char DQ s) then DQ else SQ.

(** Code points of Latin-1 that [str.isprintable] accepts beyond ASCII:
    0xA1-0xFF without the soft hyphen 0xAD. *)
Definition printable_latin1 (n : N) : bool :=
  ((161 <=? n) && negb (n =? 173))%N.

Definition repr_char (q c : ascii) : string :=
  let n := code c in
  if Ascii.eqb c q || Ascii.eqb c BSL then String BSL (chr c)
  else if Ascii.eqb c TAB then "\t"
  else if Ascii.eqb c LF then "\n"
  else if Ascii.eqb c CR then "\r"
  else if ((n <? 32) || (n =? 127))%N then "\x" ++ hex2 c
  else if (n <? 127)%N then chr c
  else if printable_latin1 n then chr c
  else "\x" ++ hex2 c.

Fixpoint repr_chars (q : ascii) (s : string) : string :=
  match s with
  | "" => ""
  | String c s' => repr_char q c ++ repr_chars q s'
  end.

Definition repr_str (s : string) : string :=
  let q := repr_quote s in chr q ++ repr_chars q s ++ chr q.

(** [repr(v)] *)
Fixpoint py_repr (v : pyval) : string :=
  match v with
  | PNone => "None"
  | PBool true => "True"
  | PBool false => "False"
  | PInt z => int_str z
  | PStr s => repr_str s
  | PList l => "[" ++ join ", " (map py_repr l) ++ "]"
  | PDict d =>
      "{" ++ join ", " (map (fun kv => repr_str (fst kv) ++ ": " ++ py_repr (snd kv)) d)
          ++ "}"
  end.

(** [str(v)], which is also what an f-string placeholder [{v}] renders. *)
Definition py_str (v : pyval) : string :=
  match v with
  | PStr s => s
  | _ => py_repr v
  end.

(** [isinstance(v, list)] *)
Definition isinstance_list (v : pyval) : bool :=
  match v with
  | PList _ => true
  | _ => false
  end.

(** ** [json.dumps(value, indent=2)] *)

(** [json.encoder.encode_basestring_ascii]: the default [ensure_ascii=True]. *)
Definition escape_json_char (c : ascii) : string :=
  let n := code c in
  if Ascii.eqb c DQ then String BSL (chr DQ)
  else if Ascii.eqb c BSL then "\\"
  else if Ascii.eqb c LF then "\n"
  else if Ascii.eqb c CR then "\r"
  else if Ascii.eqb c TAB then "\t"
  else if Ascii.eqb c BS then "\b"
  else if Ascii.eqb c FF then "\f"
  else if ((32 <=? n) && (n <=? 126))%N then chr c
  else "\u00" ++ hex2 c.

Fixpoint escape_json (s : string) : string :=
  match s with
  | "" => ""
  | String c s' => escape_json_char c ++ escape_json s'
  end.

Definition encode_basestring_ascii (s : string) : string :=
  chr DQ ++ escape_json s ++ chr DQ.

Fixpoint spaces (k : nat) : string :=
  match k with
  | O => ""
  | S k' => String " " (spaces k')
  end.

(** the line break and indentation in front of an item at nesting [level] *)
Definition newline_indent (level : nat) : string :=
  String LF (spaces (2 * level)).

(** what separates two items at nesting [level]: the comma, then the break *)
Definition item_separator (level : nat) : string :=
  "," ++ newline_indent level.

(** The encoder at nesting depth [level]: an empty container prints closed
    on one line; otherwise every item goes on a line of its own, indented by
    two spaces per level, items separated by a comma, key and value by a
    colon and a space. *)
Fixpoint dumps_at (level : nat) (v : pyval) : string :=
  match v with
  | PNone => "null"
  | PBool true => "true"
  | PBool false => "false"
  | PInt z => int_str z
  | PStr s => encode_basestring_ascii s
  | PList [] => "[]"
  | PList l =>
      "[" ++ newline_indent (S level)
          ++ join (item_separator (S level)) (map (dumps_at (S level)) l)
          ++ newline_indent level ++ "]"
  | PDict [] => "{}"
  | PDict d =>
      "{" ++ newline_indent (S level)
          ++ join (item_separator (S level))
               (map (fun kv => encode_basestring_ascii (fst kv) ++ ": "
                                ++ dumps_at (S level) (snd kv)) d)
          ++ newline_indent level ++ "}"
  end.

Definition json_dumps (v : pyval) : string := dumps_at 0 v.

(** ** Timestamps *)

(** A naive [datetime], as [datetime.now()] returns it. *)
Record datetime : Type := {
  year : N;
  month : N;
  day : N;
  hour : N;
  minute : N;
  second : N;
  microsecond : N
}.

(** [datetime.isoformat(sep)]: the microseconds are printed only when they
    are not zero. *)
Definition isoformat_sep (sep : ascii) (t : datetime) : string :=
  zero_pad 4 (year t) ++ "-" ++ zero_pad 2 (month t) ++ "-" ++ zero_pad 2 (day t)
    ++ chr sep
    ++ zero_pad 2 (hour t) ++ ":" ++ zero_pad 2 (minute t) ++ ":" ++ zero_pad 2 (second t)
    ++ (if (microsecond t =? 0)%N then "" else "." ++ zero_pad 6 (microsecond t)).

(** [str(t)] *)
Definition datetime_str (t : datetime) : string := isoformat_sep " " t.

(** [t.isoformat()] *)
Definition isoformat (t : datetime) : string := isoformat_sep "T" t.

Definition datetime_key (t : datetime) : list N :=
  [year t; month t; day t; hour t; minute t; second t; microsecond t].

Fixpoint lex_leb (a b : list N) : bool :=
  match a, b with
  | [], _ => true
  | _ :: _, [] => false
  | x :: a', y :: b' => (x <? y)%N || ((x =? y)%N && lex_leb a' b')
  end.

(** [a <= b] on naive datetimes: the fields compared in order. *)
Definition datetime_leb (a b : datetime) : bool :=
  lex_leb (datetime_key a) (datetime_key b).

Definition datetime_le (a b : datetime) : Prop := datetime_leb a b = true.

(** ** The analysis record *)

(** [StartupAnalysis]: the dataclass.  Python does not enforce the field
    annotations, so a section is any value; [analyze_startup_idea] stores
    dicts there. *)
Record StartupAnalysis : Type := {
  market_research : pyval;
  customer_analysis : pyval;
  business_model : pyval;
  technical_feasibility : pyval;
  financial_projections : pyval;
  go_to_market : pyval;
  risk_assessment : pyval;
  recommendations : list pyval;
  created_at : datetime
}.

(** [analysis.__dict__] as [json.dumps(..., default=str)] encodes it: the
    fields in declaration order, and [created_at], the one value the encoder
    does not know, replaced by [str(created_at)]. *)
Definition analysis_dict (analysis : StartupAnalysis) : pydict :=
  [ ("market_research", market_research analysis);
    ("customer_analysis", customer_analysis analysis);
    ("business_model", business_model analysis);
    ("technical_feasibility", technical_feasibility analysis);
    ("financial_projections", financial_projections analysis);
    ("go_to_market", go_to_market analysis);
    ("risk_assessment", risk_assessment analysis);
    ("recommendations", PList (recommendations analysis));
    ("created_at", PStr (datetime_str (created_at analysis))) ].

(** the seven named sections, in the order of the fields *)
Definition section_names : list string :=
  [ "market_research"; "customer_analysis"; "business_model";
    "technical_feasibility"; "financial_projections"; "go_to_market";
    "risk_assessment" ].

Definition valid_analysis (analysis : StartupAnalysis) : bool :=
  valid_value (PDict (analysis_dict analysis)).

(** ** Exceptions and the agent's monad *)

Inductive exn : Type :=
| KeyError (key : string)
| ValueError (msg : string)
| HTTPException (status_code : Z) (detail : string).

Inductive result (A : Type) : Type :=
| Ok (a : A)
| Raise (e : exn).

Arguments Ok {A} a.
Arguments Raise {A} e.

(** What one call of the text-generation service does: it returns the text
    of the response, or it raises an [Exception] whose [str] is the message. *)
Inductive outcome : Type :=
| Returned (text : string)
| Raised (message : string).

(** ** Prompt templates (the f-strings of agent.py) *)

Definition analysis_prompt (startup_idea task : string) : string :=
  "
            As an expert startup analyst, provide detailed analysis for: " ++ task ++ "
            
            Startup Idea: " ++ startup_idea ++ "
            
            Please provide your analysis in a structured format with clear sections and actionable insights.
            ".

Definition pitch_prompt (analysis : StartupAnalysis) : string :=
  "
        Based on the following startup analysis, create a compelling pitch deck structure:
        
        " ++ json_dumps (PDict (analysis_dict analysis)) ++ "
        
        Include:
        1. Problem Statement
        2. Solution Overview
        3. Market Opportunity
        4. Business Model
        5. Competitive Advantage
        6. Financial Projections
        7. Go-to-Market Strategy
        8. Team & Execution Plan
        9. Funding Requirements
        10. Call to Action
        ".

Definition validation_prompt (business_model : pyval) : string :=
  "
        Validate and improve this business model:
        
        " ++ json_dumps business_model ++ "
        
        Provide:
        1. Strengths and weaknesses
        2. Potential improvements
        3. Risk factors
        4. Scalability assessment
        5. Revenue optimization suggestions
        ".

(** ** Markdown *)

(** [_convert_to_markdown] *)
Definition _convert_to_markdown (analysis : StartupAnalysis) : string :=
  "# Startup Analysis Report
Generated on: " ++ datetime_str (created_at analysis) ++ "

## Market Research
"
  ++ json_dumps (market_research analysis) ++ "

## Customer Analysis
"
  ++ json_dumps (customer_analysis analysis) ++ "

## Business Model
"
  ++ json_dumps (business_model analysis) ++ "

## Technical Feasibility
"
  ++ json_dumps (technical_feasibility analysis) ++ "

## Financial Projections
"
  ++ json_dumps (financial_projections analysis) ++ "

## Go-to-Market Strategy
"
  ++ json_dumps (go_to_market analysis) ++ "

## Risk Assessment
"
  ++ json_dumps (risk_assessment analysis) ++ "

## Recommendations
"
  ++ join (chr LF) (map (fun rec => "- " ++ py_str rec) (recommendations analysis))
  ++ "
".

(** ** The agent *)

Section Agent.

(** The outside world: the state of the Gemini service and of the wall
    clock.  [generate_content prompt] is the call
    [asyncio.to_thread(self.gemini_model.generate_content, prompt)] followed
    by reading [response.text]; [datetime_now] is [datetime.now()]. *)
Variable World : Type.
Variable generate_content : string -> World -> outcome * World.
Variable datetime_now : World -> datetime * World.

(** [self.analysis_history] next to the world the agent runs in. *)
Record State : Type := {
  world : World;
  analysis_history : list StartupAnalysis
}.

(** A method body: it ends with a value or an exception, and the state it
    reached either way. *)
Definition M (A : Type) : Type := State -> result A * State.

Definition ret {A : Type} (a : A) : M A := fun st => (Ok a, st).

Definition raise {A : Type} (e : exn) : M A := fun st => (Raise e, st).

Definition bind {A B : Type} (c : M A) (k : A -> M B) : M B :=
  fun st =>
    match c st with
    | (Ok a, st') => k a st'
    | (Raise e, st') => (Raise e, st')
    end.

Notation "x <- c ;; k" := (bind c (fun x => k))
  (at level 61, c at next level, right associativity).

Definition call_service (prompt : string) : M outcome :=
  fun st =>
    let (o, w) := generate_content prompt (world st) in
    (Ok o, {| world := w; analysis_history := analysis_history st |}).

Definition read_clock : M datetime :=
  fun st =>
    let (t, w) := datetime_now (world st) in
    (Ok t, {| world := w; analysis_history := analysis_history st |}).

(** [self.analysis_history.append(analysis)] *)
Definition history_append (analysis : StartupAnalysis) : M unit :=
  fun st =>
    (Ok tt, {| world := world st;
               analysis_history := analysis_history st ++ [analysis] |}).

(** [results[key]] *)
Definition subscript (results : pydict) (key : string) : M pyval :=
  match dict_get results key with
  | Some v => ret v
  | None => raise (KeyError key)
  end.

(** [StartupAIAgent.__init__] *)
Definition __init__ (w : World) : State :=
  {| world := w; analysis_history := [] |}.

Definition tasks : list (string * string) :=
  [ ("market_research", "Analyze market size, trends, and competitive landscape");
    ("customer_analysis", "Define target customers and their pain points");
    ("business_model", "Design comprehensive business model and revenue streams");
    ("technical_feasibility", "Evaluate technical requirements and feasibility");
    ("financial_projections", "Create financial projections and funding requirements");
    ("go_to_market", "Develop go-to-market strategy and launch plan");
    ("risk_assessment", "Identify potential risks and mitigation strategies");
    ("recommendations", "Provide actionable recommendations and next steps") ].

(** the value a section gets from the outcome of its call *)
Definition section_value (o : outcome) : pyval :=
  match o with
  | Returned text => PDict [("analysis", PStr text); ("source", PStr "Gemini")]
  | Raised message => PDict [("error", PStr message); ("source", PStr "Gemini")]
  end.

(** [_analyze_with_gemini]: the [try] returns the response text, the
    [except Exception] the error marker. *)
Definition _analyze_with_gemini (startup_idea task : string) : M pyval :=
  o <- call_service (analysis_prompt startup_idea task) ;;
  ret (section_value o).

(** the [for task_name, task_description in tasks] loop *)
Fixpoint analyze_tasks (startup_idea : string) (ts : list (string * string))
    (results : pydict) : M pydict :=
  match ts with
  | [] => ret results
  | (task_name, task_description) :: ts' =>
      gemini_result <- _analyze_with_gemini startup_idea task_description ;;
      analyze_tasks startup_idea ts' (dict_set results task_name gemini_result)
  end.

(** [r if isinstance(r, list) else [str(r)]] *)
Definition coerce_recommendations (r : pyval) : list pyval :=
  match r with
  | PList l => l
  | _ => [PStr (py_str r)]
  end.

(** [analyze_startup_idea] *)
Definition analyze_startup_idea (startup_idea : string) : M StartupAnalysis :=
  results <- analyze_tasks startup_idea tasks [] ;;
  r1 <- subscript results "market_research" ;;
  r2 <- subscript results "customer_analysis" ;;
  r3 <- subscript results "business_model" ;;
  r4 <- subscript results "technical_feasibility" ;;
  r5 <- subscript results "financial_projections" ;;
  r6 <- subscript results "go_to_market" ;;
  r7 <- subscript results "risk_assessment" ;;
  r8 <- subscript results "recommendations" ;;
  t <- read_clock ;;
  let analysis :=
    {| market_research := r1;
       customer_analysis := r2;
       business_model := r3;
       technical_feasibility := r4;
       financial_projections := r5;
       go_to_market := r6;
       risk_assessment := r7;
       recommendations := coerce_recommendations r8;
       created_at := t |} in
  _ <- history_append analysis ;;
  ret analysis.

(** [generate_pitch_deck] *)
Definition generate_pitch_deck (analysis : StartupAnalysis) : M pyval :=
  o <- call_service (pitch_prompt analysis) ;;
  match o with
  | Returned text =>
      t <- read_clock ;;
      ret (PDict [("pitch_deck", PStr text); ("generated_at", PStr (isoformat t))])
  | Raised message => ret (PDict [("error", PStr message)])
  end.

(** [validate_business_model] *)
Definition validate_business_model (business_model : pyval) : M pyval :=
  o <- call_service (validation_prompt business_model) ;;
  match o with
  | Returned text =>
      t <- read_clock ;;
      ret (PDict [("validation", PStr text); ("validated_at", PStr (isoformat t))])
  | Raised message => ret (PDict [("error", PStr message)])
  end.

(** [get_analysis_history] *)
Definition get_analysis_history : M (list StartupAnalysis) :=
  fun st => (Ok (analysis_history st), st).

(** [export_analysis] *)
Definition export_analysis (analysis : StartupAnalysis) (format : string) : M string :=
  if String.eqb (lower format) "json" then
    ret (json_dumps (PDict (analysis_dict analysis)))
  else if String.eqb (lower format) "markdown" then
    ret (_convert_to_markdown analysis)
  else
    raise (ValueError ("Unsupported format: " ++ format)).

(** [delete_analysis], the DELETE route of api.py over the module's agent *)
Definition delete_analysis (analysis_id : Z) : M unit :=
  raise (HTTPException 501 "Delete functionality not implemented yet").

(** *** Sessions: the operations a caller can run on one agent *)

Inductive call : Type :=
| AnalyzeStartupIdea (startup_idea : string)
| GeneratePitchDeck (analysis : StartupAnalysis)
| ValidateBusinessModel (business_model : pyval)
| GetAnalysisHistory
| ExportAnalysis (analysis : StartupAnalysis) (format : string)
| DeleteAnalysis (analysis_id : Z).

Inductive reply : Type :=
| Analysis (analysis : StartupAnalysis)
| Mapping (d : pyval)
| History (h : list StartupAnalysis)
| Text (s : string)
| Nothing.

Definition run_call (c : call) : M reply :=
  match c with
  | AnalyzeStartupIdea startup_idea =>
      a <- analyze_startup_idea startup_idea ;; ret (Analysis a)
  | GeneratePitchDeck analysis =>
      d <- generate_pitch_deck analysis ;; ret (Mapping d)
  | ValidateBusinessModel business_model =>
      d <- validate_business_model business_model ;; ret (Mapping d)
  | GetAnalysisHistory =>
      h <- get_analysis_history ;; ret (History h)
  | ExportAnalysis analysis format =>
      s <- export_analysis analysis format ;; ret (Text s)
  | DeleteAnalysis analysis_id =>
      _ <- delete_analysis analysis_id ;; ret Nothing
  end.

(** The calls of a session one after the other; a call that raises does
    not end the session. *)
Fixpoint run_calls (cs : list call) (st : State) : list (result reply) * State :=
  match cs with
  | [] => ([], st)
  | c :: cs' =>
      let (r, st') := run_call c st in
      let (rs, st'') := run_calls cs' st' in
      (r :: rs, st'')
  end.

(** the records that the analyze calls of a session returned, in call order *)
Fixpoint analyses_returned (rs : list (result reply)) : list StartupAnalysis :=
  match rs with
  | [] => []
  | Ok (Analysis a) :: rs' => a :: analyses_returned rs'
  | _ :: rs' => analyses_returned rs'
  end.

(** The outcomes of the service calls that one analysis issues for the
    prompts of [ts], in order, and the world after the last of them. *)
Fixpoint section_outcomes (startup_idea : string) (ts : list (string * string))
    (w : World) : list outcome * World :=
  match ts with
  | [] => ([], w)
  | (_, task_description) :: ts' =>
      let (o, w1) := generate_content (analysis_prompt startup_idea task_description) w in
      let (os, w2) := section_outcomes startup_idea ts' w1 in
      (o :: os, w2)
  end.

(** One step of the world: a service call or a reading of the clock. *)
Inductive world_step : World -> World -> Prop :=
| step_service (prompt : string) (w : World) :
    world_step w (snd (generate_content prompt w))
| step_clock (w : World) :
    world_step w (snd (datetime_now w)).

Inductive later : World -> World -> Prop :=
| later_refl (w : World) : later w w
| later_step (w1 w2 w3 : World) : world_step w1 w2 -> later w2 w3 -> later w1 w3.

(** The wall clock never reads less than it did before. *)
Definition clock_monotone : Prop :=
  forall w w', later w w' ->
    datetime_le (fst (datetime_now w)) (fst (datetime_now w')).

End Agent.

Arguments world {World} s.
Arguments analysis_history {World} s.
Arguments Build_State {World} world analysis_history.
Arguments ret {World A} a st.
Arguments raise {World A} e st.
Arguments bind {World A B} c k st.
Arguments call_service {World} generate_content prompt st.
Arguments read_clock {World} datetime_now st.
Arguments history_append {World} analysis st.
Arguments subscript {World} results key st.
Arguments __init__ {World} w.
Arguments _analyze_with_gemini {World} generate_content startup_idea task st.
Arguments analyze_tasks {World} generate_content startup_idea ts results st.
Arguments analyze_startup_idea {World} generate_content datetime_now startup_idea st.
Arguments generate_pitch_deck {World} generate_content datetime_now analysis st.
Arguments validate_business_model {World} generate_content datetime_now business_model st.
Arguments get_analysis_history {World} st.
Arguments export_analysis {World} analysis format st.
Arguments delete_analysis {World} analysis_id st.
Arguments run_call {World} generate_content datetime_now c st.
Arguments run_calls {World} generate_content datetime_now cs st.
Arguments section_outcomes {World} generate_content startup_idea ts w.
Arguments world_step {World} generate_content datetime_now _ _.
Arguments later {World} generate_content datetime_now _ _.
Arguments clock_monotone {World} generate_content datetime_now.

(** the error marker of a section whose call raised *)
Definition error_marker (message : string) : pyval :=
  PDict [("error", PStr message); ("source", PStr "Gemini")].

(** the table that the loop fills from the outcomes of its calls *)
Definition store_outcomes (results : pydict) (names : list string)
    (outs : list outcome) : pydict :=
  fold_left (fun d no => dict_set d (fst no) (section_value (snd no)))
            (combine names outs) results.

(** The last record of the history was stamped by a reading of the clock
    in a world that the present one comes after. *)
Definition last_stamped {World : Type}
    (generate_content : string -> World -> outcome * World)
    (datetime_now : World -> datetime * World) (st : State World) : Prop :=
  forall h' b, analysis_history st = (h' ++ [b])%list ->
    exists w0, created_at b = fst (datetime_now w0)
               /\ later generate_content datetime_now w0 (world st).

(** successive records carry non-decreasing timestamps *)
Definition timestamps_sorted (h : list StartupAnalysis) : Prop :=
  forall i a b,
    nth_error h i = Some a -> nth_error h (S i) = Some b ->
    datetime_le (created_at a) (created_at b).


(** ** [json.loads] *)

Definition is_ws (c : ascii) : bool :=
  Ascii.eqb c " " || Ascii.eqb c TAB || Ascii.eqb c LF || Ascii.eqb c CR.

Fixpoint skip_ws (s : string) : string :=
  match s with
  | "" => ""
  | String c s' => if is_ws c then skip_ws s' else s
  end.

Definition is_digit (c : ascii) : bool :=
  ((48 <=? code c) && (code c <=? 57))%N.

Definition hex_val (c : ascii) : option N :=
  let n := code c in
  if ((48 <=? n) && (n <=? 57))%N then Some (n - 48)%N
  else if ((97 <=? n) && (n <=? 102))%N then Some (n - 87)%N
  else if ((65 <=? n) && (n <=? 70))%N then Some (n - 55)%N
  else None.

Definition hex4 (h1 h2 h3 h4 : ascii) : option N :=
  match hex_val h1, hex_val h2, hex_val h3, hex_val h4 with
  | Some a, Some b, Some c, Some d => Some (((a * 16 + b) * 16 + c) * 16 + d)%N
  | _, _, _, _ => None
  end.

(** the character an escape letter stands for *)
Definition unescape (e : ascii) : option ascii :=
  if Ascii.eqb e DQ then Some DQ
  else if Ascii.eqb e BSL then Some BSL
  else if Ascii.eqb e "/" then Some "/"%char
  else if Ascii.eqb e "b" then Some BS
  else if Ascii.eqb e "f" then Some FF
  else if Ascii.eqb e "n" then Some LF
  else if Ascii.eqb e "r" then Some CR
  else if Ascii.eqb e "t" then Some TAB
  else None.

Definition cons_char (c : ascii) (r : option (string * string)) : option (string * string) :=
  match r with
  | Some (t, rest) => Some (String c t, rest)
  | None => None
  end.

(** [scanstring], just behind the opening quote: the text up to the closing
    quote and what follows it.  Control characters are refused (strict
    mode); an escape above 0xFF leaves the alphabet of the model. *)
Fixpoint scanstring (s : string) : option (string * string) :=
  match s with
  | "" => None
  | String c s1 =>
      if Ascii.eqb c DQ then Some ("", s1)
      else if Ascii.eqb c BSL then
        match s1 with
        | "" => None
        | String e s2 =>
            if Ascii.eqb e "u" then
              match s2 with
              | String h1 (String h2 (String h3 (String h4 s3))) =>
                  match hex4 h1 h2 h3 h4 with
                  | Some n =>
                      if (n <? 256)%N then cons_char (ascii_of_N n) (scanstring s3)
                      else None
                  | None => None
                  end
              | _ => None
              end
            else
              match unescape e with
              | Some c' => cons_char c' (scanstring s2)
              | None => None
              end
        end
      else if (code c <? 32)%N then None
      else cons_char c (scanstring s1)
  end.

Fixpoint scan_digits (acc : N) (s : string) : N * string :=
  match s with
  | "" => (acc, "")
  | String c s' =>
      if is_digit c then scan_digits (10 * acc + (code c - 48))%N s' else (acc, s)
  end.

(** the integer part [0|[1-9][0-9]*] of a number: a leading zero stands
    alone *)
Definition parse_nat (s : string) : option (N * string) :=
  match s with
  | "" => None
  | String c s' =>
      if negb (is_digit c) then None
      else if Ascii.eqb c "0" then Some (0%N, s')
      else Some (scan_digits 0 s)
  end.

(** a fraction or an exponent follows: the number is a float, outside the
    values of the model *)
Definition float_follows (s : string) : bool :=
  match s with
  | "" => false
  | String c _ => Ascii.eqb c "." || Ascii.eqb c "e" || Ascii.eqb c "E"
  end.

Definition parse_number (s : string) : option (pyval * string) :=
  match s with
  | "" => None
  | String c s' =>
      if Ascii.eqb c "-" then
        match parse_nat s' with
        | Some (n, r) => if float_follows r then None else Some (PInt (- Z.of_N n), r)
        | None => None
        end
      else
        match parse_nat s with
        | Some (n, r) => if float_follows r then None else Some (PInt (Z.of_N n), r)
        | None => None
        end
  end.

Fixpoint strip_prefix (p s : string) : option string :=
  match p, s with
  | "", _ => Some s
  | String a p', String b s' => if Ascii.eqb a b then strip_prefix p' s' else None
  | String _ _, "" => None
  end.

Definition expect (c : ascii) (s : string) : option string :=
  match s with
  | "" => None
  | String d r => if Ascii.eqb d c then Some r else None
  end.

(** [scan_once], [JSONArray] and [JSONObject] of json.decoder.  The fuel
    bounds the number of values and members read. *)
Fixpoint parse_value (fuel : nat) (s : string) : option (pyval * string) :=
  match fuel with
  | O => None
  | S fuel' =>
      match s with
      | "" => None
      | String c s' =>
          if Ascii.eqb c DQ then
            match scanstring s' with
            | Some (t, r) => Some (PStr t, r)
            | None => None
            end
          else if Ascii.eqb c "{" then
            match expect "}" (skip_ws s') with
            | Some r => Some (PDict [], r)
            | None =>
                match parse_members fuel' (skip_ws s') with
                | Some (ps, r) => Some (PDict (dict_of_pairs ps), r)
                | None => None
                end
            end
          else if Ascii.eqb c "[" then
            match expect "]" (skip_ws s') with
            | Some r => Some (PList [], r)
            | None =>
                match parse_elements fuel' (skip_ws s') with
                | Some (vs, r) => Some (PList vs, r)
                | None => None
                end
            end
          else if Ascii.eqb c "n" then
            match strip_prefix "null" s with
            | Some r => Some (PNone, r)
            | None => None
            end
          else if Ascii.eqb c "t" then
            match strip_prefix "true" s with
            | Some r => Some (PBool true, r)
            | None => None
            end
          else if Ascii.eqb c "f" then
            match strip_prefix "false" s with
            | Some r => Some (PBool false, r)
            | None => None
            end
          else parse_number s
      end
  end

with parse_elements (fuel : nat) (s : string) : option (list pyval * string) :=
  match fuel with
  | O => None
  | S fuel' =>
      match parse_value fuel' s with
      | Some (v, r1) =>
          match expect "]" (skip_ws r1) with
          | Some r2 => Some ([v], r2)
          | None =>
              match expect "," (skip_ws r1) with
              | Some r2 =>
                  match parse_elements fuel' (skip_ws r2) with
                  | Some (vs, r3) => Some (v :: vs, r3)
                  | None => None
                  end
              | None => None
              end
          end
      | None => None
      end
  end

with parse_members (fuel : nat) (s : string) : option (list (string * pyval) * string) :=
  match fuel with
  | O => None
  | S fuel' =>
      match expect DQ s with
      | Some s1 =>
          match scanstring s1 with
          | Some (k, r1) =>
              match expect ":" (skip_ws r1) with
              | Some r2 =>
                  match parse_value fuel' (skip_ws r2) with
                  | Some (v, r3) =>
                      match expect "}" (skip_ws r3) with
                      | Some r4 => Some ([(k, v)], r4)
                      | None =>
                          match expect "," (skip_ws r3) with
                          | Some r4 =>
                              match parse_members fuel' (skip_ws r4) with
                              | Some (ps, r5) => Some ((k, v) :: ps, r5)
                              | None => None
                              end
                          | None => None
                          end
                      end
                  | None => None
                  end
              | None => None
              end
          | None => None
          end
      | None => None
      end
  end.

(** [json.loads(s)]: one value between optional white space, and nothing
    after it.  [None] stands for a [JSONDecodeError] or for a document with
    a float or a character above 0xFF. *)
Definition json_loads (s : string) : option pyval :=
  match parse_value (String.length s) (skip_ws s) with
  | Some (v, r) =>
      match skip_ws r with
      | "" => Some v
      | String _ _ => None
      end
  | None => None
  end.

(** ** Lines of a document *)

(** [s.split(chr(10))] *)
Fixpoint lines (s : string) : list string :=
  match s with
  | "" => [""]
  | String c s' =>
      if Ascii.eqb c LF then "" :: lines s'
      else
        match lines s' with
        | l :: ls => String c l :: ls
        | [] => [chr c]
        end
  end.

(** [s.startswith(p)] *)
Fixpoint starts_with (p s : string) : bool :=
  match p, s with
  | "", _ => true
  | String a p', String b s' => Ascii.eqb a b && starts_with p' s'
  | String _ _, "" => false
  end.

(** a line that opens a list item: a dash and a space *)
Definition is_bullet (l : string) : bool := starts_with "- " l.

Definition bullet_lines (doc : string) : list string :=
  filter is_bullet (lines doc).

(** the heading lines of the seven sections in the markdown template *)
Definition section_headings : list string :=
  [ "## Market Research"; "## Customer Analysis"; "## Business Model";
    "## Technical Feasibility"; "## Financial Projections";
    "## Go-to-Market Strategy"; "## Risk Assessment" ].

(** [s] spells [name] with any of its letters in upper case *)
Fixpoint capitalization_of (name s : string) : bool :=
  match name, s with
  | "", "" => true
  | String c name', String d s' =>
      (Ascii.eqb d c || Ascii.eqb d (upper_ascii_char c)) && capitalization_of name' s'
  | _, _ => false
  end.

(** ** Test doubles for the service and the clock *)

Record stub_world : Type := {
  calls : nat;   (* service calls so far *)
  ticks : nat    (* clock readings so far *)
}.

Definition stub_start : stub_world := {| calls := 0; ticks := 0 |}.

Definition task_name_at (k : nat) : string :=
  nth (k mod 8) (map fst tasks) "".

(** a service that answers every call, naming the section it was asked for *)
Definition stub_generate (prompt : string) (w : stub_world) : outcome * stub_world :=
  (Returned ("STUB:" ++ task_name_at (calls w) ++ " analysis text"),
   {| calls := S (calls w); ticks := ticks w |}).

(** a service that fails on every call *)
Definition failing_generate (prompt : string) (w : stub_world) : outcome * stub_world :=
  (Raised "503 Service Unavailable", {| calls := S (calls w); ticks := ticks w |}).

(** a service that fails for the risk assessment only *)
Definition flaky_generate (prompt : string) (w : stub_world) : outcome * stub_world :=
  (if String.eqb (task_name_at (calls w)) "risk_assessment"
   then Raised "429 Quota exceeded"
   else Returned ("STUB:" ++ task_name_at (calls w) ++ " analysis text"),
   {| calls := S (calls w); ticks := ticks w |}).

Definition noon (us : N) : datetime :=
  {| year := 2025; month := 3; day := 14;
     hour := 12; minute := 0; second := 0; microsecond := us |}.

(** a clock that advances by a microsecond per reading *)
Definition ticking_clock (w : stub_world) : datetime * stub_world :=
  (noon (N.of_nat (ticks w)), {| calls := calls w; ticks := S (ticks w) |}).

(** a wall clock that is set back between two readings *)
Definition backward_clock (w : stub_world) : datetime * stub_world :=
  (noon (500000 - N.of_nat (ticks w)), {| calls := calls w; ticks := S (ticks w) |}).

Definition sample_analysis : StartupAnalysis :=
  {| market_research := PDict [("test", PStr "data")];
     customer_analysis := PDict [("test", PStr "data")];
     business_model := PDict [("test", PStr "data")];
     technical_feasibility := PDict [("test", PStr "data")];
     financial_projections := PDict [("test", PStr "data")];
     go_to_market := PDict [("test", PStr "data")];
     risk_assessment := PDict [("test", PStr "data")];
     recommendations := [PStr "Test recommendation"];
     created_at := noon 0 |}.

(** ** Measures and scanners used in the statements below *)

Fixpoint all_chars (p : ascii -> bool) (s : string) : bool :=
  match s with
  | "" => true
  | String c s' => p c && all_chars p s'
  end.

(** the number that the digits of [d] spell behind the digits read so far *)
Fixpoint uint_value (acc : N) (d : Decimal.uint) : N :=
  match d with
  | Decimal.Nil => acc
  | Decimal.D0 d' => uint_value (10 * acc + 0) d'
  | Decimal.D1 d' => uint_value (10 * acc + 1) d'
  | Decimal.D2 d' => uint_value (10 * acc + 2) d'
  | Decimal.D3 d' => uint_value (10 * acc + 3) d'
  | Decimal.D4 d' => uint_value (10 * acc + 4) d'
  | Decimal.D5 d' => uint_value (10 * acc + 5) d'
  | Decimal.D6 d' => uint_value (10 * acc + 6) d'
  | Decimal.D7 d' => uint_value (10 * acc + 7) d'
  | Decimal.D8 d' => uint_value (10 * acc + 8) d'
  | Decimal.D9 d' => uint_value (10 * acc + 9) d'
  end.

(** the values and members of [v], counted as the decoder reads them *)
Fixpoint size (v : pyval) : nat :=
  match v with
  | PList l => S (list_sum (map (fun x => S (size x)) l))
  | PDict d => S (list_sum (map (fun kv => S (size (snd kv))) d))
  | _ => 1
  end.

(** what may follow a number: neither a digit nor the start of a fraction
    or an exponent *)
Definition ends_number (rest : string) : bool :=
  match rest with
  | "" => true
  | String c _ => negb (is_digit c) && negb (float_follows rest)
  end.

(** the first character of an encoded value: not white space, and not a
    closing bracket *)
Definition opens_value (s : string) : bool :=
  match s with
  | "" => false
  | String c _ =>
      negb (is_ws c) && negb (Ascii.eqb c "]") && negb (Ascii.eqb c "}")
  end.

(** No line of [s] begins with a dash; [fresh] tells whether [s] starts at
    the beginning of a line. *)
Fixpoint dash_free (fresh : bool) (s : string) : bool :=
  match s with
  | "" => true
  | String c s' =>
      if Ascii.eqb c LF then dash_free true s'
      else negb (fresh && Ascii.eqb c "-") && dash_free false s'
  end.

(** whether the text that follows [s] starts a line *)
Fixpoint ends_fresh (fresh : bool) (s : string) : bool :=
  match s with
  | "" => fresh
  | String c s' => ends_fresh (Ascii.eqb c LF) s'
  end.

(** the bulleted list of the markdown template *)
Definition bullet_block (recs : list pyval) : string :=
  join (chr LF) (map (fun rec => "- " ++ py_str rec) recs).

(** the lines of the markdown document, piece by piece *)
Definition markdown_pieces (analysis : StartupAnalysis) : list string :=
  [ "# Startup Analysis Report";
    "Generated on: " ++ datetime_str (created_at analysis);
    "";
    "## Market Research";
    json_dumps (market_research analysis);
    "";
    "## Customer Analysis";
    json_dumps (customer_analysis analysis);
    "";
    "## Business Model";
    json_dumps (business_model analysis);
    "";
    "## Technical Feasibility";
    json_dumps (technical_feasibility analysis);
    "";
    "## Financial Projections";
    json_dumps (financial_projections analysis);
    "";
    "## Go-to-Market Strategy";
    json_dumps (go_to_market analysis);
    "";
    "## Risk Assessment";
    json_dumps (risk_assessment analysis);
    "";
    "## Recommendations";
    bullet_block (recommendations analysis);
    "" ].

(** a session: two analyses with an export, a delete request and a history
    request in between *)
Definition sample_session : list call :=
  [AnalyzeStartupIdea "first idea"; ExportAnalysis sample_analysis "json";
   DeleteAnalysis 0; GetAnalysisHistory; AnalyzeStartupIdea "second idea"].

(** a record with a recommendation that runs over two lines *)
Definition two_line_analysis : StartupAnalysis :=
  {| market_research := PDict [("test", PStr "data")];
     customer_analysis := PDict [("test", PStr "data")];
     business_model := PDict [("test", PStr "data")];
     technical_feasibility := PDict [("test", PStr "data")];
     financial_projections := PDict [("test", PStr "data")];
     go_to_market := PDict [("test", PStr "data")];
     risk_assessment := PDict [("test", PStr "data")];
     recommendations := [PStr ("Launch a pilot" ++ chr LF ++ "- then raise a seed round")];
     created_at := noon 0 |}.

(** [s] neither starts a line with a dash behind one of its line breaks nor
    ends with a line break *)
Definition inline (s : string) : Prop :=
  dash_free false s = true /\ ends_fresh false s = false.

(** Any fuel from the size of [v] on reads the encoding of [v] back,
    whatever the nesting depth and the text behind it. *)
Definition reads_back (v : pyval) : Prop :=
  forall fuel level rest,
    size v <= fuel -> ends_number rest = true ->
    parse_value fuel (dumps_at level v ++ rest) = Some (v, rest).

(** one member of an encoded dict: the key, a colon, a space, the value *)
Definition member_text (level : nat) (kv : string * pyval) : string :=
  encode_basestring_ascii (fst kv) ++ ": " ++ dumps_at (S level) (snd kv).

(** ** Where the records of a session are stamped *)

(** The worlds in which the analyses of a session read the clock for their
    records, in call order: for each [analyze_startup_idea] the world that
    its eight service calls leave. *)
Fixpoint construction_worlds {World : Type}
    (generate_content : string -> World -> outcome * World)
    (datetime_now : World -> datetime * World)
    (cs : list call) (st : State World) : list World :=
  match cs with
  | [] => []
  | c :: cs' =>
      let rest :=
        construction_worlds generate_content datetime_now cs'
          (snd (run_call generate_content datetime_now c st)) in
      match c with
      | AnalyzeStartupIdea idea =>
          snd (section_outcomes generate_content idea tasks (world st)) :: rest
      | _ => rest
      end
  end.

(** The clock is not set back between its reading in [w1] and its reading
    in [w2]: the second reading is not less than the first. *)
Definition not_set_back {World : Type} (datetime_now : World -> datetime * World)
    (w1 w2 : World) : Prop :=
  datetime_le (fst (datetime_now w1)) (fst (datetime_now w2)).

(** a wall clock that is set back once, after its first reading, and runs
    forward from there *)
Definition reset_clock (w : stub_world) : datetime * stub_world :=
  (noon (if Nat.eqb (ticks w) 0 then 500000 else N.of_nat (ticks w)),
   {| calls := calls w; ticks := S (ticks w) |}).

(** ** A service that records its prompts *)

(** The world is the list of the prompts submitted so far; [respond] decides
    the outcome of a call from its prompt. *)
Definition recording_generate (respond : string -> outcome) (prompt : string)
    (log : list string) : outcome * list string :=
  (respond prompt, (log ++ [prompt])%list).

(** a clock that reads [t] and leaves the world alone *)
Definition fixed_clock {World : Type} (t : datetime) (w : World) : datetime * World :=
  (t, w).

(** the prompts of one analysis, in the order of [tasks] *)
Definition analysis_prompts (startup_idea : string) : list string :=
  map (fun task => analysis_prompt startup_idea (snd task)) tasks.

(** a printable ASCII character or a line feed *)
Definition is_ascii_text_char (c : ascii) : bool :=
  Ascii.eqb c LF || ((32 <=? code c) && (code c <=? 126))%N.

(** ** Heading lines of the markdown document *)

(** No line of [s] begins with a hash sign; [fresh] tells whether [s] starts
    at the beginning of a line. *)
Fixpoint hash_free (fresh : bool) (s : string) : bool :=
  match s with
  | "" => true
  | String c s' =>
      if Ascii.eqb c LF then hash_free true s'
      else negb (fresh && Ascii.eqb c "#") && hash_free false s'
  end.

(** [s] neither starts a line with a hash sign behind one of its line breaks
    nor ends with a line break *)
Definition plain (s : string) : Prop :=
  hash_free false s = true /\ ends_fresh false s = false.

(** a line that opens a section: two hash signs and a space *)
Definition is_heading (l : string) : bool := starts_with "## " l.

Definition heading_lines (doc : string) : list string :=
  filter is_heading (lines doc).

(** the heading lines of the markdown template: the seven sections and the
    recommendations *)
Definition markdown_headings : list string :=
  (section_headings ++ ["## Recommendations"])%list.

(** ** Calendar arithmetic of [datetime] *)

(** [calendar.isleap] *)
Definition is_leap (y : N) : bool :=
  ((y mod 4 =? 0) && (negb (y mod 100 =? 0) || (y mod 400 =? 0)))%N.

(** [datetime._days_in_month] *)
Definition days_in_month (y m : N) : N :=
  if (m =? 2)%N then (if is_leap y then 29 else 28)%N
  else if ((m =? 4) || (m =? 6) || (m =? 9) || (m =? 11))%N then 30%N
  else 31%N.

(** the fields that the [datetime] constructor accepts *)
Definition valid_datetime (t : datetime) : bool :=
  ((1 <=? year t) && (year t <=? 9999)
   && (1 <=? month t) && (month t <=? 12)
   && (1 <=? day t) && (day t <=? days_in_month (year t) (month t))
   && (hour t <=? 23) && (minute t <=? 59) && (second t <=? 59)
   && (microsecond t <=? 999999))%N.

(** [datetime._days_before_year] *)
Definition days_before_year (y : N) : N :=
  let y1 := (y - 1)%N in (y1 * 365 + y1 / 4 - y1 / 100 + y1 / 400)%N.

(** [datetime._days_before_month] *)
Fixpoint days_before_month_from (y : N) (m : nat) : N :=
  match m with
  | O => 0%N
  | S m' => (days_before_month_from y m' + days_in_month y (N.of_nat m))%N
  end.

Definition days_before_month (y m : N) : N :=
  days_before_month_from y (N.to_nat m - 1).

(** [t.toordinal()] *)
Definition toordinal (t : datetime) : N :=
  (days_before_year (year t) + days_before_month (year t) (month t) + day t)%N.

(** the microseconds from the start of day 0 of the calendar to [t] *)
Definition to_microseconds (t : datetime) : Z :=
  ((Z.of_N (toordinal t) * 86400
    + Z.of_N (hour t * 3600 + minute t * 60 + second t)) * 1000000
   + Z.of_N (microsecond t))%Z.

(** [(a - b).days]: the days of the normalized [timedelta], rounded down *)
Definition days_between (a b : datetime) : Z :=
  ((to_microseconds a - to_microseconds b) / 86400000000)%Z.

(** [a.date() == b.date()] *)
Definition same_date (a b : datetime) : bool :=
  ((year a =? year b) && (month a =? month b) && (day a =? day b))%N.

(** *** [datetime.fromisoformat] on the texts that [isoformat] writes *)

(** exactly [w] digits, read as a number *)
Fixpoint read_digits (w : nat) (acc : N) (s : string) : option (N * string) :=
  match w with
  | O => Some (acc, s)
  | S w' =>
      match s with
      | "" => None
      | String c s' =>
          if is_digit c then read_digits w' (10 * acc + (code c - 48))%N s' else None
      end
  end.

Definition skip_char (s : string) : option string :=
  match s with
  | "" => None
  | String _ s' => Some s'
  end.

(** the fraction of a second: nothing, or a point and six digits *)
Definition read_fraction (s : string) : option N :=
  match s with
  | "" => Some 0%N
  | String c s' =>
      if Ascii.eqb c "." then
        match read_digits 6 0 s' with
        | Some (us, "") => Some us
        | _ => None
        end
      else None
  end.

(** [datetime.fromisoformat(s)] for a text of the shape that [isoformat]
    and [str] write: the date, one separator character, the time of day and
    an optional fraction of six digits; the fields must pass the constructor.
    [None] stands for the [ValueError] and for the further ISO 8601 shapes
    that Python reads, which this model leaves out. *)
Definition fromisoformat (s : string) : option datetime :=
  match read_digits 4 0 s with
  | Some (y, s1) =>
  match expect "-" s1 with
  | Some s2 =>
  match read_digits 2 0 s2 with
  | Some (mo, s3) =>
  match expect "-" s3 with
  | Some s4 =>
  match read_digits 2 0 s4 with
  | Some (d, s5) =>
  match skip_char s5 with
  | Some s6 =>
  match read_digits 2 0 s6 with
  | Some (h, s7) =>
  match expect ":" s7 with
  | Some s8 =>
  match read_digits 2 0 s8 with
  | Some (mi, s9) =>
  match expect ":" s9 with
  | Some s10 =>
  match read_digits 2 0 s10 with
  | Some (sec, s11) =>
  match read_fraction s11 with
  | Some us =>
      let t := {| year := y; month := mo; day := d;
                  hour := h; minute := mi; second := sec; microsecond := us |} in
      if valid_datetime t then Some t else None
  | None => None end
  | None => None end
  | None => None end
  | None => None end
  | None => None end
  | None => None end
  | None => None end
  | None => None end
  | None => None end
  | None => None end
  | None => None end
  | None => None end.

(** ** Truth value *)

(** [bool(v)] *)
Definition py_bool (v : pyval) : bool :=
  match v with
  | PNone => false
  | PBool b => b
  | PInt z => negb (z =? 0)%Z
  | PStr s => negb (String.eqb s "")
  | PList l => match l with [] => false | _ => true end
  | PDict d => match d with [] => false | _ => true end
  end.

(** the field annotations of the dataclass hold: the sections are dicts, the
    recommendations strings *)
Definition is_dict (v : pyval) : bool :=
  match v with PDict _ => true | _ => false end.

Definition is_str (v : pyval) : bool :=
  match v with PStr _ => true | _ => false end.

Definition typed_analysis (analysis : StartupAnalysis) : bool :=
  is_dict (market_research analysis) && is_dict (customer_analysis analysis)
  && is_dict (business_model analysis) && is_dict (technical_feasibility analysis)
  && is_dict (financial_projections analysis) && is_dict (go_to_market analysis)
  && is_dict (risk_assessment analysis)
  && forallb is_str (recommendations analysis).

(** ** The HTTP routes of api.py *)

(** The request and response models.  Their values are the fields that the
    handlers read and write. *)

Module StartupIdeaRequest.
Record t : Type := {
  idea : string;
  include_market_research : bool;
  include_customer_analysis : bool;
  include_business_model : bool;
  include_technical_feasibility : bool;
  include_financial_projections : bool;
  include_go_to_market : bool;
  include_risk_assessment : bool
}.
End StartupIdeaRequest.

Module AnalysisResponse.
Record t : Type := {
  analysis_id : Z;
  created_at : datetime;
  market_research : pyval;
  customer_analysis : pyval;
  business_model : pyval;
  technical_feasibility : pyval;
  financial_projections : pyval;
  go_to_market : pyval;
  risk_assessment : pyval;
  recommendations : list pyval
}.
End AnalysisResponse.

Module PitchDeckRequest.
Record t : Type := { analysis_id : Z }.
End PitchDeckRequest.

Module PitchDeckResponse.
Record t : Type := {
  analysis_id : Z;
  pitch_deck : string;
  generated_at : datetime
}.
End PitchDeckResponse.

Module BusinessModelValidationRequest.
Record t : Type := { business_model : pyval }.
End BusinessModelValidationRequest.

Module ValidationResponse.
Record t : Type := {
  validation : string;
  validated_at : datetime
}.
End ValidationResponse.

Module ExportRequest.
Record t : Type := {
  analysis_id : Z;
  format : string
}.
End ExportRequest.

(** What the handlers take from FastAPI and pydantic, whose code is not part
    of the repository. *)
Record Framework : Type := {
  (* [str(e)] of an [HTTPException] with this status code and detail *)
  http_exception_str : Z -> string -> string;
  (* what pydantic makes of the fields given to [AnalysisResponse]: the
     validated fields, or the message of the [ValidationError] *)
  response_model : StartupAnalysis -> StartupAnalysis + string;
  (* the exception of an operation applied to a value of another type than
     the handler expects *)
  type_error : exn
}.

(** the methods of the agent that the module of the routes holds *)
Module agent.
Definition analyze_startup_idea {World : Type} := @analyze_startup_idea World.
Definition generate_pitch_deck {World : Type} := @generate_pitch_deck World.
Definition validate_business_model {World : Type} := @validate_business_model World.
Definition get_analysis_history {World : Type} := @get_analysis_history World.
Definition export_analysis {World : Type} := @export_analysis World.
End agent.

Module Api.

Section Routes.

Variable World : Type.
Variable generate_content : string -> World -> outcome * World.
Variable datetime_now : World -> datetime * World.
Variable fw : Framework.

Notation "x <- c ;; k" := (bind c (fun x => k))
  (at level 61, c at next level, right associativity).

(** [str(e)] *)
Definition exn_str (e : exn) : string :=
  match e with
  | KeyError key => repr_str key
  | ValueError msg => msg
  | HTTPException status_code detail => http_exception_str fw status_code detail
  end.

(** [try: body / except Exception as e: raise HTTPException(500, prefix + str(e))];
    an [HTTPException] raised by the body is an [Exception] too. *)
Definition rewrap {A : Type} (prefix : string) (body : M World A) : M World A :=
  fun st =>
    match body st with
    | (Ok a, st') => (Ok a, st')
    | (Raise e, st') => (Raise (HTTPException 500 (prefix ++ exn_str e)), st')
    end.

(** The same with [except HTTPException: raise] in front. *)
Definition reraise_http {A : Type} (prefix : string) (body : M World A) : M World A :=
  fun st =>
    match body st with
    | (Ok a, st') => (Ok a, st')
    | (Raise (HTTPException status_code detail), st') =>
        (Raise (HTTPException status_code detail), st')
    | (Raise e, st') => (Raise (HTTPException 500 (prefix ++ exn_str e)), st')
    end.

(** the bounds test of the routes, then [history[analysis_id]] *)
Definition select (history : list StartupAnalysis) (analysis_id : Z)
  : M World StartupAnalysis :=
  if ((analysis_id <? 0) || (Z.of_nat (length history) <=? analysis_id))%Z then
    raise (HTTPException 404 "Analysis not found")
  else
    match nth_error history (Z.to_nat analysis_id) with
    | Some analysis => ret analysis
    | None => raise (type_error fw)   (* not reached: the index is in range *)
    end.

(** [AnalysisResponse(analysis_id=..., created_at=analysis.created_at, ...)] *)
Definition respond (analysis_id : Z) (analysis : StartupAnalysis)
  : M World AnalysisResponse.t :=
  match response_model fw analysis with
  | inl fields =>
      ret {| AnalysisResponse.analysis_id := analysis_id;
             AnalysisResponse.created_at := created_at fields;
             AnalysisResponse.market_research := market_research fields;
             AnalysisResponse.customer_analysis := customer_analysis fields;
             AnalysisResponse.business_model := business_model fields;
             AnalysisResponse.technical_feasibility := technical_feasibility fields;
             AnalysisResponse.financial_projections := financial_projections fields;
             AnalysisResponse.go_to_market := go_to_market fields;
             AnalysisResponse.risk_assessment := risk_assessment fields;
             AnalysisResponse.recommendations := recommendations fields |}
  | inr message => raise (ValueError message)
  end.

(** POST /analyze *)
Definition analyze_startup_idea (request : StartupIdeaRequest.t)
  : M World AnalysisResponse.t :=
  rewrap "Analysis failed: "
    (analysis <- agent.analyze_startup_idea generate_content datetime_now
                   (StartupIdeaRequest.idea request) ;;
     history <- agent.get_analysis_history ;;
     let analysis_id := (Z.of_nat (length history) - 1)%Z in
     respond analysis_id analysis).

(** one entry of GET /analyses *)
Definition summary_entry (i : nat) (analysis : StartupAnalysis) : pyval :=
  PDict
    [ ("analysis_id", PInt (Z.of_nat i));
      ("created_at", PStr (isoformat (created_at analysis)));
      ("summary",
       PDict
         [ ("market_research", PBool (py_bool (market_research analysis)));
           ("customer_analysis", PBool (py_bool (customer_analysis analysis)));
           ("business_model", PBool (py_bool (business_model analysis)));
           ("technical_feasibility", PBool (py_bool (technical_feasibility analysis)));
           ("financial_projections", PBool (py_bool (financial_projections analysis)));
           ("go_to_market", PBool (py_bool (go_to_market analysis)));
           ("risk_assessment", PBool (py_bool (risk_assessment analysis))) ]) ].

(** [[... for i, analysis in enumerate(history)]], counting from [i] *)
Fixpoint summaries (i : nat) (history : list StartupAnalysis) : list pyval :=
  match history with
  | [] => []
  | analysis :: rest => summary_entry i analysis :: summaries (S i) rest
  end.

(** GET /analyses *)
Definition get_analysis_history : M World pyval :=
  rewrap "Failed to get history: "
    (history <- agent.get_analysis_history ;;
     ret (PList (summaries 0 history))).

(** GET /analyses/{analysis_id} *)
Definition get_analysis (analysis_id : Z) : M World AnalysisResponse.t :=
  reraise_http "Failed to get analysis: "
    (history <- agent.get_analysis_history ;;
     analysis <- select history analysis_id ;;
     respond analysis_id analysis).

(** [PitchDeckResponse(analysis_id=..., pitch_deck=pitch_deck["pitch_deck"],
    generated_at=datetime.fromisoformat(pitch_deck["generated_at"]))] *)
Definition pitch_response (analysis_id : Z) (d : pydict) : M World PitchDeckResponse.t :=
  text <- subscript d "pitch_deck" ;;
  stamp <- subscript d "generated_at" ;;
  match text, stamp with
  | PStr text, PStr stamp =>
      match fromisoformat stamp with
      | Some t =>
          ret {| PitchDeckResponse.analysis_id := analysis_id;
                 PitchDeckResponse.pitch_deck := text;
                 PitchDeckResponse.generated_at := t |}
      | None => raise (ValueError ("Invalid isoformat string: " ++ repr_str stamp))
      end
  | _, _ => raise (type_error fw)   (* not reached: both are strings *)
  end.

(** POST /pitch-deck *)
Definition generate_pitch_deck (request : PitchDeckRequest.t)
  : M World PitchDeckResponse.t :=
  reraise_http "Failed to generate pitch deck: "
    (history <- agent.get_analysis_history ;;
     analysis <- select history (PitchDeckRequest.analysis_id request) ;;
     pitch_deck <- agent.generate_pitch_deck generate_content datetime_now analysis ;;
     match pitch_deck with
     | PDict d =>
         match dict_get d "error" with
         | Some message =>
             raise (HTTPException 500
                      ("Failed to generate pitch deck: " ++ py_str message))
         | None => pitch_response (PitchDeckRequest.analysis_id request) d
         end
     | _ => raise (type_error fw)   (* not reached: the agent returns a dict *)
     end).

(** [ValidationResponse(validation=validation["validation"],
    validated_at=datetime.fromisoformat(validation["validated_at"]))] *)
Definition validation_response (d : pydict) : M World ValidationResponse.t :=
  text <- subscript d "validation" ;;
  stamp <- subscript d "validated_at" ;;
  match text, stamp with
  | PStr text, PStr stamp =>
      match fromisoformat stamp with
      | Some t =>
          ret {| ValidationResponse.validation := text;
                 ValidationResponse.validated_at := t |}
      | None => raise (ValueError ("Invalid isoformat string: " ++ repr_str stamp))
      end
  | _, _ => raise (type_error fw)   (* not reached: both are strings *)
  end.

(** POST /validate-business-model *)
Definition validate_business_model (request : BusinessModelValidationRequest.t)
  : M World ValidationResponse.t :=
  reraise_http "Failed to validate business model: "
    (validation <- agent.validate_business_model generate_content datetime_now
                     (BusinessModelValidationRequest.business_model request) ;;
     match validation with
     | PDict d =>
         match dict_get d "error" with
         | Some message =>
             raise (HTTPException 500 ("Validation failed: " ++ py_str message))
         | None => validation_response d
         end
     | _ => raise (type_error fw)   (* not reached: the agent returns a dict *)
     end).

(** POST /export: there is no [except HTTPException: raise] here. *)
Definition export_analysis (request : ExportRequest.t) : M World pyval :=
  rewrap "Failed to export analysis: "
    (history <- agent.get_analysis_history ;;
     analysis <- select history (ExportRequest.analysis_id request) ;;
     content <- agent.export_analysis analysis (ExportRequest.format request) ;;
     t <- read_clock datetime_now ;;
     ret (PDict [ ("analysis_id", PInt (ExportRequest.analysis_id request));
                  ("format", PStr (ExportRequest.format request));
                  ("content", PStr content);
                  ("exported_at", PStr (isoformat t)) ])).

(** [len([h for h in history if test(datetime.now(), h)])]: the clock is read
    once for every record. *)
Fixpoint count_records (test : datetime -> StartupAnalysis -> bool)
    (history : list StartupAnalysis) : M World nat :=
  match history with
  | [] => ret 0
  | h :: rest =>
      t <- read_clock datetime_now ;;
      n <- count_records test rest ;;
      ret (if test t h then S n else n)
  end.

(** GET /metrics *)
Definition get_metrics : M World pyval :=
  rewrap "Failed to get metrics: "
    (history <- agent.get_analysis_history ;;
     today <- count_records (fun t h => same_date (created_at h) t) history ;;
     week <- count_records
               (fun t h => (days_between t (created_at h) <=? 7)%Z) history ;;
     this_month <- count_records
                     (fun t h => (month (created_at h) =? month t)%N) history ;;
     ret (PDict [ ("total_analyses", PInt (Z.of_nat (length history)));
                  ("analyses_today", PInt (Z.of_nat today));
                  ("analyses_this_week", PInt (Z.of_nat week));
                  ("analyses_this_month", PInt (Z.of_nat this_month));
                  ("average_analysis_time", PStr "~30 seconds");
                  ("api_status", PStr "healthy") ])).

(** *** Sessions of requests on the agent of the module *)

Inductive request : Type :=
| PostAnalyze (r : StartupIdeaRequest.t)
| GetAnalyses
| GetAnalysis (analysis_id : Z)
| PostPitchDeck (r : PitchDeckRequest.t)
| PostValidate (r : BusinessModelValidationRequest.t)
| PostExport (r : ExportRequest.t)
| DeleteAnalysisRequest (analysis_id : Z)
| GetMetrics.

(** the state that a request leaves; its response is not kept *)
Definition serve (r : request) (st : State World) : State World :=
  match r with
  | PostAnalyze r => snd (analyze_startup_idea r st)
  | GetAnalyses => snd (get_analysis_history st)
  | GetAnalysis analysis_id => snd (get_analysis analysis_id st)
  | PostPitchDeck r => snd (generate_pitch_deck r st)
  | PostValidate r => snd (validate_business_model r st)
  | PostExport r => snd (export_analysis r st)
  | DeleteAnalysisRequest analysis_id => snd (delete_analysis analysis_id st)
  | GetMetrics => snd (get_metrics st)
  end.

Definition serve_all (rs : list request) (st : State World) : State World :=
  fold_left (fun st r => serve r st) rs st.

End Routes.

Arguments rewrap {World} fw {A} prefix body st.
Arguments reraise_http {World} fw {A} prefix body st.
Arguments select {World} fw history analysis_id st.
Arguments respond {World} fw analysis_id analysis st.
Arguments analyze_startup_idea {World} generate_content datetime_now fw request st.
Arguments get_analysis_history {World} fw st.
Arguments get_analysis {World} fw analysis_id st.
Arguments pitch_response {World} fw analysis_id d st.
Arguments generate_pitch_deck {World} generate_content datetime_now fw request st.
Arguments validation_response {World} fw d st.
Arguments validate_business_model {World} generate_content datetime_now fw request st.
Arguments export_analysis {World} datetime_now fw request st.
Arguments count_records {World} datetime_now test history st.
Arguments get_metrics {World} datetime_now fw st.
Arguments serve {World} generate_content datetime_now fw r st.
Arguments serve_all {World} generate_content datetime_now fw rs st.

End Api.

(** a framework for the examples: pydantic accepts the records whose fields
    follow the annotations *)
Definition sample_framework : Framework :=
  {| http_exception_str := fun status_code detail =>
       int_str status_code ++ ": " ++ detail;
     response_model := fun analysis =>
       if typed_analysis analysis then inl analysis
       else inr "validation error for AnalysisResponse";
     type_error := ValueError "unexpected type" |}.

(** a method body that leaves [self.analysis_history] as it found it *)
Definition keeps_history {World A : Type} (c : M World A) : Prop :=
  forall st, analysis_history (snd (c st)) = analysis_history st.

(** the record that a response of the analysis routes carries *)
Definition response_fields (r : AnalysisResponse.t) : StartupAnalysis :=
  {| market_research := AnalysisResponse.market_research r;
     customer_analysis := AnalysisResponse.customer_analysis r;
     business_model := AnalysisResponse.business_model r;
     technical_feasibility := AnalysisResponse.technical_feasibility r;
     financial_projections := AnalysisResponse.financial_projections r;
     go_to_market := AnalysisResponse.go_to_market r;
     risk_assessment := AnalysisResponse.risk_assessment r;
     recommendations := AnalysisResponse.recommendations r;
     created_at := AnalysisResponse.created_at r |}.

(** pydantic takes the records whose fields follow the annotations of
    [AnalysisResponse] as they are *)
Definition accepts_typed (fw : Framework) : Prop :=
  forall analysis, typed_analysis analysis = true ->
                   response_model fw analysis = inl analysis.

(** the world after [n] readings of the clock *)
Fixpoint after_readings {World : Type} (datetime_now : World -> datetime * World)
    (n : nat) (w : World) : World :=
  match n with
  | O => w
  | S n' => after_readings datetime_now n' (snd (datetime_now w))
  end.

(** [entry[key]] of an entry of a JSON list, when it is a mapping with the key *)
Definition field (key : string) (entry : pyval) : option pyval :=
  match entry with
  | PDict d => dict_get d key
  | _ => None
  end.

(** every section of the record is a non-empty value *)
Definition filled (analysis : StartupAnalysis) : bool :=
  py_bool (market_research analysis) && py_bool (customer_analysis analysis)
  && py_bool (business_model analysis) && py_bool (technical_feasibility analysis)
  && py_bool (financial_projections analysis) && py_bool (go_to_market analysis)
  && py_bool (risk_assessment analysis).

(** the summary of GET /analyses with every flag set *)
Definition full_summary : pyval :=
  PDict [ ("market_research", PBool true);
          ("customer_analysis", PBool true);
          ("business_model", PBool true);
          ("technical_feasibility", PBool true);
          ("financial_projections", PBool true);
          ("go_to_market", PBool true);
          ("risk_assessment", PBool true) ].

(** the reply of GET /metrics for the four counts *)
Definition metrics_reply (total today week this_month : nat) : pyval :=
  PDict [ ("total_analyses", PInt (Z.of_nat total));
          ("analyses_today", PInt (Z.of_nat today));
          ("analyses_this_week", PInt (Z.of_nat week));
          ("analyses_this_month", PInt (Z.of_nat this_month));
          ("average_analysis_time", PStr "~30 seconds");
          ("api_status", PStr "healthy") ].

(** ** Exceptions outside the agent *)

(** the exceptions that the utilities and the command line let out or handle *)
Inductive py_exn : Type :=
| Exn (e : exn)                       (* one of the exceptions of the agent *)
| IndexError
| TypeError (message : string)
| OSError (message : string)          (* a file that cannot be read or written *)
| JSONDecodeError (message : string)
| EOFError                            (* [input()] at the end of the input *)
| KeyboardInterrupt.

(** [except Exception] takes all of them but [KeyboardInterrupt] *)
Definition is_exception (e : py_exn) : bool :=
  match e with
  | KeyboardInterrupt => false
  | _ => true
  end.

Inductive ended (A : Type) : Type :=
| Done (a : A)
| Thrown (e : py_exn).

Arguments Done {A} a.
Arguments Thrown {A} e.

(** ** utils.py *)

Module utils.

(** the class [\s] of [re] on the Latin-1 code points, which is also
    [str.isspace] and what [str.strip] removes: TAB to CR, the separators
    0x1C to 0x1F, the space, NEL and the no-break space *)
Definition is_space (c : ascii) : bool :=
  let n := code c in
  ((9 <=? n) && (n <=? 13) || (28 <=? n) && (n <=? 32)
   || (n =? 133) || (n =? 160))%N.

(** the class [\w] of [re] on the Latin-1 code points: the characters of
    [str.isalnum] and the underscore *)
Definition is_word (c : ascii) : bool :=
  let n := code c in
  ((48 <=? n) && (n <=? 57) || (65 <=? n) && (n <=? 90) || (n =? 95)
   || (97 <=? n) && (n <=? 122) || (n =? 170) || (n =? 178) || (n =? 179)
   || (n =? 181) || (n =? 185) || (n =? 186) || (188 <=? n) && (n <=? 190)
   || (192 <=? n) && (n <=? 214) || (216 <=? n) && (n <=? 246)
   || (248 <=? n))%N.

(** [s.lstrip()] *)
Fixpoint lstrip (s : string) : string :=
  match s with
  | "" => ""
  | String c s' => if is_space c then lstrip s' else s
  end.

(** [s.rstrip()] *)
Fixpoint rstrip (s : string) : string :=
  match s with
  | "" => ""
  | String c s' =>
      match rstrip s' with
      | "" => if is_space c then "" else String c ""
      | r => String c r
      end
  end.

(** [s.strip()] *)
Definition strip (s : string) : string := rstrip (lstrip s).

(** [re.sub(r'\s+', ' ', s)]: every maximal run of white space becomes one
    space; [in_run] tells that the character before was white space. *)
Fixpoint collapse (in_run : bool) (s : string) : string :=
  match s with
  | "" => ""
  | String c s' =>
      if is_space c then
        if in_run then collapse true s' else String " " (collapse true s')
      else String c (collapse false s')
  end.

(** the characters outside the class [[^\w\s\.\,\!\?\-\:\;\(\)]] *)
Definition kept (c : ascii) : bool :=
  is_word c || is_space c
  || existsb (Ascii.eqb c) (list_ascii_of_string ".,!?-:;()").

(** [re.sub(r'[^\w\s\.\,\!\?\-\:\;\(\)]', '', s)] *)
Fixpoint remove_special (s : string) : string :=
  match s with
  | "" => ""
  | String c s' =>
      if kept c then String c (remove_special s') else remove_special s'
  end.

(** [clean_text]; [None] is the argument [None] *)
Definition clean_text (text : option string) : string :=
  match text with
  | None => ""
  | Some "" => ""
  | Some text => remove_special (collapse false (strip text))
  end.

(** [needle in haystack] *)
Fixpoint occurs (needle haystack : string) : bool :=
  starts_with needle haystack
  || match haystack with
     | "" => false
     | String _ rest => occurs needle rest
     end.

(** [s.replace(old, new)] for one-character [old] and [new] *)
Fixpoint replace_char (old new : ascii) (s : string) : string :=
  match s with
  | "" => ""
  | String c s' =>
      String (if Ascii.eqb c old then new else c) (replace_char old new s')
  end.

(** [swot[key].append(item)] *)
Definition list_append (swot : pydict) (key : string) (item : pyval) : pydict :=
  match dict_get swot key with
  | Some (PList items) => dict_set swot key (PList (items ++ [item]))
  | _ => swot
  end.

(** [for keyword in keywords: if keyword in analysis_text:
       swot[key].append(phrase(keyword))] *)
Fixpoint collect (analysis_text key : string) (phrase : string -> string)
    (keywords : list string) (swot : pydict) : pydict :=
  match keywords with
  | [] => swot
  | keyword :: rest =>
      collect analysis_text key phrase rest
        (if occurs keyword analysis_text
         then list_append swot key (PStr (phrase keyword))
         else swot)
  end.

(** [if not swot[key]: swot[key] = defaults] *)
Definition default_items (key : string) (defaults : list string) (swot : pydict)
  : pydict :=
  match dict_get swot key with
  | Some items =>
      if py_bool items then swot else dict_set swot key (PList (map PStr defaults))
  | None => swot
  end.

Definition strength_keywords : list string :=
  [ "unique"; "innovative"; "competitive advantage"; "strong team";
    "proven technology"; "market demand"; "scalable"; "profitable" ].

Definition weakness_keywords : list string :=
  [ "limited"; "small"; "unproven"; "risky"; "expensive";
    "complex"; "difficult"; "challenging"; "uncertain" ].

Definition opportunity_keywords : list string :=
  [ "growing market"; "increasing demand"; "market expansion";
    "new technology"; "partnership"; "acquisition"; "funding" ].

Definition threat_keywords : list string :=
  [ "competition"; "market saturation"; "regulation"; "economic";
    "technology change"; "customer churn"; "funding risk" ].

Definition strength_phrase (keyword : string) : string :=
  "Strong " ++ replace_char "_" " " keyword.

Definition weakness_phrase (keyword : string) : string :=
  "Potential " ++ keyword ++ " challenges".

Definition opportunity_phrase (keyword : string) : string :=
  "Market " ++ keyword.

Definition threat_phrase (keyword : string) : string :=
  "Potential " ++ keyword ++ " threats".

(** [generate_swot_analysis] *)
Definition generate_swot_analysis (analysis_data : pyval) : pydict :=
  let analysis_text := lower (py_str analysis_data) in
  let swot := [ ("strengths", PList []); ("weaknesses", PList []);
                ("opportunities", PList []); ("threats", PList []) ] in
  let swot := collect analysis_text "strengths" strength_phrase
                strength_keywords swot in
  let swot := collect analysis_text "weaknesses" weakness_phrase
                weakness_keywords swot in
  let swot := collect analysis_text "opportunities" opportunity_phrase
                opportunity_keywords swot in
  let swot := collect analysis_text "threats" threat_phrase
                threat_keywords swot in
  let swot := default_items "strengths"
                [ "Innovative solution"; "Market opportunity";
                  "Scalable business model" ] swot in
  let swot := default_items "weaknesses"
                [ "New market entrant"; "Limited resources"; "Unproven concept" ]
                swot in
  let swot := default_items "opportunities"
                [ "Market growth"; "Technology advancement";
                  "Partnership potential" ] swot in
  let swot := default_items "threats"
                [ "Competition"; "Market changes"; "Economic factors" ] swot in
  swot.

(** the name of the type of a value, as Python prints it *)
Definition type_name (v : pyval) : string :=
  match v with
  | PNone => "NoneType"
  | PBool _ => "bool"
  | PInt _ => "int"
  | PStr _ => "str"
  | PList _ => "list"
  | PDict _ => "dict"
  end.

(** [for item in v]: the items of a list, the characters of a text, the keys
    of a mapping; the other values are not iterable *)
Definition iterate (v : pyval) : list pyval + py_exn :=
  match v with
  | PList items => inl items
  | PStr s => inl (map (fun c => PStr (chr c)) (list_ascii_of_string s))
  | PDict d => inl (map (fun kv => PStr (fst kv)) d)
  | _ => inr (TypeError (String SQ (type_name v) ++ String SQ " object is not iterable"))
  end.

(** [d.get(key, default)] *)
Definition get (d : pydict) (key : string) (default : pyval) : pyval :=
  match dict_get d key with
  | Some v => v
  | None => default
  end.

(** [t.strftime('%Y-%m-%d %H:%M:%S')]; the year is printed in decimal
    without padding, as the C library of Linux does for [%Y] (the years from
    1000 on have four digits either way) *)
Definition strftime_seconds (t : datetime) : string :=
  nat_str (year t) ++ "-" ++ zero_pad 2 (month t) ++ "-" ++ zero_pad 2 (day t)
    ++ " " ++ zero_pad 2 (hour t) ++ ":" ++ zero_pad 2 (minute t) ++ ":"
    ++ zero_pad 2 (second t).

(** *** [pathlib.Path] on a POSIX system, by the text of the path *)

(** [s.lstrip("/")] *)
Fixpoint lstrip_slashes (s : string) : string :=
  match s with
  | String "/" s' => lstrip_slashes s'
  | _ => s
  end.

(** [s.split("/")] *)
Fixpoint split_slashes (s : string) : list string :=
  match s with
  | "" => [""]
  | String c s' =>
      if Ascii.eqb c "/" then "" :: split_slashes s'
      else
        match split_slashes s' with
        | part :: parts => String c part :: parts
        | [] => [chr c]
        end
  end.

(** [str(Path(filename))]: one slash for the root, or two when the text
    starts with exactly two; the components between slashes without the
    empty ones and the dots; a dot when nothing is left *)
Definition Path (filename : string) : string :=
  let rel := lstrip_slashes filename in
  let root :=
    match String.length filename - String.length rel with
    | 0 => ""
    | 2 => "//"
    | _ => "/"
    end in
  let parts :=
    filter (fun part => negb (String.eqb part "") && negb (String.eqb part "."))
           (split_slashes rel) in
  match root ++ join "/" parts with
  | "" => "."
  | text => text
  end.

Section Reports.

Variable World : Type.
Variable datetime_now : World -> datetime * World.
(** [with open(path, 'w') as f: f.write(content)] *)
Variable write_text : string -> string -> World -> option py_exn * World.

(** [convert_to_markdown]: the placeholders are filled from left to right,
    so the clock is read before the recommendations are gone through *)
Definition convert_to_markdown (analysis_data : pydict) (w : World)
  : ended string * World :=
  let (t, w1) := datetime_now w in
  match iterate (get analysis_data "recommendations" (PList [])) with
  | inr e => (Thrown e, w1)
  | inl recs =>
      (Done
         ("# Startup Analysis Report
Generated on: "
        ++ strftime_seconds t
        ++ "

## Executive Summary
This comprehensive analysis evaluates the startup opportunity across multiple dimensions including market research, customer analysis, business model design, technical feasibility, financial projections, go-to-market strategy, and risk assessment.

## Key Findings
- Market Size: "
        ++ py_str (get analysis_data "market_size" (PStr "To be determined"))
        ++ "
- Competition Level: "
        ++ py_str (get analysis_data "competition_level" (PStr "To be assessed"))
        ++ "
- Feasibility Score: "
        ++ py_str (get analysis_data "feasibility_score" (PStr "To be calculated"))
        ++ "%
- Risk Level: "
        ++ py_str (get analysis_data "risk_level" (PStr "To be evaluated"))
        ++ "

## Detailed Analysis

### Market Research
"
        ++ json_dumps (get analysis_data "market_research" (PDict []))
        ++ "

### Customer Analysis
"
        ++ json_dumps (get analysis_data "customer_analysis" (PDict []))
        ++ "

### Business Model
"
        ++ json_dumps (get analysis_data "business_model" (PDict []))
        ++ "

### Technical Feasibility
"
        ++ json_dumps (get analysis_data "technical_feasibility" (PDict []))
        ++ "

### Financial Projections
"
        ++ json_dumps (get analysis_data "financial_projections" (PDict []))
        ++ "

### Go-to-Market Strategy
"
        ++ json_dumps (get analysis_data "go_to_market" (PDict []))
        ++ "

### Risk Assessment
"
        ++ json_dumps (get analysis_data "risk_assessment" (PDict []))
        ++ "

## Recommendations
"
        ++ join (chr LF) (map (fun rec => "- " ++ py_str rec) recs)
        ++ "

## Next Steps
1. Review and validate key assumptions
2. Develop detailed implementation plan
3. Secure necessary resources and funding
4. Execute go-to-market strategy
5. Monitor and iterate based on feedback

---
*Report generated by Startup AI Agent*
"),
       w1)
  end.

(** [with open(output_path, 'w') as f: f.write(content)] *)
Definition write (output_path content : string) (w : World) : ended unit * World :=
  let (r, w1) := write_text output_path content w in
  (match r with None => Done tt | Some e => Thrown e end, w1).

(** [save_analysis_report]; it writes to [Path(filename)] and returns it *)
Definition save_analysis_report (analysis_data : pydict) (filename format : string)
    (w : World) : ended string * World :=
  let output_path := Path filename in
  if String.eqb (lower format) "json" then
    match write output_path (json_dumps (PDict analysis_data)) w with
    | (Done _, w1) => (Done output_path, w1)
    | (Thrown e, w1) => (Thrown e, w1)
    end
  else if String.eqb (lower format) "markdown" then
    match convert_to_markdown analysis_data w with
    | (Done markdown_content, w1) =>
        match write output_path markdown_content w1 with
        | (Done _, w2) => (Done output_path, w2)
        | (Thrown e, w2) => (Thrown e, w2)
        end
    | (Thrown e, w1) => (Thrown e, w1)
    end
  else (Thrown (Exn (ValueError ("Unsupported format: " ++ format))), w).

End Reports.

Arguments convert_to_markdown {World} datetime_now analysis_data w.
Arguments write {World} write_text output_path content w.
Arguments save_analysis_report {World} datetime_now write_text analysis_data filename
  format w.

End utils.

(** *** Forms of a cleaned text *)

(** the characters that a cleaned text can hold: the space, and the kept
    characters that are not white space *)
Definition clean_char (c : ascii) : bool :=
  Ascii.eqb c " " || utils.kept c && negb (utils.is_space c).

(** no space follows a space; [after_space] tells that the character before
    was one *)
Fixpoint single_spaced (after_space : bool) (s : string) : bool :=
  match s with
  | "" => true
  | String c s' =>
      if Ascii.eqb c " " then negb after_space && single_spaced true s'
      else single_spaced false s'
  end.

(** the last character is white space *)
Fixpoint ends_with_space (s : string) : bool :=
  match s with
  | "" => false
  | String c "" => utils.is_space c
  | String _ s' => ends_with_space s'
  end.

(** the items that a list of keywords yields for a text, or the defaults *)
Definition swot_items (analysis_text : string) (phrase : string -> string)
    (keywords defaults : list string) : list string :=
  match filter (fun keyword => utils.occurs keyword analysis_text) keywords with
  | [] => defaults
  | found => map phrase found
  end.

(** a text without white space at its start *)
Definition starts_clear (s : string) : bool :=
  match s with
  | "" => true
  | String c _ => negb (utils.is_space c)
  end.

(** ** The command line of cli.py *)

(** What the commands print is left out, as in the agent: the model keeps
    what they ask of the agent, of the service, of the clock, of the files
    and of the terminal input. *)

(** how the process ends: by returning from [main], or by [sys.exit(code)] *)
Inductive exit : Type :=
| Completed
| Exit (code : Z).

(** the arguments that [argparse] hands over, by sub-command *)
Module AnalyzeArgs.
Record t : Type := {
  idea : option string;
  file : option string;
  output : option string;
  format : string
}.
End AnalyzeArgs.

Module ExportArgs.
Record t : Type := {
  analysis_id : Z;
  format : string;
  output : option string
}.
End ExportArgs.

Inductive args : Type :=
| CmdAnalyze (a : AnalyzeArgs.t)
| CmdPitch (analysis_id : Z)
| CmdValidate (business_model : string)
| CmdExport (a : ExportArgs.t)
| CmdHistory
| CmdInteractive.

(** [if value:] for an optional text: [None] and the empty text are false *)
Definition given (value : option string) : option string :=
  match value with
  | Some (String c s) => Some (String c s)
  | _ => None
  end.

Module cli.

Section Commands.

Variable World : Type.
Variable generate_content : string -> World -> outcome * World.
Variable datetime_now : World -> datetime * World.
(** [input(prompt)]: a line of the terminal, or [EOFError] or
    [KeyboardInterrupt] *)
Variable input : World -> (string + py_exn) * World.
(** [open(path, 'r').read()]: the text of the file, or the exception *)
Variable read_text : string -> World -> (string + py_exn) * World.
(** [json.load(open(path, 'r'))]: the value in the file, or the exception *)
Variable load_json : string -> World -> (pyval + py_exn) * World.
(** [Path(path).write_text(content)] *)
Variable write_text : string -> string -> World -> option py_exn * World.

Definition Cli (A : Type) : Type := State World -> ended A * State World.

Definition done {A : Type} (a : A) : Cli A := fun st => (Done a, st).

Definition throw {A : Type} (e : py_exn) : Cli A := fun st => (Thrown e, st).

Definition and_then {A B : Type} (c : Cli A) (k : A -> Cli B) : Cli B :=
  fun st =>
    match c st with
    | (Done a, st') => k a st'
    | (Thrown e, st') => (Thrown e, st')
    end.

Notation "x <- c ;; k" := (and_then c (fun x => k))
  (at level 61, c at next level, right associativity).

(** a method of the agent, called from the command line *)
Definition call_agent {A : Type} (m : M World A) : Cli A :=
  fun st =>
    match m st with
    | (Ok a, st') => (Done a, st')
    | (Raise e, st') => (Thrown (Exn e), st')
    end.

(** an operation of the world that gives a value or an exception *)
Definition ask {A : Type} (op : World -> (A + py_exn) * World) : Cli A :=
  fun st =>
    let (r, w) := op (world st) in
    (match r with inl a => Done a | inr e => Thrown e end,
     {| world := w; analysis_history := analysis_history st |}).

Definition write_file (path content : string) : Cli unit :=
  fun st =>
    let (r, w) := write_text path content (world st) in
    (match r with None => Done tt | Some e => Thrown e end,
     {| world := w; analysis_history := analysis_history st |}).

(** [history[analysis_id]] for an index that is not negative *)
Definition item (history : list StartupAnalysis) (analysis_id : Z)
  : Cli StartupAnalysis :=
  match nth_error history (Z.to_nat analysis_id) with
  | Some analysis => done analysis
  | None => throw IndexError
  end.

(** [run_analyze] *)
Definition run_analyze (a : AnalyzeArgs.t) : Cli unit :=
  startup_idea <-
    match given (AnalyzeArgs.file a) with
    | Some path => text <- ask (read_text path) ;; done (Some (utils.strip text))
    | None => done (AnalyzeArgs.idea a)
    end ;;
  match given startup_idea with
  | None => done tt
  | Some startup_idea =>
      analysis <- call_agent (agent.analyze_startup_idea generate_content
                                datetime_now startup_idea) ;;
      match given (AnalyzeArgs.output a) with
      | Some path =>
          content <- call_agent (agent.export_analysis analysis
                                   (AnalyzeArgs.format a)) ;;
          write_file path content
      | None => done tt   (* the sections are printed *)
      end
  end.

(** [args.analysis_id if args.analysis_id >= 0 else len(history) - 1] *)
Definition chosen (analysis_id : Z) (history : list StartupAnalysis) : Z :=
  if (0 <=? analysis_id)%Z then analysis_id
  else (Z.of_nat (length history) - 1)%Z.

(** [run_pitch] *)
Definition run_pitch (analysis_id : Z) : Cli unit :=
  history <- call_agent agent.get_analysis_history ;;
  match history with
  | [] => done tt
  | _ =>
      let analysis_id := chosen analysis_id history in
      if (Z.of_nat (length history) <=? analysis_id)%Z then done tt
      else
        analysis <- item history analysis_id ;;
        pitch_deck <- call_agent (agent.generate_pitch_deck generate_content
                                    datetime_now analysis) ;;
        match pitch_deck with
        | PDict d =>
            match dict_get d "error" with
            | Some _ => done tt
            | None => _ <- call_agent (subscript d "pitch_deck") ;; done tt
            end
        | _ => done tt
        end
  end.

(** [run_validate] *)
Definition run_validate (path : string) : Cli unit :=
  fun st =>
    match ask (load_json path) st with
    | (Thrown e, st') =>
        if is_exception e then (Done tt, st') else (Thrown e, st')
    | (Done business_model, st') =>
        (validation <- call_agent (agent.validate_business_model generate_content
                                     datetime_now business_model) ;;
         match validation with
         | PDict d =>
             match dict_get d "error" with
             | Some _ => done tt
             | None => _ <- call_agent (subscript d "validation") ;; done tt
             end
         | _ => done tt
         end) st'
    end.

(** [run_export] *)
Definition run_export (a : ExportArgs.t) : Cli unit :=
  history <- call_agent agent.get_analysis_history ;;
  match history with
  | [] => done tt
  | _ =>
      let analysis_id := chosen (ExportArgs.analysis_id a) history in
      if (Z.of_nat (length history) <=? analysis_id)%Z then done tt
      else
        analysis <- item history analysis_id ;;
        content <- call_agent (agent.export_analysis analysis (ExportArgs.format a)) ;;
        match given (ExportArgs.output a) with
        | Some path => write_file path content
        | None => done tt   (* the content is printed *)
        end
  end.

(** [run_history]: it prints, and nothing else *)
Definition run_history : Cli unit :=
  history <- call_agent agent.get_analysis_history ;;
  done tt.

(** A loop that has not ended when the rounds allowed to it are used up
    gives [None]. *)
Definition Loop (A : Type) : Type := State World -> option (ended A * State World).

Definition once {A : Type} (c : Cli A) : Loop A := fun st => Some (c st).

Definition loop_then {A B : Type} (c : Loop A) (k : A -> Loop B) : Loop B :=
  fun st =>
    match c st with
    | None => None
    | Some (Done a, st') => k a st'
    | Some (Thrown e, st') => Some (Thrown e, st')
    end.

(** the [while True] of [interactive_analyze], with the lines read so far *)
Fixpoint read_idea (rounds : nat) (lines : list string) : Loop (list string) :=
  match rounds with
  | O => fun _ => None
  | S rounds' =>
      loop_then (once (ask input))
        (fun line =>
           match utils.strip line, lines with
           | "", _ :: _ => once (done lines)
           | _, _ => read_idea rounds' (lines ++ [line])
           end)
  end.

(** [interactive_analyze] *)
Definition interactive_analyze (rounds : nat) : Loop unit :=
  loop_then (read_idea rounds [])
    (fun lines =>
       match given (Some (utils.strip (join (chr LF) lines))) with
       | None => once (done tt)
       | Some startup_idea =>
           once (run_analyze {| AnalyzeArgs.idea := Some startup_idea;
                                AnalyzeArgs.file := None;
                                AnalyzeArgs.output := None;
                                AnalyzeArgs.format := "json" |})
       end).

(** [interactive_pitch] *)
Definition interactive_pitch : Cli unit := run_pitch (-1).

(** [interactive_export] *)
Definition interactive_export : Cli unit :=
  answer <- ask input ;;
  let format_choice := lower (utils.strip answer) in
  let format_choice :=
    if String.eqb format_choice "json" || String.eqb format_choice "markdown"
    then format_choice else "json" in
  run_export {| ExportArgs.analysis_id := -1;
                ExportArgs.format := format_choice;
                ExportArgs.output := None |}.

(** the body of the [try] in one round of [run_interactive]; [true] is its
    [break] *)
Definition round (rounds : nat) : Loop bool :=
  loop_then (once (ask input))
    (fun line =>
       let command := lower (utils.strip line) in
       if String.eqb command "quit" || String.eqb command "exit"
          || String.eqb command "q" then once (done true)
       else if String.eqb command "help" then once (done false)
       else if String.eqb command "analyze" then
         loop_then (interactive_analyze rounds) (fun _ => once (done false))
       else if String.eqb command "pitch" then
         loop_then (once interactive_pitch) (fun _ => once (done false))
       else if String.eqb command "history" then
         loop_then (once run_history) (fun _ => once (done false))
       else if String.eqb command "export" then
         loop_then (once interactive_export) (fun _ => once (done false))
       else once (done false)).

(** [run_interactive]: [KeyboardInterrupt] ends the loop, every other
    exception of a round is reported and the loop goes on *)
Fixpoint run_interactive (rounds : nat) : Loop unit :=
  match rounds with
  | O => fun _ => None
  | S rounds' =>
      fun st =>
        match round rounds' st with
        | None => None
        | Some (Done true, st') => Some (Done tt, st')
        | Some (Done false, st') => run_interactive rounds' st'
        | Some (Thrown e, st') =>
            if is_exception e then run_interactive rounds' st'
            else Some (Done tt, st')
        end
  end.

(** [run_command]: a new agent for every command; an exception ends the
    process with [sys.exit(1)], [KeyboardInterrupt] ends it quietly *)
Definition run_command (rounds : nat) (a : args) (w : World)
  : option (exit * State World) :=
  let agent := __init__ w in
  match
    match a with
    | CmdAnalyze a => once (run_analyze a)
    | CmdPitch analysis_id => once (run_pitch analysis_id)
    | CmdValidate business_model => once (run_validate business_model)
    | CmdExport a => once (run_export a)
    | CmdHistory => once run_history
    | CmdInteractive => run_interactive rounds
    end agent
  with
  | None => None
  | Some (Done _, st) => Some (Completed, st)
  | Some (Thrown e, st) =>
      if is_exception e then Some (Exit 1, st) else Some (Completed, st)
  end.

End Commands.

Arguments done {World A} a st.
Arguments throw {World A} e st.
Arguments and_then {World A B} c k st.
Arguments call_agent {World A} m st.
Arguments ask {World A} op st.
Arguments write_file {World} write_text path content st.
Arguments item {World} history analysis_id st.
Arguments run_analyze {World} generate_content datetime_now read_text write_text a st.
Arguments run_pitch {World} generate_content datetime_now analysis_id st.
Arguments run_validate {World} generate_content datetime_now load_json path st.
Arguments run_export {World} write_text a st.
Arguments run_history {World} st.
Arguments once {World A} c st.
Arguments loop_then {World A B} c k st.
Arguments read_idea {World} input rounds lines st.
Arguments interactive_analyze {World} generate_content datetime_now input read_text
  write_text rounds st.
Arguments interactive_pitch {World} generate_content datetime_now st.
Arguments interactive_export {World} input write_text st.
Arguments round {World} generate_content datetime_now input read_text write_text
  rounds st.
Arguments run_interactive {World} generate_content datetime_now input read_text
  write_text rounds st.
Arguments run_command {World} generate_content datetime_now input read_text load_json
  write_text rounds a w.

End cli.

(** *** A desk for the examples: a terminal, some files and a service that
    records its prompts *)

Record desk : Type := {
  prompts : list string;
  typed : list string;
  files : list (string * string)
}.

Definition desk_generate (respond : string -> outcome) (prompt : string) (d : desk)
  : outcome * desk :=
  (respond prompt,
   {| prompts := prompts d ++ [prompt]; typed := typed d; files := files d |}).

Definition desk_input (d : desk) : (string + py_exn) * desk :=
  match typed d with
  | [] => (inr EOFError, d)
  | line :: rest =>
      (inl line, {| prompts := prompts d; typed := rest; files := files d |})
  end.

Fixpoint file_text (path : string) (fs : list (string * string)) : option string :=
  match fs with
  | [] => None
  | (name, text) :: fs' => if String.eqb name path then Some text else file_text path fs'
  end.

Definition desk_read_text (path : string) (d : desk) : (string + py_exn) * desk :=
  (match file_text path (files d) with
   | Some text => inl text
   | None => inr (OSError "No such file or directory")
   end, d).

Definition desk_load_json (path : string) (d : desk) : (pyval + py_exn) * desk :=
  (match file_text path (files d) with
   | Some text =>
       match json_loads text with
       | Some v => inl v
       | None => inr (JSONDecodeError "Expecting value")
       end
   | None => inr (OSError "No such file or directory")
   end, d).

Definition desk_write_text (path content : string) (d : desk)
  : option py_exn * desk :=
  (None,
   {| prompts := prompts d; typed := typed d; files := (path, content) :: files d |}).

Definition empty_desk : desk := {| prompts := []; typed := []; files := [] |}.

(** * Properties *)

Arguments analysis_prompt : simpl never.
Arguments pitch_prompt : simpl never.
Arguments validation_prompt : simpl never.
Arguments json_dumps : simpl never.
Arguments _convert_to_markdown : simpl never.
Arguments py_str : simpl never.

(** ** Strings *)

Lemma append_assoc (a b c : string) : (a ++ b) ++ c = a ++ (b ++ c).
Proof. induction a as [|x a IH]; cbn; [reflexivity | now rewrite IH]. Qed.

Lemma append_nil_r (a : string) : a ++ "" = a.
Proof. induction a as [|x a IH]; cbn; [reflexivity | now rewrite IH]. Qed.

Lemma append_length (a b : string) :
  String.length (a ++ b) = String.length a + String.length b.
Proof. induction a as [|x a IH]; cbn; [reflexivity | now rewrite IH]. Qed.

(** ** Analysis: every section is attempted, every fault is contained *)

Section AnalysisTheory.

Context {World : Type}.
Variable generate_content : string -> World -> outcome * World.
Variable datetime_now : World -> datetime * World.

Lemma analyze_tasks_run (idea : string) (ts : list (string * string)) :
  forall (results : pydict) (st : State World),
    analyze_tasks generate_content idea ts results st =
    (Ok (store_outcomes results (map fst ts)
           (fst (section_outcomes generate_content idea ts (world st)))),
     {| world := snd (section_outcomes generate_content idea ts (world st));
        analysis_history := analysis_history st |}).
Proof.
  induction ts as [|[name description] ts IH]; intros results [w h].
  - reflexivity.
  - cbn [analyze_tasks section_outcomes].
    unfold bind at 1. unfold _analyze_with_gemini, bind, call_service, ret.
    cbn [world analysis_history].
    destruct (generate_content (analysis_prompt idea description) w) as [o w1].
    rewrite IH. cbn [world analysis_history].
    destruct (section_outcomes generate_content idea ts w1) as [os w2].
    reflexivity.
Qed.

Lemma section_outcomes_length (idea : string) (ts : list (string * string)) :
  forall w, length (fst (section_outcomes generate_content idea ts w)) = length ts.
Proof.
  induction ts as [|[name description] ts IH]; intros w; [reflexivity|].
  cbn [section_outcomes].
  destruct (generate_content (analysis_prompt idea description) w) as [o w1].
  specialize (IH w1).
  destruct (section_outcomes generate_content idea ts w1) as [os w2].
  cbn [fst length] in *. now rewrite IH.
Qed.

(** The eight outcomes of one analysis, named. *)
Lemma section_outcomes_tasks (idea : string) (w : World) :
  exists o1 o2 o3 o4 o5 o6 o7 o8,
    fst (section_outcomes generate_content idea tasks w) = [o1; o2; o3; o4; o5; o6; o7; o8].
Proof.
  pose proof (section_outcomes_length idea tasks w) as H.
  destruct (fst (section_outcomes generate_content idea tasks w))
    as [|o1 [|o2 [|o3 [|o4 [|o5 [|o6 [|o7 [|o8 [|o9 l]]]]]]]]];
    try discriminate H.
  now exists o1, o2, o3, o4, o5, o6, o7, o8.
Qed.

(** What [analyze_startup_idea] does, in one equation: the eight calls in
    order, one reading of the clock, one record appended and returned. *)
Lemma analyze_startup_idea_run (idea : string) (st : State World)
    (o1 o2 o3 o4 o5 o6 o7 o8 : outcome) :
  fst (section_outcomes generate_content idea tasks (world st)) = [o1; o2; o3; o4; o5; o6; o7; o8] ->
  let w8 := snd (section_outcomes generate_content idea tasks (world st)) in
  let a :=
    {| market_research := section_value o1;
       customer_analysis := section_value o2;
       business_model := section_value o3;
       technical_feasibility := section_value o4;
       financial_projections := section_value o5;
       go_to_market := section_value o6;
       risk_assessment := section_value o7;
       recommendations := [PStr (py_str (section_value o8))];
       created_at := fst (datetime_now w8) |} in
  analyze_startup_idea generate_content datetime_now idea st =
  (Ok a, {| world := snd (datetime_now w8);
            analysis_history := analysis_history st ++ [a] |}).
Proof.
  intros Houts w8 a. subst a.
  unfold analyze_startup_idea.
  unfold bind at 1. rewrite analyze_tasks_run. rewrite Houts.
  fold w8.
  unfold store_outcomes. cbn [map fst snd tasks combine fold_left].
  cbn [dict_set String.eqb Ascii.eqb Bool.eqb].
  unfold bind, subscript, ret, read_clock, history_append.
  cbn [dict_get String.eqb Ascii.eqb Bool.eqb world analysis_history].
  destruct (datetime_now w8) as [t w9]. cbn [fst snd].
  replace (coerce_recommendations (section_value o8))
    with [PStr (py_str (section_value o8))] by (now destruct o8).
  reflexivity.
Qed.

End AnalysisTheory.

(** C1.  For every idea and every state, the loop of [analyze_startup_idea]
    runs through all eight tasks and stores one value per task; the value of
    a task whose service call raised is the mapping with the keys error (the
    message) and source (Gemini).  The call then returns a record, never an
    exception: its seven sections are the stored values, its recommendations
    the one-element list with the string form of the stored value, and the
    world it leaves is the one after the eight calls and one reading of the
    clock. *)
Theorem analyze_contains_service_faults :
  forall (World : Type) (generate_content : string -> World -> outcome * World)
         (datetime_now : World -> datetime * World)
         (idea : string) (st : State World),
    let outs := fst (section_outcomes generate_content idea tasks (world st)) in
    let w8 := snd (section_outcomes generate_content idea tasks (world st)) in
    let results := combine (map fst tasks) (map section_value outs) in
    analyze_tasks generate_content idea tasks [] st
      = (Ok results, {| world := w8; analysis_history := analysis_history st |})
    /\ length outs = length tasks
    /\ (forall k name message,
          nth_error (map fst tasks) k = Some name ->
          nth_error outs k = Some (Raised message) ->
          dict_get results name = Some (error_marker message))
    /\ exists a,
         analyze_startup_idea generate_content datetime_now idea st
           = (Ok a, {| world := snd (datetime_now w8);
                       analysis_history := analysis_history st ++ [a] |})
         /\ (forall name, In name section_names ->
               dict_get (analysis_dict a) name = dict_get results name)
         /\ (forall r, dict_get results "recommendations" = Some r ->
               recommendations a = [PStr (py_str r)]).
Proof.
  intros World generate_content datetime_now idea st outs w8 results.
  destruct (section_outcomes_tasks generate_content idea (world st))
    as (o1 & o2 & o3 & o4 & o5 & o6 & o7 & o8 & Houts).
  pose proof (analyze_startup_idea_run generate_content datetime_now idea st
                o1 o2 o3 o4 o5 o6 o7 o8 Houts) as Hrun.
  cbv zeta in Hrun. fold w8 in Hrun.
  assert (Hres : results = combine (map fst tasks)
                   (map section_value [o1; o2; o3; o4; o5; o6; o7; o8])).
  { unfold results, outs. now rewrite Houts. }
  repeat split.
  - rewrite analyze_tasks_run. fold outs w8. rewrite Hres.
    unfold outs. rewrite Houts. reflexivity.
  - apply section_outcomes_length.
  - intros k name message Hname Hout. rewrite Hres.
    unfold outs in Hout. rewrite Houts in Hout.
    do 8 (destruct k as [|k];
          [cbn in Hname, Hout; injection Hname as <-; injection Hout as ->;
           reflexivity|]).
    destruct k; discriminate Hout.
  - eexists. split; [exact Hrun|]. split.
    + intros name Hin. rewrite Hres. cbn in Hin.
      repeat (destruct Hin as [<-|Hin]; [reflexivity|]). contradiction.
    + intros r Hr. rewrite Hres in Hr. cbn in Hr. injection Hr as <-.
      reflexivity.
Qed.

(** C2.  For every idea (the empty string included) and every service,
    [analyze_startup_idea] returns a record and no exception; each of the
    seven section names is a key of the record and holds the value of a
    service outcome, and the recommendations have exactly one entry.  When
    every service call raises, each of the seven sections is an error
    marker and the shape is the same. *)
Theorem analyze_returns_full_record :
  forall (World : Type) (generate_content : string -> World -> outcome * World)
         (datetime_now : World -> datetime * World)
         (idea : string) (st : State World),
  exists a st',
    analyze_startup_idea generate_content datetime_now idea st = (Ok a, st')
    /\ map fst (analysis_dict a) = (section_names ++ ["recommendations"; "created_at"])%list
    /\ (forall name, In name section_names ->
          exists o, dict_get (analysis_dict a) name = Some (section_value o))
    /\ length (recommendations a) = 1
    /\ ((forall prompt w, exists message,
            fst (generate_content prompt w) = Raised message) ->
        forall name, In name section_names ->
          exists message, dict_get (analysis_dict a) name = Some (error_marker message)).
Proof.
  intros World generate_content datetime_now idea st.
  destruct (section_outcomes_tasks generate_content idea (world st))
    as (o1 & o2 & o3 & o4 & o5 & o6 & o7 & o8 & Houts).
  pose proof (analyze_startup_idea_run generate_content datetime_now idea st
                o1 o2 o3 o4 o5 o6 o7 o8 Houts) as Hrun.
  cbv zeta in Hrun.
  eexists. eexists. split; [exact Hrun|].
  split; [reflexivity|]. split; [|split; [reflexivity|]].
  - intros name Hin. cbn in Hin.
    repeat (destruct Hin as [<-|Hin]; [eexists; reflexivity|]). contradiction.
  - intros Hfail.
    assert (Hall : forall o, In o [o1; o2; o3; o4; o5; o6; o7; o8] ->
                     exists message, o = Raised message).
    { rewrite <- Houts. clear Hrun Houts.
      generalize (world st). generalize tasks.
      induction l as [|[name description] ts IH]; intros w o Hin.
      - destruct Hin.
      - cbn [section_outcomes] in Hin.
        destruct (Hfail (analysis_prompt idea description) w) as [m Hm].
        destruct (generate_content (analysis_prompt idea description) w) as [o' w1].
        specialize (IH w1 o).
        destruct (section_outcomes generate_content idea ts w1) as [os w2].
        cbn [fst] in *. destruct Hin as [<-|Hin]; [now exists m|].
        now apply IH. }
    destruct (Hall o1) as [m1 ->]; [cbn; tauto|].
    destruct (Hall o2) as [m2 ->]; [cbn; tauto|].
    destruct (Hall o3) as [m3 ->]; [cbn; tauto|].
    destruct (Hall o4) as [m4 ->]; [cbn; tauto|].
    destruct (Hall o5) as [m5 ->]; [cbn; tauto|].
    destruct (Hall o6) as [m6 ->]; [cbn; tauto|].
    destruct (Hall o7) as [m7 ->]; [cbn; tauto|].
    intros name Hin. cbn in Hin.
    repeat (destruct Hin as [<-|Hin]; [eexists; reflexivity|]).
    contradiction.
Qed.

(** Witness of C2: a service that fails on every call. *)
Lemma analyze_returns_full_record_witness :
  exists a st',
    analyze_startup_idea failing_generate ticking_clock "A subscription box"
      (__init__ stub_start) = (Ok a, st')
    /\ length (recommendations a) = 1
    /\ forall name, In name section_names ->
         exists message, dict_get (analysis_dict a) name = Some (error_marker message).
Proof.
  destruct (analyze_returns_full_record stub_world failing_generate ticking_clock
              "A subscription box" (__init__ stub_start))
    as (a & st' & Hrun & _ & _ & Hlen & Hfail).
  exists a, st'. split; [exact Hrun|]. split; [exact Hlen|].
  apply Hfail. intros prompt w. now exists "503 Service Unavailable".
Defined.

(** Witness of C1: the service fails for the risk assessment only. *)
Lemma analyze_contains_service_faults_witness :
  dict_get
    (combine (map fst tasks)
       (map section_value
          (fst (section_outcomes flaky_generate "A subscription box" tasks stub_start))))
    "risk_assessment" = Some (error_marker "429 Quota exceeded")
  /\ exists a,
       fst (analyze_startup_idea flaky_generate ticking_clock "A subscription box"
              (__init__ stub_start)) = Ok a
       /\ risk_assessment a = error_marker "429 Quota exceeded"
       /\ market_research a
          = PDict [("analysis", PStr "STUB:market_research analysis text");
                   ("source", PStr "Gemini")].
Proof.
  destruct (analyze_contains_service_faults stub_world flaky_generate ticking_clock
              "A subscription box" (__init__ stub_start))
    as (_ & _ & Hfail & a & Hrun & Hsec & _).
  split.
  - apply (Hfail 6%nat "risk_assessment" "429 Quota exceeded"); reflexivity.
  - exists a. rewrite Hrun. split; [reflexivity|].
    pose proof (Hsec "risk_assessment") as H7.
    pose proof (Hsec "market_research") as H1.
    cbn in H1, H7. split.
    + assert (Some (risk_assessment a) = Some (error_marker "429 Quota exceeded")) as E
        by (apply H7; tauto).
      now injection E.
    + assert (Some (market_research a)
              = Some (PDict [("analysis", PStr "STUB:market_research analysis text");
                             ("source", PStr "Gemini")])) as E
        by (apply H1; tauto).
      now injection E.
Defined.

(** ** Recommendations *)

Lemma py_str_section_value (o : outcome) :
  py_str (section_value o) =
  match o with
  | Returned text => "{'analysis': " ++ repr_str text ++ ", 'source': 'Gemini'}"
  | Raised message => "{'error': " ++ repr_str message ++ ", 'source': 'Gemini'}"
  end.
Proof.
  destruct o as [text|message]; unfold py_str; cbn;
    rewrite ?append_assoc; reflexivity.
Qed.

(** For every idea and every service, the one entry of the recommendations
    is the string form of the whole section value of the recommendations
    call: [_analyze_with_gemini] returns a mapping, never a list, so the
    test [isinstance(..., list)] of [analyze_startup_idea] fails and [str]
    is applied to the mapping and not to the text under its key analysis. *)
Lemma recommendations_hold_string_form :
  forall (World : Type) (generate_content : string -> World -> outcome * World)
         (datetime_now : World -> datetime * World)
         (idea : string) (st : State World),
    exists a st' o,
      analyze_startup_idea generate_content datetime_now idea st = (Ok a, st')
      /\ nth_error (fst (section_outcomes generate_content idea tasks (world st))) 7
         = Some o
      /\ recommendations a = [PStr (py_str (section_value o))]
      /\ py_str (section_value o) =
         match o with
         | Returned text => "{'analysis': " ++ repr_str text ++ ", 'source': 'Gemini'}"
         | Raised message => "{'error': " ++ repr_str message ++ ", 'source': 'Gemini'}"
         end.
Proof.
  intros World generate_content datetime_now idea st.
  destruct (section_outcomes_tasks generate_content idea (world st))
    as (o1 & o2 & o3 & o4 & o5 & o6 & o7 & o8 & Houts).
  pose proof (analyze_startup_idea_run generate_content datetime_now idea st
                o1 o2 o3 o4 o5 o6 o7 o8 Houts) as Hrun.
  cbv zeta in Hrun.
  eexists. eexists. exists o8. split; [exact Hrun|].
  rewrite Houts. split; [reflexivity|]. split; [reflexivity|].
  apply py_str_section_value.
Qed.

(** C4.  The code at the input of the claim.  The stub answers the
    recommendations call with the text STUB:recommendations analysis text.
    The specification gives the one-element list with that text; the record
    returned by [analyze_startup_idea] holds instead the one-element list
    with the string form of the mapping that wraps the text,
    {'analysis': 'STUB:recommendations analysis text', 'source': 'Gemini'}. *)
Theorem recommendations_not_raw_completion :
  nth_error
    (fst (section_outcomes stub_generate "A subscription box for artisanal coffee"
            tasks stub_start)) 7
    = Some (Returned "STUB:recommendations analysis text")
  /\ exists a st',
       analyze_startup_idea stub_generate ticking_clock
         "A subscription box for artisanal coffee" (__init__ stub_start) = (Ok a, st')
       /\ recommendations a
          = [PStr "{'analysis': 'STUB:recommendations analysis text', 'source': 'Gemini'}"]
       /\ recommendations a <> [PStr "STUB:recommendations analysis text"].
Proof.
  split; [reflexivity|].
  eexists. eexists. split; [vm_compute; reflexivity|].
  split; [reflexivity|]. cbn. discriminate.
Qed.

(** ** Pitch deck and validation *)

(** C8.  When the single service call of [generate_pitch_deck] or of
    [validate_business_model] raises, the operation returns the mapping
    with the one key error holding the message of the exception; the world
    it leaves is the one after that one call (no second attempt) and the
    history is the one it found.  Neither operation changes the history
    when the call succeeds either.  On the empty business model and a
    failing service, validation returns the error mapping after one call
    and the history stays empty. *)
Theorem derived_operations_fail_without_retry :
  (forall (World : Type) (generate_content : string -> World -> outcome * World)
          (datetime_now : World -> datetime * World)
          (st : State World) (message : string) (w' : World),
     (forall analysis,
        generate_content (pitch_prompt analysis) (world st) = (Raised message, w') ->
        generate_pitch_deck generate_content datetime_now analysis st
        = (Ok (PDict [("error", PStr message)]),
           {| world := w'; analysis_history := analysis_history st |}))
     /\ (forall business_model,
           generate_content (validation_prompt business_model) (world st)
             = (Raised message, w') ->
           validate_business_model generate_content datetime_now business_model st
           = (Ok (PDict [("error", PStr message)]),
              {| world := w'; analysis_history := analysis_history st |}))
     /\ (forall analysis,
           analysis_history
             (snd (generate_pitch_deck generate_content datetime_now analysis st))
           = analysis_history st)
     /\ (forall business_model,
           analysis_history
             (snd (validate_business_model generate_content datetime_now
                     business_model st))
           = analysis_history st))
  /\ validate_business_model failing_generate ticking_clock (PDict [])
       (__init__ stub_start)
     = (Ok (PDict [("error", PStr "503 Service Unavailable")]),
        {| world := {| calls := 1; ticks := 0 |}; analysis_history := [] |}).
Proof.
  split; [|reflexivity].
  intros World generate_content datetime_now [w h] message w'.
  cbn [world analysis_history]. repeat split.
  - intros analysis H.
    unfold generate_pitch_deck, bind, call_service. cbn [world analysis_history].
    now rewrite H.
  - intros business_model H.
    unfold validate_business_model, bind, call_service. cbn [world analysis_history].
    now rewrite H.
  - intros analysis.
    unfold generate_pitch_deck, bind, call_service, read_clock, ret.
    cbn [world analysis_history].
    destruct (generate_content (pitch_prompt analysis) w) as [[text|m] w1];
      [|reflexivity].
    cbn [world]. now destruct (datetime_now w1).
  - intros business_model.
    unfold validate_business_model, bind, call_service, read_clock, ret.
    cbn [world analysis_history].
    destruct (generate_content (validation_prompt business_model) w) as [[text|m] w1];
      [|reflexivity].
    cbn [world]. now destruct (datetime_now w1).
Qed.

(** Witness of C8: the pitch deck of the sample record and the validation
    of the empty model against the failing service. *)
Lemma derived_operations_fail_without_retry_witness :
  generate_pitch_deck failing_generate ticking_clock sample_analysis
    (__init__ stub_start)
  = (Ok (PDict [("error", PStr "503 Service Unavailable")]),
     {| world := {| calls := 1; ticks := 0 |}; analysis_history := [] |})
  /\ validate_business_model failing_generate ticking_clock (PDict [])
       (__init__ stub_start)
     = (Ok (PDict [("error", PStr "503 Service Unavailable")]),
        {| world := {| calls := 1; ticks := 0 |}; analysis_history := [] |}).
Proof.
  destruct derived_operations_fail_without_retry as [H _].
  destruct (H stub_world failing_generate ticking_clock (__init__ stub_start)
              "503 Service Unavailable" {| calls := 1; ticks := 0 |})
    as (Hpitch & Hvalid & _).
  split.
  - apply Hpitch. reflexivity.
  - apply Hvalid. reflexivity.
Defined.

(** ** Export: the format argument *)

Lemma lower_upper_ascii_char (c : ascii) :
  lower_char (upper_ascii_char c) = lower_char c.
Proof. destruct c as [[] [] [] [] [] [] [] []]; reflexivity. Qed.

Lemma lower_char_idempotent (c : ascii) : lower_char (lower_char c) = lower_char c.
Proof. destruct c as [[] [] [] [] [] [] [] []]; reflexivity. Qed.

Lemma capitalization_lower (name : string) :
  forall s, capitalization_of name s = true -> lower s = lower name.
Proof.
  induction name as [|c name IH]; intros [|d s] H; try discriminate H.
  - reflexivity.
  - cbn in H. apply andb_true_iff in H as [Hc Hs].
    cbn. rewrite (IH s Hs). f_equal.
    apply orb_true_iff in Hc as [Hc|Hc]; apply Ascii.eqb_eq in Hc; subst d.
    + reflexivity.
    + apply lower_upper_ascii_char.
Qed.

Lemma export_analysis_cases {World : Type} (analysis : StartupAnalysis)
    (format : string) (st : State World) :
  (lower format = "json"
   /\ export_analysis analysis format st
      = (Ok (json_dumps (PDict (analysis_dict analysis))), st))
  \/ (lower format <> "json" /\ lower format = "markdown"
      /\ export_analysis analysis format st = (Ok (_convert_to_markdown analysis), st))
  \/ (lower format <> "json" /\ lower format <> "markdown"
      /\ export_analysis analysis format st
         = (Raise (ValueError ("Unsupported format: " ++ format)), st)).
Proof.
  unfold export_analysis.
  destruct (String.eqb_spec (lower format) "json") as [Hj|Hj].
  - left. now split.
  - right. destruct (String.eqb_spec (lower format) "markdown") as [Hm|Hm].
    + left. now repeat split.
    + right. now repeat split.
Qed.

(** C5, counterexample.  JSON in capitals is a format value other than json
    and markdown, and the export of the sample record in that format
    succeeds. *)
Lemma export_accepts_other_spelling :
  ~ (forall (analysis : StartupAnalysis) (format : string) (st : State stub_world),
       format <> "json" -> format <> "markdown" ->
       exists e, fst (export_analysis analysis format st) = Raise e).
Proof.
  intros H.
  destruct (H sample_analysis "JSON" (__init__ stub_start)) as [e He];
    [discriminate | discriminate | ].
  discriminate He.
Qed.

(** C5, amended.  For every record and every format whose lower-case form
    is neither json nor markdown (xml for one), [export_analysis] raises the
    ValueError with the message Unsupported format: followed by the format,
    and returns no text.  Whatever the format, the call leaves the world and
    the history as they were, its result does not depend on them, and the
    only exception it can raise is that ValueError. *)
Theorem export_rejects_unknown_format :
  forall (World : Type) (analysis : StartupAnalysis) (format : string)
         (st : State World),
    (lower format <> "json" -> lower format <> "markdown" ->
       export_analysis analysis format st
       = (Raise (ValueError ("Unsupported format: " ++ format)), st))
    /\ snd (export_analysis analysis format st) = st
    /\ (forall st2 : State World,
          fst (export_analysis analysis format st2)
          = fst (export_analysis analysis format st))
    /\ (forall e, fst (export_analysis analysis format st) = Raise e ->
          e = ValueError ("Unsupported format: " ++ format)
          /\ lower format <> "json" /\ lower format <> "markdown").
Proof.
  intros World analysis format st. repeat split.
  - intros Hj Hm.
    destruct (export_analysis_cases analysis format st)
      as [[E _]|[(_ & E & _)|(_ & _ & E)]]; [contradiction | contradiction | exact E].
  - destruct (export_analysis_cases analysis format st)
      as [[_ E]|[(_ & _ & E)|(_ & _ & E)]]; now rewrite E.
  - intros st2.
    destruct (export_analysis_cases analysis format st)
      as [[Hj E]|[(Hj & Hm & E)|(Hj & Hm & E)]];
      destruct (export_analysis_cases analysis format st2)
        as [[Hj2 E2]|[(Hj2 & Hm2 & E2)|(Hj2 & Hm2 & E2)]];
      try contradiction; now rewrite E, E2.
  - destruct (export_analysis_cases analysis format st)
      as [[_ E]|[(_ & _ & E)|(_ & _ & E)]];
      rewrite E in H; cbn in H; try discriminate H. now injection H as <-.
  - destruct (export_analysis_cases analysis format st)
      as [[_ E]|[(_ & _ & E)|(Hj & _ & E)]];
      rewrite E in H; cbn in H; try discriminate H. exact Hj.
  - destruct (export_analysis_cases analysis format st)
      as [[_ E]|[(_ & _ & E)|(_ & Hm & E)]];
      rewrite E in H; cbn in H; try discriminate H. exact Hm.
Qed.

(** Witness of C5: the format xml. *)
Lemma export_rejects_unknown_format_witness :
  export_analysis sample_analysis "xml" (__init__ stub_start)
  = (Raise (ValueError "Unsupported format: xml"), __init__ stub_start).
Proof.
  apply (export_rejects_unknown_format stub_world sample_analysis "xml"
           (__init__ stub_start)); discriminate.
Defined.

(** C10.  [export_analysis] compares the lower-case form of the format: a
    format that spells json with any of its letters in capitals gives the
    JSON text of the record, one that spells markdown so gives the markdown
    document, and the call raises exactly when the lower-case form of the
    format is neither json nor markdown. *)
Theorem export_format_case_insensitive :
  forall (World : Type) (analysis : StartupAnalysis) (format : string)
         (st : State World),
    (capitalization_of "json" format = true ->
       export_analysis analysis format st
       = (Ok (json_dumps (PDict (analysis_dict analysis))), st))
    /\ (capitalization_of "markdown" format = true ->
          export_analysis analysis format st
          = (Ok (_convert_to_markdown analysis), st))
    /\ (lower format = "json" ->
          export_analysis analysis format st
          = (Ok (json_dumps (PDict (analysis_dict analysis))), st))
    /\ (lower format = "markdown" ->
          export_analysis analysis format st
          = (Ok (_convert_to_markdown analysis), st))
    /\ ((exists e, fst (export_analysis analysis format st) = Raise e)
        <-> lower format <> "json" /\ lower format <> "markdown").
Proof.
  intros World analysis format st.
  assert (Hjson : lower format = "json" ->
            export_analysis analysis format st
            = (Ok (json_dumps (PDict (analysis_dict analysis))), st)).
  { intros H. unfold export_analysis. now rewrite H. }
  assert (Hmd : lower format = "markdown" ->
            export_analysis analysis format st
            = (Ok (_convert_to_markdown analysis), st)).
  { intros H. unfold export_analysis. now rewrite H. }
  split; [|split; [|split; [exact Hjson|split; [exact Hmd|]]]].
  - intros H. apply Hjson. now apply capitalization_lower in H.
  - intros H. apply Hmd. now apply capitalization_lower in H.
  - destruct (export_analysis_cases analysis format st)
      as [[Hj E]|[(Hj & Hm & E)|(Hj & Hm & E)]]; rewrite E; cbn; split.
    + intros [e He]. discriminate He.
    + intros [Hj' _]. contradiction.
    + intros [e He]. discriminate He.
    + intros [_ Hm']. contradiction.
    + intros _. now split.
    + intros _. eexists. reflexivity.
Qed.

(** Witness of C10: the formats JSON and MarkDown. *)
Lemma export_format_case_insensitive_witness :
  export_analysis sample_analysis "JSON" (__init__ stub_start)
  = (Ok (json_dumps (PDict (analysis_dict sample_analysis))), __init__ stub_start)
  /\ export_analysis sample_analysis "MarkDown" (__init__ stub_start)
     = (Ok (_convert_to_markdown sample_analysis), __init__ stub_start).
Proof.
  split.
  - apply (export_format_case_insensitive stub_world sample_analysis "JSON"
             (__init__ stub_start)). reflexivity.
  - apply (export_format_case_insensitive stub_world sample_analysis "MarkDown"
             (__init__ stub_start)). reflexivity.
Defined.

(** ** History *)

Section HistoryTheory.

Context {World : Type}.
Variable generate_content : string -> World -> outcome * World.
Variable datetime_now : World -> datetime * World.

Lemma later_trans (w1 w2 w3 : World) :
  later generate_content datetime_now w1 w2 ->
  later generate_content datetime_now w2 w3 ->
  later generate_content datetime_now w1 w3.
Proof.
  induction 1 as [w|w1 w2 w2' Hstep _ IH]; intros H; [exact H|].
  eapply later_step; [exact Hstep | now apply IH].
Qed.

Lemma later_service (prompt : string) (w : World) :
  later generate_content datetime_now w (snd (generate_content prompt w)).
Proof. eapply later_step; [apply step_service | apply later_refl]. Qed.

Lemma later_clock (w : World) :
  later generate_content datetime_now w (snd (datetime_now w)).
Proof. eapply later_step; [apply step_clock | apply later_refl]. Qed.

Lemma later_section_outcomes (idea : string) (ts : list (string * string)) :
  forall w,
    later generate_content datetime_now w
      (snd (section_outcomes generate_content idea ts w)).
Proof.
  induction ts as [|[name description] ts IH]; intros w; [apply later_refl|].
  cbn [section_outcomes].
  pose proof (later_service (analysis_prompt idea description) w) as H1.
  destruct (generate_content (analysis_prompt idea description) w) as [o w1].
  specialize (IH w1).
  destruct (section_outcomes generate_content idea ts w1) as [os w2].
  cbn [snd] in *. eapply later_trans; eassumption.
Qed.

(** One analysis: a record is returned and appended, stamped with the
    reading of the clock that follows the eight service calls. *)
Lemma analyze_appends (idea : string) (st : State World) :
  exists a,
    analyze_startup_idea generate_content datetime_now idea st
    = (Ok a,
       {| world := snd (datetime_now
                          (snd (section_outcomes generate_content idea tasks (world st))));
          analysis_history := analysis_history st ++ [a] |})
    /\ created_at a
       = fst (datetime_now
                (snd (section_outcomes generate_content idea tasks (world st)))).
Proof.
  destruct (section_outcomes_tasks generate_content idea (world st))
    as (o1 & o2 & o3 & o4 & o5 & o6 & o7 & o8 & Houts).
  pose proof (analyze_startup_idea_run generate_content datetime_now idea st
                o1 o2 o3 o4 o5 o6 o7 o8 Houts) as Hrun.
  cbv zeta in Hrun. eexists. split; [exact Hrun | reflexivity].
Qed.

(** What one call does to the history and to the world. *)
Lemma run_call_history (c : call) (st : State World) :
  analysis_history (snd (run_call generate_content datetime_now c st))
  = (analysis_history st
     ++ analyses_returned [fst (run_call generate_content datetime_now c st)])%list.
Proof.
  destruct c as [idea|analysis|business_model| |analysis format|analysis_id];
    cbn [run_call].
  - destruct (analyze_appends idea st) as (a & Hrun & _).
    unfold bind. rewrite Hrun. reflexivity.
  - unfold bind, generate_pitch_deck, bind, call_service, read_clock, ret.
    destruct st as [w h]. cbn [world analysis_history].
    destruct (generate_content (pitch_prompt analysis) w) as [[text|m] w1];
      cbn [world analysis_history].
    + destruct (datetime_now w1); cbn. now rewrite app_nil_r.
    + cbn. now rewrite app_nil_r.
  - unfold bind, validate_business_model, bind, call_service, read_clock, ret.
    destruct st as [w h]. cbn [world analysis_history].
    destruct (generate_content (validation_prompt business_model) w)
      as [[text|m] w1]; cbn [world analysis_history].
    + destruct (datetime_now w1); cbn. now rewrite app_nil_r.
    + cbn. now rewrite app_nil_r.
  - cbn. now rewrite app_nil_r.
  - unfold bind.
    destruct (export_analysis_cases analysis format st)
      as [[_ E]|[(_ & _ & E)|(_ & _ & E)]]; rewrite E; cbn; now rewrite app_nil_r.
  - cbn. now rewrite app_nil_r.
Qed.

Lemma run_call_later (c : call) (st : State World) :
  later generate_content datetime_now (world st)
    (world (snd (run_call generate_content datetime_now c st))).
Proof.
  destruct c as [idea|analysis|business_model| |analysis format|analysis_id];
    cbn [run_call].
  - destruct (analyze_appends idea st) as (a & Hrun & _).
    unfold bind. rewrite Hrun. cbn [snd world].
    eapply later_trans; [apply later_section_outcomes | apply later_clock].
  - unfold bind, generate_pitch_deck, bind, call_service, read_clock, ret.
    destruct st as [w h]. cbn [world analysis_history].
    pose proof (later_service (pitch_prompt analysis) w) as H1.
    destruct (generate_content (pitch_prompt analysis) w) as [[text|m] w1];
      cbn [world analysis_history snd] in *; [|exact H1].
    pose proof (later_clock w1) as H2.
    destruct (datetime_now w1); cbn in *. eapply later_trans; eassumption.
  - unfold bind, validate_business_model, bind, call_service, read_clock, ret.
    destruct st as [w h]. cbn [world analysis_history].
    pose proof (later_service (validation_prompt business_model) w) as H1.
    destruct (generate_content (validation_prompt business_model) w)
      as [[text|m] w1]; cbn [world analysis_history snd] in *; [|exact H1].
    pose proof (later_clock w1) as H2.
    destruct (datetime_now w1); cbn in *. eapply later_trans; eassumption.
  - apply later_refl.
  - unfold bind.
    destruct (export_analysis_cases analysis format st)
      as [[_ E]|[(_ & _ & E)|(_ & _ & E)]]; rewrite E; apply later_refl.
  - apply later_refl.
Qed.

Lemma analyses_returned_cons (r : result reply) (rs : list (result reply)) :
  analyses_returned (r :: rs) = (analyses_returned [r] ++ analyses_returned rs)%list.
Proof. destruct r as [[a|d|h|s|]|e]; reflexivity. Qed.

(** The history after a session is the history before it followed by the
    records its analyses returned. *)
Lemma run_calls_history (cs : list call) :
  forall st : State World,
    analysis_history (snd (run_calls generate_content datetime_now cs st))
    = (analysis_history st
       ++ analyses_returned (fst (run_calls generate_content datetime_now cs st)))%list.
Proof.
  induction cs as [|c cs IH]; intros st.
  - cbn. now rewrite app_nil_r.
  - cbn [run_calls].
    pose proof (run_call_history c st) as Hc.
    destruct (run_call generate_content datetime_now c st) as [r st1].
    specialize (IH st1).
    destruct (run_calls generate_content datetime_now cs st1) as [rs st2].
    cbn [fst snd] in *. rewrite IH, Hc, (analyses_returned_cons r rs).
    now rewrite app_assoc.
Qed.

End HistoryTheory.

(** C3.  The history of a new agent is empty.  Every call of
    [analyze_startup_idea] returns a record and leaves the history one
    record longer, with that record last.  No call of a session shortens
    the history or changes the records it holds.  After any session on a new
    agent the history is the list of the records returned by its analyze
    calls, in call order, index by index, and [get_analysis_history] returns
    it.  The delete route raises the HTTP error 501, not implemented, and
    leaves the state as it was. *)
Theorem history_is_append_only_log :
  forall (World : Type) (generate_content : string -> World -> outcome * World)
         (datetime_now : World -> datetime * World),
    (forall w : World, get_analysis_history (__init__ w) = (Ok [], __init__ w))
    /\ (forall idea (st : State World),
          exists a st',
            analyze_startup_idea generate_content datetime_now idea st = (Ok a, st')
            /\ analysis_history st' = (analysis_history st ++ [a])%list
            /\ length (analysis_history st') = S (length (analysis_history st)))
    /\ (forall c (st : State World),
          let st' := snd (run_call generate_content datetime_now c st) in
          length (analysis_history st) <= length (analysis_history st')
          /\ forall i a, nth_error (analysis_history st) i = Some a ->
                         nth_error (analysis_history st') i = Some a)
    /\ (forall cs (w : World),
          let rs := fst (run_calls generate_content datetime_now cs (__init__ w)) in
          let st := snd (run_calls generate_content datetime_now cs (__init__ w)) in
          get_analysis_history st = (Ok (analyses_returned rs), st)
          /\ forall i, nth_error (analysis_history st) i
                       = nth_error (analyses_returned rs) i)
    /\ (forall analysis_id (st : State World),
          delete_analysis analysis_id st
          = (Raise (HTTPException 501 "Delete functionality not implemented yet"), st)).
Proof.
  intros World generate_content datetime_now.
  split; [reflexivity|]. split; [|split; [|split; [|reflexivity]]].
  - intros idea st.
    destruct (analyze_appends generate_content datetime_now idea st)
      as (a & Hrun & _).
    eexists. eexists. split; [exact Hrun|]. cbn [analysis_history].
    split; [reflexivity|]. rewrite length_app. cbn. lia.
  - intros c st st'. subst st'.
    rewrite (run_call_history generate_content datetime_now c st). split.
    + rewrite length_app. lia.
    + intros i a H. rewrite nth_error_app1; [exact H|].
      apply nth_error_Some. now rewrite H.
  - intros cs w rs st.
    pose proof (run_calls_history generate_content datetime_now cs (__init__ w)) as H.
    fold rs st in H. cbn [analysis_history __init__ app] in H.
    split.
    + unfold get_analysis_history. now rewrite H.
    + intros i. now rewrite H.
Qed.

(** Witness of C3: the sample session on a new agent. *)
Lemma history_is_append_only_log_witness :
  length (analyses_returned
            (fst (run_calls stub_generate ticking_clock sample_session
                    (__init__ stub_start)))) = 2
  /\ forall i,
       nth_error
         (analysis_history
            (snd (run_calls stub_generate ticking_clock sample_session
                    (__init__ stub_start)))) i
       = nth_error
           (analyses_returned
              (fst (run_calls stub_generate ticking_clock sample_session
                      (__init__ stub_start)))) i.
Proof.
  split; [reflexivity|].
  apply (history_is_append_only_log stub_world stub_generate ticking_clock).
Defined.

(** ** Timestamps *)

Lemma timestamps_sorted_app (h : list StartupAnalysis) (a : StartupAnalysis) :
  timestamps_sorted h ->
  (forall h' b, h = (h' ++ [b])%list -> datetime_le (created_at b) (created_at a)) ->
  timestamps_sorted (h ++ [a]).
Proof.
  intros Hsorted Hlast i x y Hx Hy.
  destruct (Nat.lt_trichotomy (S i) (length h)) as [Hlt|[Heq|Hgt]].
  - rewrite nth_error_app1 in Hx by lia. rewrite nth_error_app1 in Hy by lia.
    now apply (Hsorted i).
  - rewrite nth_error_app1 in Hx by lia.
    rewrite nth_error_app2 in Hy by lia.
    replace (S i - length h) with 0 in Hy by lia. cbn in Hy. injection Hy as <-.
    destruct (nth_error_split h i Hx) as (l1 & l2 & Hh & Hlen).
    assert (l2 = []) as ->.
    { subst h. rewrite length_app in Heq. cbn in Heq.
      destruct l2; [reflexivity | cbn in Heq; lia]. }
    now apply (Hlast l1).
  - assert (nth_error (h ++ [a]) (S i) = None) as E.
    { apply nth_error_None. rewrite length_app. cbn. lia. }
    rewrite E in Hy. discriminate Hy.
Qed.

Section TimestampTheory.

Context {World : Type}.
Variable generate_content : string -> World -> outcome * World.
Variable datetime_now : World -> datetime * World.

Lemma run_call_keeps_or_appends (c : call) (st : State World) :
  let st' := snd (run_call generate_content datetime_now c st) in
  analysis_history st' = analysis_history st
  \/ exists idea a,
       let w8 := snd (section_outcomes generate_content idea tasks (world st)) in
       c = AnalyzeStartupIdea idea
       /\ analysis_history st' = (analysis_history st ++ [a])%list
       /\ created_at a = fst (datetime_now w8)
       /\ world st' = snd (datetime_now w8).
Proof.
  destruct c as [idea|analysis|business_model| |analysis format|analysis_id];
    cbn zeta.
  - right. destruct (analyze_appends generate_content datetime_now idea st)
      as (a & Hrun & Hat).
    exists idea, a. cbn [run_call]. unfold bind. rewrite Hrun. now repeat split.
  - left.
    pose proof (derived_history := run_call_history generate_content datetime_now
                                     (GeneratePitchDeck analysis) st).
    rewrite derived_history. cbn [run_call]. unfold bind.
    destruct (generate_pitch_deck generate_content datetime_now analysis st)
      as [[d|e] st1]; cbn; now rewrite app_nil_r.
  - left.
    pose proof (derived_history := run_call_history generate_content datetime_now
                                     (ValidateBusinessModel business_model) st).
    rewrite derived_history. cbn [run_call]. unfold bind.
    destruct (validate_business_model generate_content datetime_now business_model st)
      as [[d|e] st1]; cbn; now rewrite app_nil_r.
  - now left.
  - left. cbn [run_call]. unfold bind.
    destruct (export_analysis_cases analysis format st)
      as [[_ E]|[(_ & _ & E)|(_ & _ & E)]]; now rewrite E.
  - now left.
Qed.

Hypothesis monotone : clock_monotone generate_content datetime_now.

Lemma run_call_stamped (c : call) (st : State World) :
  timestamps_sorted (analysis_history st) ->
  last_stamped generate_content datetime_now st ->
  let st' := snd (run_call generate_content datetime_now c st) in
  timestamps_sorted (analysis_history st')
  /\ last_stamped generate_content datetime_now st'.
Proof.
  intros Hsorted Hstamp st'.
  pose proof (run_call_later generate_content datetime_now c st) as Hlater.
  fold st' in Hlater.
  destruct (run_call_keeps_or_appends c st)
    as [Hsame|(idea & a & _ & Happ & Hat & Hworld)]; fold st' in Hsame || idtac.
  - rewrite Hsame. split; [exact Hsorted|].
    intros h' b Hh. rewrite Hsame in Hh.
    destruct (Hstamp h' b Hh) as (w0 & Hb & Hw0).
    exists w0. split; [exact Hb|].
    eapply later_trans; eassumption.
  - fold st' in Happ, Hworld. rewrite Happ. split.
    + apply timestamps_sorted_app; [exact Hsorted|].
      intros h' b Hh. destruct (Hstamp h' b Hh) as (w0 & Hb & Hw0).
      rewrite Hb, Hat. apply monotone.
      eapply later_trans; [exact Hw0 | apply later_section_outcomes].
    + intros h' b Hh. rewrite Happ in Hh. apply app_inj_tail in Hh as [_ <-].
      eexists. split; [exact Hat|]. rewrite Hworld. apply later_clock.
Qed.

Lemma run_calls_stamped (cs : list call) :
  forall st : State World,
    timestamps_sorted (analysis_history st) ->
    last_stamped generate_content datetime_now st ->
    timestamps_sorted
      (analysis_history (snd (run_calls generate_content datetime_now cs st))).
Proof.
  induction cs as [|c cs IH]; intros st Hsorted Hstamp; [exact Hsorted|].
  cbn [run_calls].
  destruct (run_call_stamped c st Hsorted Hstamp) as [Hsorted1 Hstamp1].
  destruct (run_call generate_content datetime_now c st) as [r st1].
  specialize (IH st1 Hsorted1 Hstamp1).
  destruct (run_calls generate_content datetime_now cs st1) as [rs st2].
  exact IH.
Qed.

End TimestampTheory.

Lemma ticking_later (w w' : stub_world) :
  later stub_generate ticking_clock w w' -> ticks w <= ticks w'.
Proof.
  induction 1 as [w|w1 w2 w3 Hstep _ IH]; [lia|].
  destruct Hstep; cbn in IH; lia.
Qed.

Lemma ticking_clock_monotone : clock_monotone stub_generate ticking_clock.
Proof.
  intros w w' H. apply ticking_later in H.
  unfold datetime_le, datetime_leb, ticking_clock, noon. cbn.
  destruct (N.ltb_spec (N.of_nat (ticks w)) (N.of_nat (ticks w'))) as [Hlt|Hge];
    [reflexivity|].
  cbn. rewrite andb_true_r. apply N.eqb_eq. lia.
Qed.

(** C9, counterexample.  The wall clock is set back between two analyses:
    the record appended second carries the earlier timestamp. *)
Lemma timestamps_decrease_when_clock_set_back :
  ~ timestamps_sorted
      (analysis_history
         (snd (run_calls stub_generate backward_clock
                 [AnalyzeStartupIdea "first idea"; AnalyzeStartupIdea "second idea"]
                 (__init__ stub_start)))).
Proof.
  intros H.
  set (h := analysis_history _) in H.
  assert (exists a b, nth_error h 0 = Some a /\ nth_error h 1 = Some b
                      /\ datetime_leb (created_at a) (created_at b) = false)
    as (a & b & Ha & Hb & Hle).
  { eexists. eexists. vm_compute. repeat split. }
  specialize (H 0 a b Ha Hb). unfold datetime_le in H.
  rewrite Hle in H. discriminate H.
Qed.

(** Under a clock of which no reading is less than an earlier one, the
    timestamps of the history are non-decreasing after any session on a new
    agent. *)
Lemma monotone_clock_sorts_timestamps :
  forall (World : Type) (generate_content : string -> World -> outcome * World)
         (datetime_now : World -> datetime * World),
    clock_monotone generate_content datetime_now ->
    forall cs (w : World),
      timestamps_sorted
        (analysis_history
           (snd (run_calls generate_content datetime_now cs (__init__ w)))).
Proof.
  intros World generate_content datetime_now monotone cs w.
  apply run_calls_stamped; [exact monotone | | ].
  - intros i a b Ha. destruct i; discriminate Ha.
  - intros h' b Hh. destruct h'; discriminate Hh.
Qed.

Section ConstructionWorlds.

Context {World : Type}.
Variable generate_content : string -> World -> outcome * World.
Variable datetime_now : World -> datetime * World.

(** what one call adds to the history and to the construction worlds *)
Lemma run_call_stamps (c : call) (st : State World) :
  let st' := snd (run_call generate_content datetime_now c st) in
  (analysis_history st' = analysis_history st
   /\ forall cs,
        construction_worlds generate_content datetime_now (c :: cs) st
        = construction_worlds generate_content datetime_now cs st')
  \/ exists idea a,
       let w8 := snd (section_outcomes generate_content idea tasks (world st)) in
       analysis_history st' = (analysis_history st ++ [a])%list
       /\ created_at a = fst (datetime_now w8)
       /\ world st' = snd (datetime_now w8)
       /\ forall cs,
            construction_worlds generate_content datetime_now (c :: cs) st
            = w8 :: construction_worlds generate_content datetime_now cs st'.
Proof.
  cbv zeta.
  destruct (run_call_keeps_or_appends generate_content datetime_now c st)
    as [Hsame|(idea & a & Hc & Happ & Hat & Hworld)].
  - destruct c as [idea|analysis|business_model| |analysis format|analysis_id];
      try (left; split; [exact Hsame | reflexivity]).
    exfalso. cbn zeta in Hsame.
    destruct (analyze_appends generate_content datetime_now idea st)
      as (a & Hrun & _).
    cbn [run_call] in Hsame. unfold bind in Hsame. rewrite Hrun in Hsame.
    unfold ret in Hsame. cbn [snd analysis_history] in Hsame.
    apply (f_equal (@length StartupAnalysis)) in Hsame.
    rewrite length_app in Hsame. cbn [length] in Hsame. lia.
  - right. exists idea, a. cbv zeta in *. subst c.
    split; [exact Happ|]. split; [exact Hat|]. split; [exact Hworld|].
    reflexivity.
Qed.

(** the timestamps that a session adds are the readings of the clock in its
    construction worlds *)
Lemma run_calls_stamps (cs : list call) :
  forall st : State World,
    map created_at
      (analysis_history (snd (run_calls generate_content datetime_now cs st)))
    = (map created_at (analysis_history st)
       ++ map (fun w => fst (datetime_now w))
            (construction_worlds generate_content datetime_now cs st))%list.
Proof.
  induction cs as [|c cs IH]; intros st.
  - cbn. now rewrite app_nil_r.
  - cbn [run_calls].
    pose proof (IH (snd (run_call generate_content datetime_now c st))) as Hrest.
    destruct (run_call_stamps c st)
      as [[Hsame Hcw]|(idea & a & Happ & Hat & _ & Hcw)]; cbv zeta in *;
      rewrite (Hcw cs);
      destruct (run_call generate_content datetime_now c st) as [r st1];
      cbn [snd] in *;
      destruct (run_calls generate_content datetime_now cs st1) as [rs st2];
      cbn [snd] in *; rewrite Hrest.
    + now rewrite Hsame.
    + rewrite Happ, map_app. cbn [map]. rewrite Hat, <- app_assoc. reflexivity.
Qed.

(** every construction world of a session comes after the world in which
    the session starts *)
Lemma construction_worlds_later (cs : list call) :
  forall (st : State World) (w : World),
    In w (construction_worlds generate_content datetime_now cs st) ->
    later generate_content datetime_now (world st) w.
Proof.
  induction cs as [|c cs IH]; intros st w Hin; [contradiction|].
  pose proof (run_call_later generate_content datetime_now c st) as Hstep.
  destruct (run_call_stamps c st)
    as [[_ Hcw]|(idea & a & _ & _ & _ & Hcw)]; cbv zeta in *;
    rewrite (Hcw cs) in Hin.
  - eapply later_trans; [exact Hstep | now apply IH].
  - destruct Hin as [<-|Hin].
    + apply later_section_outcomes.
    + eapply later_trans; [exact Hstep | now apply IH].
Qed.

(** a construction comes after the reading of the clock of the one before *)
Lemma construction_worlds_chain (cs : list call) :
  forall (st : State World) (i : nat) (w1 w2 : World),
    nth_error (construction_worlds generate_content datetime_now cs st) i = Some w1 ->
    nth_error (construction_worlds generate_content datetime_now cs st) (S i)
      = Some w2 ->
    later generate_content datetime_now (snd (datetime_now w1)) w2.
Proof.
  induction cs as [|c cs IH]; intros st i w1 w2 H1 H2;
    [destruct i; discriminate H1|].
  destruct (run_call_stamps c st)
    as [[_ Hcw]|(idea & a & _ & _ & Hworld & Hcw)]; cbv zeta in *;
    rewrite (Hcw cs) in H1, H2.
  - exact (IH _ i w1 w2 H1 H2).
  - destruct i as [|i].
    + cbn [nth_error] in H1.
      assert (E : snd (section_outcomes generate_content idea tasks (world st)) = w1)
        by congruence.
      rewrite <- E, <- Hworld. apply construction_worlds_later with (cs := cs).
      apply (nth_error_In _ 0). exact H2.
    + cbn [nth_error] in H1, H2. exact (IH _ i w1 w2 H1 H2).
Qed.

End ConstructionWorlds.

(** C9, amended.  The timestamp of a record is the reading of the wall
    clock taken when the record is built, after the eight service calls of
    its analysis.  For every pair of successive records of the history after
    a session on a new agent, the second record is built after the clock was
    read for the first, and its timestamp is greater than or equal to that
    of the first exactly when the clock was not set back between the two
    constructions: when its reading for the second record is not less than
    its reading for the first.  What the clock did before the first of the
    two, or does after the second, does not matter. *)
Theorem timestamps_follow_the_clock :
  forall (World : Type) (generate_content : string -> World -> outcome * World)
         (datetime_now : World -> datetime * World)
         (cs : list call) (w : World) (i : nat) (a b : StartupAnalysis),
    nth_error
      (analysis_history
         (snd (run_calls generate_content datetime_now cs (__init__ w)))) i
      = Some a ->
    nth_error
      (analysis_history
         (snd (run_calls generate_content datetime_now cs (__init__ w)))) (S i)
      = Some b ->
    exists w1 w2,
      nth_error (construction_worlds generate_content datetime_now cs (__init__ w)) i
        = Some w1
      /\ nth_error
           (construction_worlds generate_content datetime_now cs (__init__ w)) (S i)
         = Some w2
      /\ created_at a = fst (datetime_now w1)
      /\ created_at b = fst (datetime_now w2)
      /\ later generate_content datetime_now (snd (datetime_now w1)) w2
      /\ (not_set_back datetime_now w1 w2 ->
          datetime_le (created_at a) (created_at b))
      /\ (datetime_le (created_at a) (created_at b) ->
          not_set_back datetime_now w1 w2).
Proof.
  intros World generate_content datetime_now cs w i a b Ha Hb.
  pose proof (run_calls_stamps generate_content datetime_now cs (__init__ w))
    as Hstamps.
  cbn [__init__ analysis_history map app] in Hstamps.
  assert (Hnth : forall k x,
            nth_error
              (analysis_history
                 (snd (run_calls generate_content datetime_now cs (__init__ w)))) k
              = Some x ->
            exists wk,
              nth_error
                (construction_worlds generate_content datetime_now cs (__init__ w)) k
                = Some wk
              /\ created_at x = fst (datetime_now wk)).
  { intros k x Hx.
    pose proof (map_nth_error created_at k _ Hx) as Hm.
    rewrite Hstamps in Hm.
    destruct (nth_error
                (construction_worlds generate_content datetime_now cs (__init__ w)) k)
      as [wk|] eqn:Hk.
    - exists wk. split; [reflexivity|].
      rewrite (map_nth_error (fun w => fst (datetime_now w)) k _ Hk) in Hm.
      now injection Hm.
    - apply nth_error_None in Hk.
      assert (nth_error
                (map (fun w => fst (datetime_now w))
                   (construction_worlds generate_content datetime_now cs
                      (__init__ w))) k = None) as Hnone
        by (apply nth_error_None; now rewrite length_map).
      rewrite Hnone in Hm. discriminate Hm. }
  destruct (Hnth i a Ha) as (w1 & H1 & Hat1).
  destruct (Hnth (S i) b Hb) as (w2 & H2 & Hat2).
  exists w1, w2. split; [exact H1|]. split; [exact H2|].
  split; [exact Hat1|]. split; [exact Hat2|]. split.
  - exact (construction_worlds_chain generate_content datetime_now cs _ i w1 w2 H1 H2).
  - unfold not_set_back. rewrite Hat1, Hat2. split; trivial.
Qed.

(** Witness of C9: three analyses under a clock that is set back after the
    first of them.  The second record carries an earlier timestamp than the
    first; the clock is not set back between the second and the third, and
    their timestamps are in order. *)
Lemma timestamps_follow_the_clock_witness :
  exists a b c,
    analysis_history
      (snd (run_calls stub_generate reset_clock
              [AnalyzeStartupIdea "first idea"; AnalyzeStartupIdea "second idea";
               AnalyzeStartupIdea "third idea"] (__init__ stub_start)))
    = [a; b; c]
    /\ datetime_leb (created_at a) (created_at b) = false
    /\ datetime_le (created_at b) (created_at c).
Proof.
  assert (Hh : exists a b c,
            analysis_history
              (snd (run_calls stub_generate reset_clock
                      [AnalyzeStartupIdea "first idea";
                       AnalyzeStartupIdea "second idea";
                       AnalyzeStartupIdea "third idea"] (__init__ stub_start)))
            = [a; b; c]
            /\ datetime_leb (created_at a) (created_at b) = false)
    by (eexists; eexists; eexists; split; vm_compute; reflexivity).
  destruct Hh as (a & b & c & Hh & Hback).
  exists a, b, c. split; [exact Hh|]. split; [exact Hback|].
  destruct (timestamps_follow_the_clock stub_world stub_generate reset_clock
              [AnalyzeStartupIdea "first idea"; AnalyzeStartupIdea "second idea";
               AnalyzeStartupIdea "third idea"] stub_start 1 b c)
    as (w1 & w2 & H1 & H2 & _ & _ & _ & Hle & _).
  - now rewrite Hh.
  - now rewrite Hh.
  - apply Hle. vm_compute in H1, H2.
    injection H1 as <-. injection H2 as <-. vm_compute. reflexivity.
Defined.

(** ** Numerals and characters of the encoded texts *)

Lemma pyval_induction (P : pyval -> Prop) :
  P PNone ->
  (forall b, P (PBool b)) ->
  (forall z, P (PInt z)) ->
  (forall s, P (PStr s)) ->
  (forall l, Forall P l -> P (PList l)) ->
  (forall d, Forall (fun kv => P (snd kv)) d -> P (PDict d)) ->
  forall v, P v.
Proof.
  intros HNone HBool HInt HStr HList HDict.
  fix IH 1. intros [|b|z|s|l|d].
  - exact HNone.
  - apply HBool.
  - apply HInt.
  - apply HStr.
  - apply HList. induction l as [|x l IHl]; constructor; [apply IH | exact IHl].
  - apply HDict. induction d as [|[k x] d IHd]; constructor; [apply IH | exact IHd].
Qed.

Lemma contains_char_app (c : ascii) (a b : string) :
  contains_char c (a ++ b) = contains_char c a || contains_char c b.
Proof.
  induction a as [|x a IH]; cbn; [reflexivity|]. now rewrite IH, orb_assoc.
Qed.

Lemma all_chars_app (p : ascii -> bool) (a b : string) :
  all_chars p (a ++ b) = all_chars p a && all_chars p b.
Proof.
  induction a as [|x a IH]; cbn; [reflexivity|]. now rewrite IH, andb_assoc.
Qed.

Lemma all_chars_no_char (p : ascii -> bool) (c : ascii) (s : string) :
  p c = false -> all_chars p s = true -> contains_char c s = false.
Proof.
  intros Hc. induction s as [|x s IH]; cbn; [reflexivity|].
  intros H. apply andb_true_iff in H as [Hx Hs].
  rewrite (IH Hs), orb_false_r.
  destruct (Ascii.eqb_spec c x) as [->|]; [congruence | reflexivity].
Qed.

Lemma string_of_uint_digits (d : Decimal.uint) :
  all_chars is_digit (NilEmpty.string_of_uint d) = true.
Proof. induction d; cbn; auto. Qed.

Lemma nat_str_digits (n : N) : all_chars is_digit (nat_str n) = true.
Proof. apply string_of_uint_digits. Qed.

Lemma to_uint_head (n : N) :
  N.to_uint n = Decimal.D0 Decimal.Nil
  \/ (N.to_uint n <> Decimal.Nil /\ forall d, N.to_uint n <> Decimal.D0 d).
Proof.
  destruct n as [|p]; [now left|]. right.
  change (N.to_uint (N.pos p)) with (Pos.to_uint p). split.
  - apply DecimalPos.Unsigned.to_uint_nonnil.
  - intros d Hd.
    pose proof (DecimalPos.Unsigned.to_of (Pos.to_uint p)) as Hnorm.
    rewrite DecimalPos.Unsigned.of_to in Hnorm.
    change (N.to_uint (N.pos p)) with (Pos.to_uint p) in Hnorm.
    rewrite Hd in Hnorm at 2. unfold Decimal.unorm in Hnorm.
    cbn [Decimal.nzhead] in Hnorm.
    destruct (Decimal.nzhead d) eqn:Hnz; try congruence.
    + apply (DecimalPos.Unsigned.to_uint_nonzero p). exact Hnorm.
    + now apply DecimalFacts.nzhead_nonzero in Hnz.
Qed.

(** a decimal numeral is not empty and opens with a digit *)
Lemma nat_str_head (n : N) :
  exists c s, nat_str n = String c s /\ is_digit c = true.
Proof.
  pose proof (nat_str_digits n) as Hd. unfold nat_str in *.
  destruct (to_uint_head n) as [E|[Hnil _]].
  - rewrite E. now exists "0"%char, "".
  - destruct (NilEmpty.string_of_uint (N.to_uint n)) as [|c s] eqn:E.
    + destruct (N.to_uint n); cbn in E; try discriminate E. now contradiction Hnil.
    + cbn in Hd. apply andb_true_iff in Hd as [Hc _]. now exists c, s.
Qed.

Lemma nat_str_no_char (c : ascii) (n : N) :
  is_digit c = false -> contains_char c (nat_str n) = false.
Proof. intros Hc. eapply all_chars_no_char; [exact Hc | apply nat_str_digits]. Qed.

Lemma int_str_no_lf (z : Z) : contains_char LF (int_str z) = false.
Proof.
  unfold int_str. destruct (z <? 0)%Z; cbn [contains_char];
    rewrite nat_str_no_char; reflexivity.
Qed.

Lemma zeros_no_lf (k : nat) : contains_char LF (zeros k) = false.
Proof. induction k; cbn; auto. Qed.

Lemma zero_pad_no_lf (w : nat) (n : N) : contains_char LF (zero_pad w n) = false.
Proof.
  unfold zero_pad. now rewrite contains_char_app, zeros_no_lf, nat_str_no_char.
Qed.

Lemma datetime_str_no_lf (t : datetime) : contains_char LF (datetime_str t) = false.
Proof.
  unfold datetime_str, isoformat_sep.
  destruct (microsecond t =? 0)%N;
    repeat (rewrite contains_char_app || rewrite zero_pad_no_lf); reflexivity.
Qed.

Lemma escape_json_char_no_lf (c : ascii) :
  contains_char LF (escape_json_char c) = false.
Proof. destruct c as [[] [] [] [] [] [] [] []]; reflexivity. Qed.

Lemma escape_json_no_lf (s : string) : contains_char LF (escape_json s) = false.
Proof.
  induction s as [|c s IH]; cbn; [reflexivity|].
  now rewrite contains_char_app, escape_json_char_no_lf, IH.
Qed.

Lemma encode_basestring_ascii_no_lf (s : string) :
  contains_char LF (encode_basestring_ascii s) = false.
Proof.
  unfold encode_basestring_ascii.
  now rewrite !contains_char_app, escape_json_no_lf.
Qed.

(** ** Lines of the markdown document *)

Lemma lines_nonempty (s : string) : lines s <> [].
Proof.
  induction s as [|c s IH]; cbn [lines]; [discriminate|].
  destruct (Ascii.eqb c LF); [discriminate|].
  destruct (lines s); [contradiction | discriminate].
Qed.

Lemma lines_app_lf (a b : string) :
  lines (a ++ String LF b) = (lines a ++ lines b)%list.
Proof.
  induction a as [|c a IH]; [reflexivity|].
  cbn [append lines]. destruct (Ascii.eqb c LF).
  - now rewrite IH.
  - rewrite IH. pose proof (lines_nonempty a) as Ha.
    destruct (lines a); [contradiction | reflexivity].
Qed.

Lemma lines_no_lf (s : string) : contains_char LF s = false -> lines s = [s].
Proof.
  induction s as [|c s IH]; [reflexivity|].
  cbn [lines contains_char]. rewrite Ascii.eqb_sym. intros H.
  apply orb_false_iff in H as [Hc Hs].
  now rewrite Hc, (IH Hs).
Qed.

Lemma join_cons (sep x y : string) (l : list string) :
  join sep (x :: y :: l) = x ++ sep ++ join sep (y :: l).
Proof. reflexivity. Qed.

Lemma lines_join (l : list string) :
  l <> [] -> lines (join (chr LF) l) = concat (map lines l).
Proof.
  induction l as [|x [|y l] IH]; intros Hl; [contradiction | | ].
  - cbn. now rewrite app_nil_r.
  - rewrite join_cons. change (chr LF ++ join (chr LF) (y :: l))
      with (String LF (join (chr LF) (y :: l))).
    rewrite lines_app_lf, IH by discriminate. reflexivity.
Qed.

Lemma filter_concat {A : Type} (p : A -> bool) (ll : list (list A)) :
  filter p (concat ll) = concat (map (filter p) ll).
Proof.
  induction ll as [|l ll IH]; [reflexivity|].
  cbn. now rewrite filter_app, IH.
Qed.

(** *** No line of an encoded value opens a list item *)

Lemma dash_free_app (a b : string) :
  forall f, dash_free f (a ++ b) = dash_free f a && dash_free (ends_fresh f a) b.
Proof.
  induction a as [|c a IH]; intros f; [reflexivity|].
  cbn [append dash_free ends_fresh].
  destruct (Ascii.eqb c LF); rewrite IH; [reflexivity|].
  now rewrite andb_assoc.
Qed.

Lemma ends_fresh_app (a b : string) :
  forall f, ends_fresh f (a ++ b) = ends_fresh (ends_fresh f a) b.
Proof. induction a as [|c a IH]; intros f; [reflexivity | apply IH]. Qed.

Lemma inline_app (a b : string) : inline a -> inline b -> inline (a ++ b).
Proof.
  intros [Ha1 Ha2] [Hb1 Hb2]. split.
  - now rewrite dash_free_app, Ha1, Ha2, Hb1.
  - now rewrite ends_fresh_app, Ha2.
Qed.

Lemma inline_no_lf (s : string) : contains_char LF s = false -> inline s.
Proof.
  induction s as [|c s IH]; [now split|].
  cbn [contains_char]. rewrite Ascii.eqb_sym. intros H.
  apply orb_false_iff in H as [Hc Hs].
  destruct (IH Hs) as [H1 H2]. unfold inline. cbn [dash_free ends_fresh].
  now rewrite Hc, H1, H2.
Qed.

Lemma dash_free_spaces (k : nat) (f : bool) (c : ascii) :
  Ascii.eqb c LF = false -> Ascii.eqb c "-" = false ->
  dash_free f (spaces k ++ chr c) = true
  /\ ends_fresh f (spaces k ++ chr c) = false.
Proof.
  intros Hlf Hdash. revert f.
  induction k as [|k IH]; intros f; cbn [spaces append chr dash_free ends_fresh].
  - now rewrite Hlf, Hdash, andb_false_r.
  - destruct (IH false) as [H1 H2].
    change (Ascii.eqb " " LF) with false. change (Ascii.eqb " " "-") with false.
    cbn iota. now rewrite andb_false_r, H1, H2.
Qed.

(** a closing bracket on a line of its own *)
Lemma inline_closing (level : nat) (c : ascii) :
  Ascii.eqb c LF = false -> Ascii.eqb c "-" = false ->
  inline (newline_indent level ++ chr c).
Proof.
  intros Hlf Hdash. unfold inline, newline_indent.
  cbn [append dash_free ends_fresh]. rewrite Ascii.eqb_refl.
  apply dash_free_spaces; assumption.
Qed.

(** the break in front of an item *)
Lemma inline_newline_indent (level : nat) : inline (newline_indent (S level)).
Proof.
  unfold newline_indent.
  replace (spaces (2 * S level)) with (spaces (S (2 * level)) ++ chr " ").
  - unfold inline. cbn [dash_free ends_fresh]. rewrite Ascii.eqb_refl.
    apply (dash_free_spaces (S (2 * level)) true " "); reflexivity.
  - replace (2 * S level) with (S (S (2 * level))) by lia.
    generalize (2 * level). intros k. cbn. f_equal.
    induction k as [|k IH]; cbn; [reflexivity | now rewrite IH].
Qed.

Lemma inline_item_separator (level : nat) : inline (item_separator (S level)).
Proof.
  unfold item_separator.
  apply inline_app; [now apply inline_no_lf | apply inline_newline_indent].
Qed.

Lemma inline_join (sep : string) (items : list string) :
  inline sep -> items <> [] -> Forall inline items -> inline (join sep items).
Proof.
  intros Hsep. induction items as [|x [|y items] IH]; intros Hne Hall.
  - contradiction.
  - now inversion Hall.
  - rewrite join_cons. inversion Hall as [|? ? Hx Hrest]; subst.
    apply inline_app; [exact Hx|]. apply inline_app; [exact Hsep|].
    apply IH; [discriminate | exact Hrest].
Qed.

Lemma inline_dumps (v : pyval) : forall level, inline (dumps_at level v).
Proof.
  induction v as [|b|z|s|l IH|d IH] using pyval_induction; intros level.
  - now apply inline_no_lf.
  - destruct b; now apply inline_no_lf.
  - apply inline_no_lf, int_str_no_lf.
  - apply inline_no_lf, encode_basestring_ascii_no_lf.
  - destruct l as [|x l]; [now apply inline_no_lf|].
    cbn [dumps_at].
    apply inline_app; [now apply inline_no_lf|].
    apply inline_app; [apply inline_newline_indent|].
    apply inline_app; [|now apply (inline_closing level "]")].
    apply inline_join.
    + apply inline_item_separator.
    + discriminate.
    + apply Forall_map. eapply Forall_impl; [|exact IH].
      intros y Hy. apply Hy.
  - destruct d as [|kv d]; [now apply inline_no_lf|].
    cbn [dumps_at].
    apply inline_app; [now apply inline_no_lf|].
    apply inline_app; [apply inline_newline_indent|].
    apply inline_app; [|now apply (inline_closing level "}")].
    apply inline_join.
    + apply inline_item_separator.
    + discriminate.
    + apply Forall_map. eapply Forall_impl; [|exact IH].
      intros [k y] Hy. cbn [fst snd] in *.
      apply inline_app; [apply inline_no_lf, encode_basestring_ascii_no_lf|].
      apply inline_app; [now apply inline_no_lf | apply Hy].
Qed.

Lemma dash_free_lines (s : string) :
  forall f, dash_free f s = true ->
    filter is_bullet (tl (lines s)) = []
    /\ (f = true -> is_bullet (hd "" (lines s)) = false).
Proof.
  induction s as [|c s IH]; intros f H; [now split|].
  cbn [dash_free] in H. cbn [lines]. destruct (Ascii.eqb c LF) eqn:Hc.
  - destruct (IH true H) as [Htl Hhd]. pose proof (lines_nonempty s) as Hne.
    destruct (lines s) as [|l ls]; [contradiction|].
    cbn [tl hd filter] in *. rewrite (Hhd eq_refl). now split.
  - apply andb_true_iff in H as [Hdash Hs].
    destruct (IH false Hs) as [Htl _]. pose proof (lines_nonempty s) as Hne.
    destruct (lines s) as [|l ls]; [contradiction|].
    cbn [tl hd] in *. split; [exact Htl|]. intros ->. cbn [andb] in Hdash.
    apply negb_true_iff in Hdash.
    unfold is_bullet. cbn [starts_with]. now rewrite Ascii.eqb_sym, Hdash.
Qed.

Lemma no_bullet_lines (s : string) :
  dash_free true s = true -> filter is_bullet (lines s) = [].
Proof.
  intros H. destruct (dash_free_lines s true H) as [Htl Hhd].
  pose proof (lines_nonempty s) as Hne.
  destruct (lines s) as [|l ls]; [contradiction|].
  cbn [tl hd filter] in *. now rewrite (Hhd eq_refl).
Qed.

Lemma dash_free_head (c : ascii) (s : string) :
  Ascii.eqb c "-" = false ->
  dash_free false (String c s) = true -> dash_free true (String c s) = true.
Proof. cbn [dash_free]. intros ->. now rewrite andb_false_r. Qed.

(** The encoding of a value has no line that opens a list item. *)
Lemma json_dumps_no_bullets (v : pyval) : bullet_lines (json_dumps v) = [].
Proof.
  unfold bullet_lines, json_dumps.
  destruct (inline_dumps v 0) as [Hfree _].
  destruct v as [|b|z|s|l|d].
  - reflexivity.
  - destruct b; reflexivity.
  - cbn [dumps_at]. rewrite lines_no_lf by apply int_str_no_lf.
    cbn [filter]. unfold is_bullet, int_str.
    destruct (z <? 0)%Z.
    + destruct (nat_str_head (Z.abs_N z)) as (c & s & -> & Hc).
      cbn [starts_with]. rewrite Ascii.eqb_refl. cbn [andb].
      destruct (Ascii.eqb_spec " " c) as [<-|]; [discriminate Hc | reflexivity].
    + destruct (nat_str_head (Z.to_N z)) as (c & s & -> & Hc).
      cbn [starts_with].
      destruct (Ascii.eqb_spec "-" c) as [<-|]; [discriminate Hc | reflexivity].
  - apply no_bullet_lines. now apply dash_free_head.
  - apply no_bullet_lines. destruct l; [reflexivity | now apply dash_free_head].
  - apply no_bullet_lines. destruct d; [reflexivity | now apply dash_free_head].
Qed.

(** *** The bulleted list *)

Lemma lines_bullet (s : string) :
  lines ("- " ++ s) = ("- " ++ hd "" (lines s)) :: tl (lines s).
Proof.
  cbn. pose proof (lines_nonempty s) as Hne.
  destruct (lines s); [contradiction | reflexivity].
Qed.

Lemma bullet_block_lines (recs : list pyval) :
  (forall rec, In rec recs -> filter is_bullet (tl (lines (py_str rec))) = []) ->
  bullet_lines (bullet_block recs)
  = map (fun rec => "- " ++ hd "" (lines (py_str rec))) recs.
Proof.
  intros Hrecs. unfold bullet_lines, bullet_block.
  destruct recs as [|r recs]; [reflexivity|].
  rewrite lines_join by discriminate.
  rewrite filter_concat, !map_map.
  induction (r :: recs) as [|x l IH]; [reflexivity|].
  cbn [map concat]. rewrite IH by (intros rec Hin; apply Hrecs; now right).
  rewrite lines_bullet. cbn [filter].
  change (is_bullet ("- " ++ hd "" (lines (py_str x)))) with true.
  cbn iota. rewrite (Hrecs x) by now left. reflexivity.
Qed.

(** *** The document *)

Lemma markdown_is_joined_pieces (analysis : StartupAnalysis) :
  _convert_to_markdown analysis = join (chr LF) (markdown_pieces analysis).
Proof.
  unfold _convert_to_markdown, markdown_pieces, bullet_block, join.
  cbn [String.concat]. unfold chr.
  repeat (rewrite append_assoc || cbn [append]).
  reflexivity.
Qed.

Lemma generated_on_no_bullets (t : datetime) :
  filter is_bullet (lines ("Generated on: " ++ datetime_str t)) = [].
Proof.
  apply no_bullet_lines.
  assert (H : inline ("Generated on: " ++ datetime_str t)).
  { apply inline_app; [now apply inline_no_lf|].
    apply inline_no_lf, datetime_str_no_lf. }
  destruct H as [H _]. now apply dash_free_head.
Qed.

Lemma markdown_bullet_lines (analysis : StartupAnalysis) :
  bullet_lines (_convert_to_markdown analysis)
  = bullet_lines (bullet_block (recommendations analysis)).
Proof.
  unfold bullet_lines at 1.
  rewrite markdown_is_joined_pieces, lines_join by discriminate.
  rewrite filter_concat, map_map. unfold markdown_pieces. cbn [map concat].
  rewrite generated_on_no_bullets.
  repeat match goal with
         | |- context [filter is_bullet (lines (json_dumps ?v))] =>
             change (filter is_bullet (lines (json_dumps v)))
               with (bullet_lines (json_dumps v));
             rewrite (json_dumps_no_bullets v)
         end.
  repeat match goal with
         | |- context [filter is_bullet (lines (String ?c ?s))] =>
             rewrite (no_bullet_lines (String c s) eq_refl)
         end.
  rewrite (no_bullet_lines "" eq_refl).
  cbn [app]. now rewrite app_nil_r.
Qed.

Lemma markdown_heading_lines (analysis : StartupAnalysis) (heading : string) :
  In heading section_headings -> In heading (lines (_convert_to_markdown analysis)).
Proof.
  intros Hin.
  rewrite markdown_is_joined_pieces, lines_join by discriminate.
  apply in_concat. exists [heading]. split; [|now left].
  apply in_map_iff. exists heading. unfold section_headings in Hin. cbn [In] in Hin.
  unfold markdown_pieces.
  repeat (destruct Hin as [<-|Hin];
          [split; [reflexivity | cbn [In]; tauto]|]).
  contradiction.
Qed.

(** C7, counterexample.  A record whose one recommendation runs over two
    lines, the second of which starts with a dash and a space: the document
    has two bullet lines for one entry. *)
Lemma markdown_two_bullets_for_one_entry :
  length (recommendations two_line_analysis) = 1
  /\ exists doc,
       export_analysis two_line_analysis "markdown" (__init__ stub_start)
         = (Ok doc, __init__ stub_start)
       /\ bullet_lines doc = ["- Launch a pilot"; "- then raise a seed round"].
Proof.
  split; [reflexivity|].
  eexists. split; [reflexivity|]. vm_compute. reflexivity.
Qed.

(** C7, amended.  For every record, the markdown export contains a heading
    line for each of the seven sections.  Provided no recommendation entry
    has, behind its first line, a line that begins with a dash and a space,
    the bullet lines of the document are exactly one per entry of the
    recommendations, in order: the dash, a space and the first line of the
    entry.  An entry without a line break is such an entry, and its bullet
    line is the dash, a space and the entry. *)
Theorem markdown_headings_and_bullets :
  forall (World : Type) (analysis : StartupAnalysis) (st : State World),
  exists doc,
    export_analysis analysis "markdown" st = (Ok doc, st)
    /\ (forall heading, In heading section_headings -> In heading (lines doc))
    /\ ((forall rec, In rec (recommendations analysis) ->
           filter is_bullet (tl (lines (py_str rec))) = []) ->
        bullet_lines doc
          = map (fun rec => "- " ++ hd "" (lines (py_str rec))) (recommendations analysis)
        /\ length (bullet_lines doc) = length (recommendations analysis))
    /\ ((forall rec, In rec (recommendations analysis) ->
           contains_char LF (py_str rec) = false) ->
        bullet_lines doc
          = map (fun rec => "- " ++ py_str rec) (recommendations analysis)).
Proof.
  intros World analysis st. exists (_convert_to_markdown analysis).
  split; [reflexivity|]. split; [apply markdown_heading_lines|]. split.
  - intros Hrecs. rewrite markdown_bullet_lines, bullet_block_lines by exact Hrecs.
    split; [reflexivity | apply length_map].
  - intros Hrecs. rewrite markdown_bullet_lines, bullet_block_lines.
    + apply map_ext_in. intros rec Hin.
      now rewrite (lines_no_lf _ (Hrecs rec Hin)).
    + intros rec Hin. now rewrite (lines_no_lf _ (Hrecs rec Hin)).
Qed.

(** Witness of C7: the record of the export tests. *)
Lemma markdown_headings_and_bullets_witness :
  exists doc,
    export_analysis sample_analysis "markdown" (__init__ stub_start)
      = (Ok doc, __init__ stub_start)
    /\ In "## Go-to-Market Strategy" (lines doc)
    /\ bullet_lines doc = ["- Test recommendation"].
Proof.
  destruct (markdown_headings_and_bullets stub_world sample_analysis
              (__init__ stub_start))
    as (doc & Hdoc & Hhead & _ & Hbullets).
  exists doc. split; [exact Hdoc|]. split.
  - apply Hhead. cbn. tauto.
  - rewrite Hbullets; [reflexivity|].
    intros rec [<-|[]]. reflexivity.
Defined.

(** ** The JSON text is read back as the value it encodes *)

(** *** Numbers *)

Lemma uint_value_acc (d : Decimal.uint) :
  forall acc : positive,
    uint_value (N.pos acc) d = N.pos (Pos.of_uint_acc d acc).
Proof.
  induction d as [|d IH|d IH|d IH|d IH|d IH|d IH|d IH|d IH|d IH|d IH];
    intros acc; cbn [uint_value Pos.of_uint_acc]; [reflexivity|..];
    rewrite <- IH; f_equal; lia.
Qed.

Lemma uint_value_of_uint (d : Decimal.uint) : uint_value 0 d = N.of_uint d.
Proof.
  unfold N.of_uint.
  induction d as [|d IH|d IH|d IH|d IH|d IH|d IH|d IH|d IH|d IH|d IH];
    cbn [uint_value Pos.of_uint]; [reflexivity | exact IH | ..];
    apply uint_value_acc.
Qed.

Lemma ends_number_not_digit (rest : string) :
  ends_number rest = true ->
  match rest with
  | "" => True
  | String c _ => is_digit c = false
  end.
Proof.
  destruct rest as [|c rest]; [trivial|]. cbn [ends_number]. intros H.
  apply andb_true_iff in H as [H _]. now apply negb_true_iff in H.
Qed.

Lemma ends_number_not_float (rest : string) :
  ends_number rest = true -> float_follows rest = false.
Proof.
  destruct rest as [|c rest]; [reflexivity|]. cbn [ends_number]. intros H.
  apply andb_true_iff in H as [_ H]. now apply negb_true_iff in H.
Qed.

Lemma scan_digits_uint (d : Decimal.uint) (rest : string) :
  ends_number rest = true ->
  forall acc,
    scan_digits acc (NilEmpty.string_of_uint d ++ rest) = (uint_value acc d, rest).
Proof.
  intros Hrest. apply ends_number_not_digit in Hrest.
  induction d as [|d IH|d IH|d IH|d IH|d IH|d IH|d IH|d IH|d IH|d IH];
    intros acc; cbn [NilEmpty.string_of_uint append uint_value];
    try (cbn [scan_digits]; change (is_digit _) with true; cbn iota; apply IH).
  destruct rest as [|c rest]; [reflexivity|].
  cbn [scan_digits]. now rewrite Hrest.
Qed.

Lemma parse_nat_nat_str (n : N) (rest : string) :
  ends_number rest = true -> parse_nat (nat_str n ++ rest) = Some (n, rest).
Proof.
  intros Hrest. unfold nat_str.
  destruct (to_uint_head n) as [E|[Hnil Hzero]].
  - rewrite E. cbn. f_equal. f_equal.
    rewrite <- (DecimalN.Unsigned.of_to n), E. reflexivity.
  - pose proof (scan_digits_uint (N.to_uint n) rest Hrest 0%N) as Hscan.
    rewrite uint_value_of_uint, DecimalN.Unsigned.of_to in Hscan.
    destruct (N.to_uint n) as [|d|d|d|d|d|d|d|d|d|d];
      [contradiction | now contradiction (Hzero d) | ..];
      cbn [NilEmpty.string_of_uint append] in *; unfold parse_nat;
      change (is_digit _) with true; cbn [negb]; cbn iota;
      change (Ascii.eqb _ "0") with false; cbn iota; now rewrite Hscan.
Qed.

Lemma digit_char_facts (c : ascii) :
  is_digit c = true ->
  Ascii.eqb c DQ = false /\ Ascii.eqb c "{" = false /\ Ascii.eqb c "[" = false
  /\ Ascii.eqb c "n" = false /\ Ascii.eqb c "t" = false /\ Ascii.eqb c "f" = false
  /\ Ascii.eqb c "-" = false /\ is_ws c = false
  /\ Ascii.eqb c "]" = false /\ Ascii.eqb c "}" = false.
Proof.
  destruct c as [[] [] [] [] [] [] [] []]; intros H; try discriminate H;
    repeat split.
Qed.

Lemma parse_number_int_str (z : Z) (rest : string) :
  ends_number rest = true ->
  parse_number (int_str z ++ rest) = Some (PInt z, rest).
Proof.
  intros Hrest. pose proof (ends_number_not_float rest Hrest) as Hfloat.
  unfold int_str. destruct (Z.ltb_spec z 0) as [Hneg|Hpos].
  - cbn [append parse_number]. change (Ascii.eqb "-" "-") with true. cbn iota.
    rewrite (parse_nat_nat_str _ _ Hrest), Hfloat. do 3 f_equal. lia.
  - pose proof (parse_nat_nat_str (Z.to_N z) rest Hrest) as Hnat.
    destruct (nat_str_head (Z.to_N z)) as (c & s & E & Hc).
    rewrite E in *. cbn [append parse_number] in *.
    destruct (digit_char_facts c Hc) as (_ & _ & _ & _ & _ & _ & -> & _).
    rewrite Hnat, Hfloat. do 3 f_equal. lia.
Qed.

Lemma parse_value_number (fuel : nat) (c : ascii) (s : string) :
  is_digit c = true \/ c = "-"%char ->
  parse_value (S fuel) (String c s) = parse_number (String c s).
Proof.
  intros [Hc| ->].
  - destruct (digit_char_facts c Hc) as (H1 & H2 & H3 & H4 & H5 & H6 & _).
    cbn [parse_value]. now rewrite H1, H2, H3, H4, H5, H6.
  - reflexivity.
Qed.

Lemma int_str_head (z : Z) :
  exists c s, int_str z = String c s /\ (is_digit c = true \/ c = "-"%char).
Proof.
  unfold int_str. destruct (z <? 0)%Z.
  - eexists. eexists. split; [reflexivity | now right].
  - destruct (nat_str_head (Z.to_N z)) as (c & s & E & Hc).
    exists c, s. split; [exact E | now left].
Qed.

(** *** Strings *)

Lemma scanstring_escape_char (c : ascii) (s : string) :
  scanstring (escape_json_char c ++ s) = cons_char c (scanstring s).
Proof. destruct c as [[] [] [] [] [] [] [] []]; reflexivity. Qed.

Lemma scanstring_escape (s rest : string) :
  scanstring (escape_json s ++ String DQ rest) = Some (s, rest).
Proof.
  induction s as [|c s IH]; [reflexivity|].
  cbn [escape_json]. rewrite append_assoc, scanstring_escape_char, IH.
  reflexivity.
Qed.

Lemma encode_basestring_ascii_app (k rest : string) :
  encode_basestring_ascii k ++ rest = String DQ (escape_json k ++ String DQ rest).
Proof.
  unfold encode_basestring_ascii, chr. cbn [append]. now rewrite append_assoc.
Qed.

(** *** White space and first characters *)

Lemma skip_ws_spaces (k : nat) (s : string) : skip_ws (spaces k ++ s) = skip_ws s.
Proof. induction k as [|k IH]; [reflexivity | exact IH]. Qed.

Lemma skip_ws_newline_indent (level : nat) (s : string) :
  skip_ws (newline_indent level ++ s) = skip_ws s.
Proof. unfold newline_indent. cbn [append skip_ws]. apply skip_ws_spaces. Qed.

Lemma skip_ws_opens (s : string) : opens_value s = true -> skip_ws s = s.
Proof.
  destruct s as [|c s]; [discriminate|]. cbn [opens_value skip_ws]. intros H.
  apply andb_true_iff in H as [H _]. apply andb_true_iff in H as [H _].
  apply negb_true_iff in H. now rewrite H.
Qed.

Lemma expect_opens (s : string) :
  opens_value s = true -> expect "]" s = None /\ expect "}" s = None.
Proof.
  destruct s as [|c s]; [discriminate|]. cbn [opens_value expect]. intros H.
  apply andb_true_iff in H as [H H2]. apply andb_true_iff in H as [_ H1].
  apply negb_true_iff in H1, H2. now rewrite H1, H2.
Qed.

Lemma opens_dumps (v : pyval) (level : nat) (rest : string) :
  opens_value (dumps_at level v ++ rest) = true.
Proof.
  destruct v as [|b|z|s|l|d]; try reflexivity.
  - destruct b; reflexivity.
  - cbn [dumps_at]. destruct (int_str_head z) as (c & s & -> & [Hc| ->]);
      [|reflexivity].
    cbn [append opens_value].
    destruct (digit_char_facts c Hc) as (_ & _ & _ & _ & _ & _ & _ & -> & -> & ->).
    reflexivity.
  - destruct l; reflexivity.
  - destruct d; reflexivity.
Qed.

(** *** Dicts *)

Lemma dict_set_fresh (acc : pydict) (k : string) (v : pyval) :
  existsb (String.eqb k) (map fst acc) = false ->
  dict_set acc k v = (acc ++ [(k, v)])%list.
Proof.
  induction acc as [|[k' v'] acc IH]; [reflexivity|].
  cbn [map fst existsb dict_set app]. intros H.
  apply orb_false_iff in H as [Hk Hacc].
  rewrite String.eqb_sym, Hk. now rewrite IH.
Qed.

Lemma dict_of_pairs_acc (d : list (string * pyval)) :
  forall acc,
    nodup_keys (map fst d) = true ->
    (forall k, In k (map fst d) -> existsb (String.eqb k) (map fst acc) = false) ->
    fold_left (fun d kv => dict_set d (fst kv) (snd kv)) d acc = (acc ++ d)%list.
Proof.
  induction d as [|[k v] d IH]; intros acc Hnodup Hfresh.
  - cbn. now rewrite app_nil_r.
  - cbn [map fst nodup_keys] in Hnodup.
    apply andb_true_iff in Hnodup as [Hk Hd]. apply negb_true_iff in Hk.
    cbn [fold_left fst snd].
    rewrite dict_set_fresh by (apply Hfresh; now left).
    rewrite IH; [now rewrite <- app_assoc | exact Hd | ].
    intros k' Hin. rewrite map_app, existsb_app. cbn [map fst existsb].
    rewrite (Hfresh k') by now right. rewrite orb_false_r. cbn [orb].
    destruct (String.eqb_spec k' k) as [->|]; [|reflexivity].
    assert (existsb (String.eqb k) (map fst d) = true) as E.
    { apply existsb_exists. exists k. split; [exact Hin | apply String.eqb_refl]. }
    congruence.
Qed.

Lemma dict_of_pairs_nodup (d : list (string * pyval)) :
  nodup_keys (map fst d) = true -> dict_of_pairs d = d.
Proof.
  intros H. unfold dict_of_pairs. now rewrite dict_of_pairs_acc.
Qed.

(** *** Values *)

Lemma skip_ws_item_separator (level : nat) (s : string) :
  skip_ws (item_separator level ++ s) = String "," (newline_indent level ++ s).
Proof. reflexivity. Qed.

Lemma expect_same (c : ascii) (s : string) : expect c (String c s) = Some s.
Proof. unfold expect. now rewrite Ascii.eqb_refl. Qed.

Lemma expect_other (c d : ascii) (s : string) :
  Ascii.eqb d c = false -> expect c (String d s) = None.
Proof. unfold expect. now intros ->. Qed.

Lemma skip_ws_char (c : ascii) (s : string) :
  is_ws c = false -> skip_ws (String c s) = String c s.
Proof. cbn [skip_ws]. now intros ->. Qed.

Lemma parse_elements_join (level : nat) (close rest : string) :
  ends_number close = true ->
  expect "]" (skip_ws close) = Some rest ->
  forall l fuel,
    l <> [] -> Forall reads_back l ->
    list_sum (map (fun x => S (size x)) l) <= fuel ->
    parse_elements fuel
      (join (item_separator (S level)) (map (dumps_at (S level)) l) ++ close)
    = Some (l, rest).
Proof.
  intros Hnum Hclose.
  induction l as [|x [|y l] IH]; intros fuel Hne Hall Hfuel; [contradiction | | ].
  - inversion Hall as [|? ? Hx _]; subst.
    cbn [map list_sum fold_right] in Hfuel. destruct fuel as [|fuel]; [lia|].
    cbn [map join String.concat parse_elements].
    rewrite (Hx fuel (S level) close) by (lia || assumption).
    now rewrite Hclose.
  - inversion Hall as [|? ? Hx Hrest]; subst.
    cbn [map list_sum fold_right] in Hfuel. destruct fuel as [|fuel]; [lia|].
    cbn [map]. rewrite join_cons, !append_assoc.
    cbn [parse_elements].
    rewrite (Hx fuel (S level)) by (lia || reflexivity).
    rewrite !skip_ws_item_separator.
    rewrite (expect_other "]" ",") by reflexivity. rewrite expect_same.
    rewrite skip_ws_newline_indent.
    change (dumps_at (S level) y :: map (dumps_at (S level)) l)
      with (map (dumps_at (S level)) (y :: l)).
    assert (Hopen : opens_value
                      (join (item_separator (S level))
                         (map (dumps_at (S level)) (y :: l)) ++ close) = true).
    { destruct l as [|y' l]; cbn [map].
      - cbn [join String.concat]. apply opens_dumps.
      - rewrite join_cons, append_assoc. apply opens_dumps. }
    rewrite (skip_ws_opens _ Hopen).
    rewrite IH; [reflexivity | discriminate | exact Hrest | ].
    cbn [map list_sum fold_right] in *. lia.
Qed.

Lemma parse_members_join (level : nat) (close rest : string) :
  ends_number close = true ->
  expect "}" (skip_ws close) = Some rest ->
  forall d fuel,
    d <> [] -> Forall (fun kv => reads_back (snd kv)) d ->
    list_sum (map (fun kv => S (size (snd kv))) d) <= fuel ->
    parse_members fuel
      (join (item_separator (S level)) (map (member_text level) d) ++ close)
    = Some (d, rest).
Proof.
  intros Hnum Hclose.
  induction d as [|[k x] [|kv d] IH]; intros fuel Hne Hall Hfuel; [contradiction | | ].
  - inversion Hall as [|? ? Hx _]; subst. cbn [snd] in Hx.
    cbn [map list_sum fold_right snd] in Hfuel. destruct fuel as [|fuel]; [lia|].
    cbn [map join String.concat]. unfold member_text. cbn [fst snd].
    rewrite !append_assoc, encode_basestring_ascii_app.
    cbn [parse_members]. rewrite expect_same, scanstring_escape.
    cbn [append]. rewrite (skip_ws_char ":") by reflexivity. rewrite expect_same.
    change (skip_ws (String " " ?s)) with (skip_ws s).
    rewrite (skip_ws_opens _ (opens_dumps x (S level) close)).
    rewrite (Hx fuel (S level) close) by (lia || assumption).
    now rewrite Hclose.
  - inversion Hall as [|? ? Hx Hrest]; subst. cbn [snd] in Hx.
    cbn [map list_sum fold_right snd] in Hfuel. destruct fuel as [|fuel]; [lia|].
    cbn [map]. rewrite join_cons. unfold member_text at 1. cbn [fst snd].
    rewrite !append_assoc, encode_basestring_ascii_app.
    cbn [parse_members]. rewrite expect_same, scanstring_escape.
    cbn [append]. rewrite (skip_ws_char ":") by reflexivity. rewrite expect_same.
    change (skip_ws (String " " ?s)) with (skip_ws s).
    match goal with
    | |- context [skip_ws (dumps_at (S level) x ++ ?r)] =>
        rewrite (skip_ws_opens _ (opens_dumps x (S level) r));
        rewrite (Hx fuel (S level) r) by (lia || reflexivity)
    end.
    rewrite !skip_ws_item_separator.
    rewrite (expect_other "}" ",") by reflexivity. rewrite expect_same.
    rewrite skip_ws_newline_indent.
    change (member_text level kv :: map (member_text level) d)
      with (map (member_text level) (kv :: d)).
    assert (Hopen : opens_value
                      (join (item_separator (S level))
                         (map (member_text level) (kv :: d)) ++ close) = true).
    { destruct d as [|kv' d]; cbn [map].
      - cbn [join String.concat]. unfold member_text.
        now rewrite !append_assoc, encode_basestring_ascii_app.
      - rewrite join_cons. unfold member_text at 1.
        now rewrite !append_assoc, encode_basestring_ascii_app. }
    rewrite (skip_ws_opens _ Hopen).
    rewrite IH; [reflexivity | discriminate | exact Hrest | ].
    cbn [map list_sum fold_right] in *. lia.
Qed.

Lemma dumps_list_cons (level : nat) (x : pyval) (l : list pyval) :
  dumps_at level (PList (x :: l))
  = String "[" (newline_indent (S level)
                  ++ join (item_separator (S level)) (map (dumps_at (S level)) (x :: l))
                  ++ newline_indent level ++ "]").
Proof. reflexivity. Qed.

Lemma dumps_dict_cons (level : nat) (kv : string * pyval) (d : list (string * pyval)) :
  dumps_at level (PDict (kv :: d))
  = String "{" (newline_indent (S level)
                  ++ join (item_separator (S level)) (map (member_text level) (kv :: d))
                  ++ newline_indent level ++ "}").
Proof. reflexivity. Qed.

Lemma closing_ends_number (level : nat) (s : string) :
  ends_number (newline_indent level ++ s) = true.
Proof. reflexivity. Qed.

Lemma valid_reads_back (v : pyval) : valid_value v = true -> reads_back v.
Proof.
  induction v as [|b|z|s|l IH|d IH] using pyval_induction; intros Hvalid;
    intros fuel level rest Hfuel Hrest;
    (destruct fuel as [|fuel]; [cbn in Hfuel; lia|]).
  - reflexivity.
  - destruct b; reflexivity.
  - cbn [dumps_at].
    destruct (int_str_head z) as (c & s & E & Hc).
    pose proof (parse_number_int_str z rest Hrest) as Hnum.
    rewrite E in *. cbn [append] in *.
    now rewrite parse_value_number.
  - cbn [dumps_at]. rewrite encode_basestring_ascii_app.
    cbn [parse_value]. rewrite Ascii.eqb_refl. now rewrite scanstring_escape.
  - destruct l as [|x l]; [reflexivity|].
    cbn [valid_value] in Hvalid. cbn [size] in Hfuel.
    assert (Hall : Forall reads_back (x :: l)).
    { apply Forall_forall. intros y Hy.
      rewrite Forall_forall in IH. apply IH; [exact Hy|].
      rewrite forallb_forall in Hvalid. now apply Hvalid. }
    rewrite dumps_list_cons.
    change (String "[" ?a ++ rest) with (String "[" (a ++ rest)).
    rewrite !append_assoc. cbn [parse_value].
    change (Ascii.eqb "[" DQ) with false. change (Ascii.eqb "[" "{") with false.
    change (Ascii.eqb "[" "[") with true. cbn iota.
    rewrite skip_ws_newline_indent.
    match goal with
    | |- context [skip_ws ?t] =>
        assert (Hopen : opens_value t = true)
    end.
    { destruct l as [|y l]; cbn [map].
      - cbn [join String.concat]. apply opens_dumps.
      - rewrite join_cons, append_assoc. apply opens_dumps. }
    rewrite (skip_ws_opens _ Hopen). rewrite (proj1 (expect_opens _ Hopen)).
    rewrite (parse_elements_join level _ rest);
      [reflexivity | apply closing_ends_number | | discriminate | exact Hall | lia].
    rewrite skip_ws_newline_indent. reflexivity.
  - destruct d as [|kv d]; [reflexivity|].
    cbn [valid_value] in Hvalid. apply andb_true_iff in Hvalid as [Hkeys Hvalid].
    cbn [size] in Hfuel.
    assert (Hall : Forall (fun kv => reads_back (snd kv)) (kv :: d)).
    { apply Forall_forall. intros y Hy.
      rewrite Forall_forall in IH. apply IH; [exact Hy|].
      rewrite forallb_forall in Hvalid. now apply Hvalid. }
    rewrite dumps_dict_cons.
    change (String "{" ?a ++ rest) with (String "{" (a ++ rest)).
    rewrite !append_assoc. cbn [parse_value].
    change (Ascii.eqb "{" DQ) with false. change (Ascii.eqb "{" "{") with true.
    cbn iota. rewrite skip_ws_newline_indent.
    match goal with
    | |- context [skip_ws ?t] =>
        assert (Hopen : opens_value t = true)
    end.
    { destruct d as [|kv' d]; cbn [map].
      - cbn [join String.concat]. unfold member_text.
        now rewrite !append_assoc, encode_basestring_ascii_app.
      - rewrite join_cons. unfold member_text at 1.
        now rewrite !append_assoc, encode_basestring_ascii_app. }
    rewrite (skip_ws_opens _ Hopen). rewrite (proj2 (expect_opens _ Hopen)).
    rewrite (parse_members_join level _ rest);
      [ | apply closing_ends_number | | discriminate | exact Hall | lia].
    + now rewrite dict_of_pairs_nodup.
    + rewrite skip_ws_newline_indent. reflexivity.
Qed.

(** *** Enough fuel *)

Lemma join_length_bound {A : Type} (g : A -> nat) (f : A -> string) (sep : string) :
  1 <= String.length sep ->
  forall l,
    (forall x, In x l -> g x <= String.length (f x)) ->
    list_sum (map (fun x => S (g x)) l) <= S (String.length (join sep (map f l))).
Proof.
  intros Hsep. induction l as [|x [|y l] IH]; intros Hl.
  - cbn. lia.
  - cbn [map list_sum fold_right join String.concat].
    pose proof (Hl x (or_introl eq_refl)). lia.
  - cbn [map]. rewrite join_cons, !append_length.
    pose proof (Hl x (or_introl eq_refl)).
    assert (IH' := IH (fun z Hz => Hl z (or_intror Hz))).
    cbn [map list_sum fold_right] in *. lia.
Qed.

Lemma newline_indent_length (level : nat) : 1 <= String.length (newline_indent level).
Proof. unfold newline_indent. cbn. lia. Qed.

Lemma item_separator_length (level : nat) :
  1 <= String.length (item_separator level).
Proof. unfold item_separator. cbn. lia. Qed.

Lemma size_le_length (v : pyval) :
  forall level, size v <= String.length (dumps_at level v).
Proof.
  induction v as [|b|z|s|l IH|d IH] using pyval_induction; intros level.
  - cbn. lia.
  - destruct b; cbn; lia.
  - cbn [dumps_at size]. destruct (int_str_head z) as (c & s & -> & _). cbn. lia.
  - cbn. lia.
  - destruct l as [|x l]; [cbn; lia|].
    rewrite dumps_list_cons. cbn [size String.length]. rewrite !append_length.
    pose proof (newline_indent_length (S level)).
    pose proof (join_length_bound size (dumps_at (S level))
                  (item_separator (S level)) (item_separator_length (S level))
                  (x :: l)) as Hjoin.
    rewrite Forall_forall in IH.
    specialize (Hjoin (fun y Hy => IH y Hy (S level))).
    cbn [String.length]. lia.
  - destruct d as [|kv d]; [cbn; lia|].
    rewrite dumps_dict_cons. cbn [size String.length]. rewrite !append_length.
    pose proof (newline_indent_length (S level)).
    pose proof (join_length_bound (fun kv => size (snd kv)) (member_text level)
                  (item_separator (S level)) (item_separator_length (S level))
                  (kv :: d)) as Hjoin.
    rewrite Forall_forall in IH.
    assert (Hmember : forall y, In y (kv :: d) ->
                        size (snd y) <= String.length (member_text level y)).
    { intros y Hy. unfold member_text. rewrite !append_length.
      specialize (IH y Hy (S level)). lia. }
    specialize (Hjoin Hmember).
    cbn [String.length]. lia.
Qed.

(** [json.loads(json.dumps(v, indent=2))] is [v]. *)
Lemma json_loads_dumps (v : pyval) :
  valid_value v = true -> json_loads (json_dumps v) = Some v.
Proof.
  intros Hvalid. unfold json_loads, json_dumps.
  pose proof (opens_dumps v 0 "") as Hopen. rewrite append_nil_r in Hopen.
  rewrite (skip_ws_opens _ Hopen).
  pose proof (valid_reads_back v Hvalid (String.length (dumps_at 0 v)) 0 ""
                (size_le_length v 0) eq_refl) as Hparse.
  rewrite append_nil_r in Hparse. now rewrite Hparse.
Qed.

(** C6.  For every record whose values are values that Python can hold (no
    dict with one key twice), the JSON export succeeds and [json.loads]
    reads its text back as the mapping of the record: each of the seven
    sections and the list of recommendations are the ones of the record,
    and created_at is the string [str(created_at)], the date and the time
    of day in ISO form separated by a space, which depends on the timestamp
    only. *)
Theorem json_export_round_trip :
  forall (World : Type) (analysis : StartupAnalysis) (st : State World),
    valid_analysis analysis = true ->
    exists text parsed,
      export_analysis analysis "json" st = (Ok text, st)
      /\ json_loads text = Some (PDict parsed)
      /\ dict_get parsed "market_research" = Some (market_research analysis)
      /\ dict_get parsed "customer_analysis" = Some (customer_analysis analysis)
      /\ dict_get parsed "business_model" = Some (business_model analysis)
      /\ dict_get parsed "technical_feasibility" = Some (technical_feasibility analysis)
      /\ dict_get parsed "financial_projections" = Some (financial_projections analysis)
      /\ dict_get parsed "go_to_market" = Some (go_to_market analysis)
      /\ dict_get parsed "risk_assessment" = Some (risk_assessment analysis)
      /\ dict_get parsed "recommendations" = Some (PList (recommendations analysis))
      /\ dict_get parsed "created_at"
         = Some (PStr (datetime_str (created_at analysis))).
Proof.
  intros World analysis st Hvalid.
  exists (json_dumps (PDict (analysis_dict analysis))), (analysis_dict analysis).
  split; [reflexivity|]. split; [now apply json_loads_dumps|].
  repeat split.
Qed.

(** Witness of C6: the record of the export tests. *)
Lemma json_export_round_trip_witness :
  exists text parsed,
    export_analysis sample_analysis "json" (__init__ stub_start)
      = (Ok text, __init__ stub_start)
    /\ json_loads text = Some (PDict parsed)
    /\ dict_get parsed "market_research" = Some (PDict [("test", PStr "data")])
    /\ dict_get parsed "recommendations" = Some (PList [PStr "Test recommendation"])
    /\ dict_get parsed "created_at" = Some (PStr "2025-03-14 12:00:00").
Proof.
  destruct (json_export_round_trip stub_world sample_analysis (__init__ stub_start)
              eq_refl)
    as (text & parsed & Hexport & Hloads & Hmr & _ & _ & _ & _ & _ & _ & Hrec & Hat).
  exists text, parsed. repeat split; assumption.
Defined.

(** ** The records that an analysis returns can be exported *)

Lemma repr_char_no_lf (q c : ascii) :
  q = SQ \/ q = DQ -> contains_char LF (repr_char q c) = false.
Proof.
  intros [->| ->]; destruct c as [[] [] [] [] [] [] [] []]; reflexivity.
Qed.

Lemma repr_chars_no_lf (q : ascii) (s : string) :
  q = SQ \/ q = DQ -> contains_char LF (repr_chars q s) = false.
Proof.
  intros Hq. induction s as [|c s IH]; [reflexivity|].
  cbn [repr_chars]. now rewrite contains_char_app, repr_char_no_lf, IH.
Qed.

Lemma repr_str_no_lf (s : string) : contains_char LF (repr_str s) = false.
Proof.
  unfold repr_str.
  assert (Hq : repr_quote s = SQ \/ repr_quote s = DQ).
  { unfold repr_quote. destruct (_ && _); [now right | now left]. }
  rewrite !contains_char_app, (repr_chars_no_lf _ s Hq).
  destruct Hq as [-> | ->]; reflexivity.
Qed.

Lemma section_text_one_line (o : outcome) :
  contains_char LF (py_str (section_value o)) = false.
Proof.
  rewrite py_str_section_value.
  destruct o as [text|message]; now rewrite !contains_char_app, repr_str_no_lf.
Qed.

Lemma section_value_valid (o : outcome) : valid_value (section_value o) = true.
Proof. destruct o; reflexivity. Qed.

(** A record returned by [analyze_startup_idea] holds values that Python can
    hold, and its one recommendation is a single line: the hypotheses of the
    round trip and of the bullet count hold for it. *)
Lemma analyze_record_well_formed (World : Type)
    (generate_content : string -> World -> outcome * World)
    (datetime_now : World -> datetime * World)
    (idea : string) (st st' : State World) (a : StartupAnalysis) :
  analyze_startup_idea generate_content datetime_now idea st = (Ok a, st') ->
  valid_analysis a = true
  /\ forall rec, In rec (recommendations a) -> contains_char LF (py_str rec) = false.
Proof.
  destruct (section_outcomes_tasks generate_content idea (world st))
    as (o1 & o2 & o3 & o4 & o5 & o6 & o7 & o8 & Houts).
  rewrite (analyze_startup_idea_run generate_content datetime_now idea st
             o1 o2 o3 o4 o5 o6 o7 o8 Houts).
  intros H. injection H as <- _. split.
  - unfold valid_analysis, analysis_dict.
    cbn [valid_value map fst snd forallb market_research customer_analysis
           business_model technical_feasibility financial_projections
           go_to_market risk_assessment recommendations created_at].
    rewrite !section_value_valid. reflexivity.
  - cbn [recommendations]. intros rec [<-|[]].
    change (py_str (PStr ?s)) with s. apply section_text_one_line.
Qed.

(** * Further properties of the agent *)

(** ** Sections of a successful analysis *)

(** X1.  For every idea and state, a section whose service call returned a
    text holds the mapping with the keys analysis and source: the text is
    kept verbatim, whatever it is, and the source is Gemini.  This holds in
    the table of the loop for all eight tasks and in the returned record for
    the seven named sections. *)
Theorem analyze_keeps_completion_verbatim :
  forall (World : Type) (generate_content : string -> World -> outcome * World)
         (datetime_now : World -> datetime * World)
         (idea : string) (st : State World) (k : nat) (name text : string),
    nth_error (map fst tasks) k = Some name ->
    nth_error (fst (section_outcomes generate_content idea tasks (world st))) k
      = Some (Returned text) ->
    exists results a st',
      analyze_tasks generate_content idea tasks [] st
        = (Ok results, {| world := snd (section_outcomes generate_content idea tasks
                                          (world st));
                          analysis_history := analysis_history st |})
      /\ dict_get results name
         = Some (PDict [("analysis", PStr text); ("source", PStr "Gemini")])
      /\ analyze_startup_idea generate_content datetime_now idea st = (Ok a, st')
      /\ (In name section_names ->
            dict_get (analysis_dict a) name
            = Some (PDict [("analysis", PStr text); ("source", PStr "Gemini")])).
Proof.
  intros World generate_content datetime_now idea st k name text Hname Hout.
  destruct (section_outcomes_tasks generate_content idea (world st))
    as (o1 & o2 & o3 & o4 & o5 & o6 & o7 & o8 & Houts).
  pose proof (analyze_startup_idea_run generate_content datetime_now idea st
                o1 o2 o3 o4 o5 o6 o7 o8 Houts) as Hrun.
  cbv zeta in Hrun. rewrite Houts in Hout.
  eexists. eexists. eexists.
  split; [rewrite analyze_tasks_run, Houts; reflexivity|].
  split; [|split; [exact Hrun|]].
  - do 8 (destruct k as [|k];
          [cbn in Hname, Hout; injection Hname as <-; injection Hout as ->;
           reflexivity|]).
    destruct k; discriminate Hout.
  - intros Hin.
    do 7 (destruct k as [|k];
          [cbn in Hname, Hout; injection Hname as <-; injection Hout as ->;
           reflexivity|]).
    destruct k as [|k]; [|destruct k; discriminate Hout].
    cbn in Hname. injection Hname as <-. cbn in Hin.
    repeat (destruct Hin as [Hin|Hin]; [discriminate Hin|]). contradiction.
Qed.

(** Witness of X1: the market research of the stubbed analysis. *)
Lemma analyze_keeps_completion_verbatim_witness :
  exists a st',
    analyze_startup_idea stub_generate ticking_clock "A subscription box"
      (__init__ stub_start) = (Ok a, st')
    /\ dict_get (analysis_dict a) "market_research"
       = Some (PDict [("analysis", PStr "STUB:market_research analysis text");
                      ("source", PStr "Gemini")]).
Proof.
  destruct (analyze_keeps_completion_verbatim stub_world stub_generate ticking_clock
              "A subscription box" (__init__ stub_start) 0 "market_research"
              "STUB:market_research analysis text" eq_refl eq_refl)
    as (results & a & st' & _ & _ & Hrun & Hsec).
  exists a, st'. split; [exact Hrun|]. apply Hsec. cbn. tauto.
Defined.

(** ** The prompts that reach the service *)

Lemma recording_section_outcomes (respond : string -> outcome) (idea : string)
    (ts : list (string * string)) :
  forall log,
    snd (section_outcomes (recording_generate respond) idea ts log)
    = (log ++ map (fun task => analysis_prompt idea (snd task)) ts)%list.
Proof.
  induction ts as [|[name description] ts IH]; intros log.
  - cbn. now rewrite app_nil_r.
  - cbn [section_outcomes recording_generate map snd].
    specialize (IH (log ++ [analysis_prompt idea description])%list).
    destruct (section_outcomes (recording_generate respond) idea ts
                (log ++ [analysis_prompt idea description])%list) as [os w2].
    cbn [snd] in *. rewrite IH, <- app_assoc. reflexivity.
Qed.

(** X2.  Against a service that records its prompts, whatever it answers:
    one analysis submits exactly the eight prompts of the tasks, in their
    order, each built from the idea and the description of its task; a pitch
    deck and a validation submit exactly one prompt each, also when the call
    fails; an export, a history request and a delete request submit none. *)
Theorem service_calls_are_counted :
  forall (respond : string -> outcome) (t : datetime) (st : State (list string)),
    (forall idea,
       world (snd (analyze_startup_idea (recording_generate respond) (fixed_clock t)
                     idea st))
       = (world st ++ analysis_prompts idea)%list
       /\ length (analysis_prompts idea) = 8)
    /\ (forall analysis,
          world (snd (generate_pitch_deck (recording_generate respond) (fixed_clock t)
                        analysis st))
          = (world st ++ [pitch_prompt analysis])%list)
    /\ (forall business_model,
          world (snd (validate_business_model (recording_generate respond)
                        (fixed_clock t) business_model st))
          = (world st ++ [validation_prompt business_model])%list)
    /\ (forall analysis format,
          world (snd (export_analysis analysis format st)) = world st)
    /\ world (snd (get_analysis_history st)) = world st
    /\ (forall analysis_id, world (snd (delete_analysis analysis_id st)) = world st).
Proof.
  intros respond t st. split; [|split; [|split; [|split; [|split]]]].
  - intros idea. split; [|reflexivity].
    destruct (analyze_appends (recording_generate respond) (fixed_clock t) idea st)
      as (a & Hrun & _).
    rewrite Hrun. cbn [snd world fixed_clock].
    apply recording_section_outcomes.
  - intros analysis. destruct st as [w h].
    unfold generate_pitch_deck, bind, call_service, read_clock, ret.
    cbn [world analysis_history recording_generate].
    destruct (respond (pitch_prompt analysis)); reflexivity.
  - intros business_model. destruct st as [w h].
    unfold validate_business_model, bind, call_service, read_clock, ret.
    cbn [world analysis_history recording_generate].
    destruct (respond (validation_prompt business_model)); reflexivity.
  - intros analysis format.
    destruct (export_analysis_cases analysis format st)
      as [[_ E]|[(_ & _ & E)|(_ & _ & E)]]; now rewrite E.
  - reflexivity.
  - reflexivity.
Qed.

(** ** What the derived operations return *)

(** X3.  The mapping returned by [generate_pitch_deck] has the key error
    exactly when the service call raised, and the one returned by
    [validate_business_model] likewise; callers test that key.  When the call
    returns a text, the mapping holds the text verbatim under pitch_deck (or
    validation) and, under generated_at (or validated_at), the ISO form of
    the clock reading taken after the call. *)
Theorem derived_results_are_tagged :
  forall (World : Type) (generate_content : string -> World -> outcome * World)
         (datetime_now : World -> datetime * World) (st : State World),
    (forall analysis,
       exists d,
         fst (generate_pitch_deck generate_content datetime_now analysis st)
           = Ok (PDict d)
         /\ (dict_has d "error" = true
             <-> exists message,
                   fst (generate_content (pitch_prompt analysis) (world st))
                   = Raised message)
         /\ (forall text,
               fst (generate_content (pitch_prompt analysis) (world st))
                 = Returned text ->
               d = [("pitch_deck", PStr text);
                    ("generated_at",
                     PStr (isoformat
                             (fst (datetime_now
                                     (snd (generate_content (pitch_prompt analysis)
                                             (world st)))))))]))
    /\ (forall business_model,
          exists d,
            fst (validate_business_model generate_content datetime_now
                   business_model st) = Ok (PDict d)
            /\ (dict_has d "error" = true
                <-> exists message,
                      fst (generate_content (validation_prompt business_model)
                             (world st)) = Raised message)
            /\ (forall text,
                  fst (generate_content (validation_prompt business_model) (world st))
                    = Returned text ->
                  d = [("validation", PStr text);
                       ("validated_at",
                        PStr (isoformat
                                (fst (datetime_now
                                        (snd (generate_content
                                                (validation_prompt business_model)
                                                (world st)))))))])).
Proof.
  intros World generate_content datetime_now [w h]. split.
  - intros analysis.
    unfold generate_pitch_deck, bind, call_service, read_clock, ret.
    cbn [world analysis_history].
    destruct (generate_content (pitch_prompt analysis) w) as [[text|m] w1];
      cbn [fst snd world].
    + destruct (datetime_now w1) as [t w2]. cbn [fst].
      eexists. split; [reflexivity|]. split.
      * split; [discriminate | intros [m Hm]; discriminate Hm].
      * intros text' H. now injection H as <-.
    + eexists. split; [reflexivity|]. split.
      * split; [intros _; now exists m | reflexivity].
      * intros text H. discriminate H.
  - intros business_model.
    unfold validate_business_model, bind, call_service, read_clock, ret.
    cbn [world analysis_history].
    destruct (generate_content (validation_prompt business_model) w)
      as [[text|m] w1]; cbn [fst snd world].
    + destruct (datetime_now w1) as [t w2]. cbn [fst].
      eexists. split; [reflexivity|]. split.
      * split; [discriminate | intros [m Hm]; discriminate Hm].
      * intros text' H. now injection H as <-.
    + eexists. split; [reflexivity|]. split.
      * split; [intros _; now exists m | reflexivity].
      * intros text H. discriminate H.
Qed.

(** Witness of X3: a pitch deck from the answering stub. *)
Lemma derived_results_are_tagged_witness :
  exists d,
    fst (generate_pitch_deck stub_generate ticking_clock sample_analysis
           (__init__ stub_start)) = Ok (PDict d)
    /\ d = [("pitch_deck", PStr "STUB:market_research analysis text");
            ("generated_at", PStr "2025-03-14T12:00:00")].
Proof.
  destruct (derived_results_are_tagged stub_world stub_generate ticking_clock
              (__init__ stub_start)) as [Hpitch _].
  destruct (Hpitch sample_analysis) as (d & Hd & _ & Htext).
  exists d. split; [exact Hd|].
  apply (Htext "STUB:market_research analysis text"). reflexivity.
Defined.

(** ** The JSON export is plain ASCII *)

Lemma all_chars_impl (p q : ascii -> bool) (s : string) :
  (forall c, p c = true -> q c = true) ->
  all_chars p s = true -> all_chars q s = true.
Proof.
  intros Hpq. induction s as [|c s IH]; [reflexivity|].
  cbn [all_chars]. intros H. apply andb_true_iff in H as [Hc Hs].
  now rewrite (Hpq c Hc), (IH Hs).
Qed.

Lemma digit_is_ascii_text (c : ascii) :
  is_digit c = true -> is_ascii_text_char c = true.
Proof. destruct c as [[] [] [] [] [] [] [] []]; intros H; try discriminate H; reflexivity. Qed.

Lemma int_str_ascii (z : Z) : all_chars is_ascii_text_char (int_str z) = true.
Proof.
  unfold int_str.
  pose proof (fun n => all_chars_impl _ _ _ digit_is_ascii_text (nat_str_digits n)) as H.
  destruct (z <? 0)%Z; cbn [all_chars]; now rewrite H.
Qed.

Lemma escape_json_char_ascii (c : ascii) :
  all_chars is_ascii_text_char (escape_json_char c) = true.
Proof. destruct c as [[] [] [] [] [] [] [] []]; reflexivity. Qed.

Lemma encode_basestring_ascii_ascii (s : string) :
  all_chars is_ascii_text_char (encode_basestring_ascii s) = true.
Proof.
  unfold encode_basestring_ascii. rewrite !all_chars_app.
  assert (H : all_chars is_ascii_text_char (escape_json s) = true).
  { induction s as [|c s IH]; [reflexivity|].
    cbn [escape_json]. now rewrite all_chars_app, escape_json_char_ascii, IH. }
  now rewrite H.
Qed.

Lemma newline_indent_ascii (level : nat) :
  all_chars is_ascii_text_char (newline_indent level) = true.
Proof.
  unfold newline_indent. cbn [all_chars].
  change (is_ascii_text_char LF) with true. cbn [andb].
  induction (2 * level) as [|k IH]; [reflexivity | exact IH].
Qed.

Lemma item_separator_ascii (level : nat) :
  all_chars is_ascii_text_char (item_separator level) = true.
Proof. unfold item_separator. cbn [append all_chars]. apply newline_indent_ascii. Qed.

Lemma all_chars_join (p : ascii -> bool) (sep : string) (items : list string) :
  all_chars p sep = true ->
  Forall (fun s => all_chars p s = true) items ->
  all_chars p (join sep items) = true.
Proof.
  intros Hsep. induction items as [|x [|y items] IH]; intros Hall.
  - reflexivity.
  - now inversion Hall.
  - rewrite join_cons, !all_chars_app. inversion Hall as [|? ? Hx Hrest]; subst.
    now rewrite Hx, Hsep, IH.
Qed.

Lemma dumps_ascii (v : pyval) :
  forall level, all_chars is_ascii_text_char (dumps_at level v) = true.
Proof.
  induction v as [|b|z|s|l IH|d IH] using pyval_induction; intros level.
  - reflexivity.
  - destruct b; reflexivity.
  - apply int_str_ascii.
  - apply encode_basestring_ascii_ascii.
  - destruct l as [|x l]; [reflexivity|].
    rewrite dumps_list_cons. cbn [all_chars]. rewrite !all_chars_app.
    rewrite !newline_indent_ascii, all_chars_join; [reflexivity | | ].
    + apply item_separator_ascii.
    + apply Forall_map. eapply Forall_impl; [|exact IH]. intros y Hy. apply Hy.
  - destruct d as [|kv d]; [reflexivity|].
    rewrite dumps_dict_cons. cbn [all_chars]. rewrite !all_chars_app.
    rewrite !newline_indent_ascii, all_chars_join; [reflexivity | | ].
    + apply item_separator_ascii.
    + apply Forall_map. eapply Forall_impl; [|exact IH]. intros [k y] Hy.
      unfold member_text. cbn [fst snd] in *.
      now rewrite !all_chars_app, encode_basestring_ascii_ascii, Hy.
Qed.

(** X4.  For every record, the text of the JSON export consists of printable
    ASCII characters and line feeds only: characters outside that range in
    the sections or the recommendations are written as escapes. *)
Theorem json_export_is_ascii :
  forall (World : Type) (analysis : StartupAnalysis) (st : State World),
  exists text,
    export_analysis analysis "json" st = (Ok text, st)
    /\ all_chars is_ascii_text_char text = true.
Proof.
  intros World analysis st. eexists. split; [reflexivity|].
  apply dumps_ascii.
Qed.

(** ** Heading lines of the markdown export *)

Lemma hash_free_app (a b : string) :
  forall f, hash_free f (a ++ b) = hash_free f a && hash_free (ends_fresh f a) b.
Proof.
  induction a as [|c a IH]; intros f; [reflexivity|].
  cbn [append hash_free ends_fresh].
  destruct (Ascii.eqb c LF); rewrite IH; [reflexivity|].
  now rewrite andb_assoc.
Qed.

Lemma plain_app (a b : string) : plain a -> plain b -> plain (a ++ b).
Proof.
  intros [Ha1 Ha2] [Hb1 Hb2]. split.
  - now rewrite hash_free_app, Ha1, Ha2, Hb1.
  - now rewrite ends_fresh_app, Ha2.
Qed.

Lemma plain_no_lf (s : string) : contains_char LF s = false -> plain s.
Proof.
  induction s as [|c s IH]; [now split|].
  cbn [contains_char]. rewrite Ascii.eqb_sym. intros H.
  apply orb_false_iff in H as [Hc Hs].
  destruct (IH Hs) as [H1 H2]. unfold plain. cbn [hash_free ends_fresh].
  now rewrite Hc, H1, H2.
Qed.

Lemma hash_free_spaces (k : nat) (f : bool) (c : ascii) :
  Ascii.eqb c LF = false -> Ascii.eqb c "#" = false ->
  hash_free f (spaces k ++ chr c) = true
  /\ ends_fresh f (spaces k ++ chr c) = false.
Proof.
  intros Hlf Hhash. revert f.
  induction k as [|k IH]; intros f; cbn [spaces append chr hash_free ends_fresh].
  - now rewrite Hlf, Hhash, andb_false_r.
  - destruct (IH false) as [H1 H2].
    change (Ascii.eqb " " LF) with false. change (Ascii.eqb " " "#") with false.
    cbn iota. now rewrite andb_false_r, H1, H2.
Qed.

Lemma plain_closing (level : nat) (c : ascii) :
  Ascii.eqb c LF = false -> Ascii.eqb c "#" = false ->
  plain (newline_indent level ++ chr c).
Proof.
  intros Hlf Hhash. unfold plain, newline_indent.
  cbn [append hash_free ends_fresh]. rewrite Ascii.eqb_refl.
  apply hash_free_spaces; assumption.
Qed.

Lemma plain_newline_indent (level : nat) : plain (newline_indent (S level)).
Proof.
  unfold newline_indent.
  replace (spaces (2 * S level)) with (spaces (S (2 * level)) ++ chr " ").
  - unfold plain. cbn [hash_free ends_fresh]. rewrite Ascii.eqb_refl.
    apply (hash_free_spaces (S (2 * level)) true " "); reflexivity.
  - replace (2 * S level) with (S (S (2 * level))) by lia.
    generalize (2 * level). intros k. cbn. f_equal.
    induction k as [|k IH]; cbn; [reflexivity | now rewrite IH].
Qed.

Lemma plain_item_separator (level : nat) : plain (item_separator (S level)).
Proof.
  unfold item_separator.
  apply plain_app; [now apply plain_no_lf | apply plain_newline_indent].
Qed.

Lemma plain_join (sep : string) (items : list string) :
  plain sep -> items <> [] -> Forall plain items -> plain (join sep items).
Proof.
  intros Hsep. induction items as [|x [|y items] IH]; intros Hne Hall.
  - contradiction.
  - now inversion Hall.
  - rewrite join_cons. inversion Hall as [|? ? Hx Hrest]; subst.
    apply plain_app; [exact Hx|]. apply plain_app; [exact Hsep|].
    apply IH; [discriminate | exact Hrest].
Qed.

Lemma plain_dumps (v : pyval) : forall level, plain (dumps_at level v).
Proof.
  induction v as [|b|z|s|l IH|d IH] using pyval_induction; intros level.
  - now apply plain_no_lf.
  - destruct b; now apply plain_no_lf.
  - apply plain_no_lf, int_str_no_lf.
  - apply plain_no_lf, encode_basestring_ascii_no_lf.
  - destruct l as [|x l]; [now apply plain_no_lf|].
    cbn [dumps_at].
    apply plain_app; [now apply plain_no_lf|].
    apply plain_app; [apply plain_newline_indent|].
    apply plain_app; [|now apply (plain_closing level "]")].
    apply plain_join.
    + apply plain_item_separator.
    + discriminate.
    + apply Forall_map. eapply Forall_impl; [|exact IH].
      intros y Hy. apply Hy.
  - destruct d as [|kv d]; [now apply plain_no_lf|].
    cbn [dumps_at].
    apply plain_app; [now apply plain_no_lf|].
    apply plain_app; [apply plain_newline_indent|].
    apply plain_app; [|now apply (plain_closing level "}")].
    apply plain_join.
    + apply plain_item_separator.
    + discriminate.
    + apply Forall_map. eapply Forall_impl; [|exact IH].
      intros [k y] Hy. cbn [fst snd] in *.
      apply plain_app; [apply plain_no_lf, encode_basestring_ascii_no_lf|].
      apply plain_app; [now apply plain_no_lf | apply Hy].
Qed.

Lemma hash_free_lines (s : string) :
  forall f, hash_free f s = true ->
    filter is_heading (tl (lines s)) = []
    /\ (f = true -> is_heading (hd "" (lines s)) = false).
Proof.
  induction s as [|c s IH]; intros f H; [now split|].
  cbn [hash_free] in H. cbn [lines]. destruct (Ascii.eqb c LF) eqn:Hc.
  - destruct (IH true H) as [Htl Hhd]. pose proof (lines_nonempty s) as Hne.
    destruct (lines s) as [|l ls]; [contradiction|].
    cbn [tl hd filter] in *. rewrite (Hhd eq_refl). now split.
  - apply andb_true_iff in H as [Hhash Hs].
    destruct (IH false Hs) as [Htl _]. pose proof (lines_nonempty s) as Hne.
    destruct (lines s) as [|l ls]; [contradiction|].
    cbn [tl hd] in *. split; [exact Htl|]. intros ->. cbn [andb] in Hhash.
    apply negb_true_iff in Hhash.
    unfold is_heading. cbn [starts_with]. now rewrite Ascii.eqb_sym, Hhash.
Qed.

Lemma no_heading_lines (s : string) :
  hash_free true s = true -> filter is_heading (lines s) = [].
Proof.
  intros H. destruct (hash_free_lines s true H) as [Htl Hhd].
  pose proof (lines_nonempty s) as Hne.
  destruct (lines s) as [|l ls]; [contradiction|].
  cbn [tl hd filter] in *. now rewrite (Hhd eq_refl).
Qed.

Lemma hash_free_head (c : ascii) (s : string) :
  Ascii.eqb c "#" = false ->
  hash_free false (String c s) = true -> hash_free true (String c s) = true.
Proof. cbn [hash_free]. intros ->. now rewrite andb_false_r. Qed.

Lemma digit_not_hash (c : ascii) : is_digit c = true -> Ascii.eqb c "#" = false.
Proof.
  destruct c as [[] [] [] [] [] [] [] []]; intros H; try discriminate H; reflexivity.
Qed.

(** The encoding of a value has no line that opens a section. *)
Lemma json_dumps_no_headings (v : pyval) : heading_lines (json_dumps v) = [].
Proof.
  unfold heading_lines, json_dumps.
  destruct (plain_dumps v 0) as [Hfree _].
  apply no_heading_lines.
  destruct v as [|b|z|s|l|d].
  - reflexivity.
  - destruct b; reflexivity.
  - cbn [dumps_at] in *. unfold int_str in *.
    destruct (z <? 0)%Z; [now apply hash_free_head|].
    destruct (nat_str_head (Z.to_N z)) as (c & s & E & Hc).
    rewrite E in *. apply hash_free_head; [now apply digit_not_hash | exact Hfree].
  - now apply hash_free_head.
  - destruct l; [reflexivity | now apply hash_free_head].
  - destruct d; [reflexivity | now apply hash_free_head].
Qed.

Lemma generated_on_no_headings (t : datetime) :
  filter is_heading (lines ("Generated on: " ++ datetime_str t)) = [].
Proof.
  apply no_heading_lines.
  assert (H : plain ("Generated on: " ++ datetime_str t)).
  { apply plain_app; [now apply plain_no_lf|].
    apply plain_no_lf, datetime_str_no_lf. }
  destruct H as [H _]. now apply hash_free_head.
Qed.

Lemma bullet_block_no_headings (recs : list pyval) :
  (forall rec, In rec recs -> filter is_heading (tl (lines (py_str rec))) = []) ->
  filter is_heading (lines (bullet_block recs)) = [].
Proof.
  intros Hrecs. unfold bullet_block.
  destruct recs as [|r recs]; [reflexivity|].
  rewrite lines_join by discriminate.
  rewrite filter_concat, !map_map.
  induction (r :: recs) as [|x l IH]; [reflexivity|].
  cbn [map concat]. rewrite IH by (intros rec Hin; apply Hrecs; now right).
  rewrite lines_bullet. cbn [filter].
  change (is_heading ("- " ++ hd "" (lines (py_str x)))) with false.
  cbn iota. rewrite (Hrecs x) by now left. reflexivity.
Qed.

(** The heading lines of the markdown document are the eight headings of the
    template, in its order, when no recommendation has a line behind its
    first that opens a section. *)
Lemma markdown_heading_lines_exact (analysis : StartupAnalysis) :
  (forall rec, In rec (recommendations analysis) ->
     filter is_heading (tl (lines (py_str rec))) = []) ->
  heading_lines (_convert_to_markdown analysis) = markdown_headings.
Proof.
  intros Hrecs. unfold heading_lines.
  rewrite markdown_is_joined_pieces, lines_join by discriminate.
  rewrite filter_concat, map_map. unfold markdown_pieces. cbn [map concat].
  rewrite generated_on_no_headings, (bullet_block_no_headings _ Hrecs).
  repeat match goal with
         | |- context [filter is_heading (lines (json_dumps ?v))] =>
             change (filter is_heading (lines (json_dumps v)))
               with (heading_lines (json_dumps v));
             rewrite (json_dumps_no_headings v)
         end.
  reflexivity.
Qed.

(** ** Records of an analysis go through both exports *)

(** X5.  The record that [analyze_startup_idea] returns, whatever the service
    answered, can be exported at once: [json.loads] reads the JSON export
    back as the mapping of the record; the lines of the markdown export that
    open a section are exactly the eight headings of the template, in its
    order (the seven sections and the recommendations), and the export has
    exactly one bullet line, the dash, a space and the one recommendation. *)
Theorem analysis_record_exports :
  forall (World : Type) (generate_content : string -> World -> outcome * World)
         (datetime_now : World -> datetime * World)
         (idea : string) (st st' : State World) (a : StartupAnalysis),
    analyze_startup_idea generate_content datetime_now idea st = (Ok a, st') ->
    (exists text,
       export_analysis a "json" st' = (Ok text, st')
       /\ json_loads text = Some (PDict (analysis_dict a)))
    /\ (exists doc rec,
          export_analysis a "markdown" st' = (Ok doc, st')
          /\ recommendations a = [rec]
          /\ bullet_lines doc = ["- " ++ py_str rec]
          /\ heading_lines doc
             = [ "## Market Research"; "## Customer Analysis"; "## Business Model";
                 "## Technical Feasibility"; "## Financial Projections";
                 "## Go-to-Market Strategy"; "## Risk Assessment";
                 "## Recommendations" ]).
Proof.
  intros World generate_content datetime_now idea st st' a Hrun.
  destruct (analyze_record_well_formed World generate_content datetime_now
              idea st st' a Hrun) as [Hvalid Hline].
  split.
  - eexists. split; [reflexivity|]. now apply json_loads_dumps.
  - destruct (section_outcomes_tasks generate_content idea (world st))
      as (o1 & o2 & o3 & o4 & o5 & o6 & o7 & o8 & Houts).
    rewrite (analyze_startup_idea_run generate_content datetime_now idea st
               o1 o2 o3 o4 o5 o6 o7 o8 Houts) in Hrun.
    injection Hrun as <- _.
    eexists. eexists. split; [reflexivity|]. split; [reflexivity|]. split.
    + rewrite markdown_bullet_lines, bullet_block_lines.
      * cbn [recommendations map]. rewrite lines_no_lf; [reflexivity|].
        apply Hline. now left.
      * intros rec Hin. rewrite lines_no_lf; [reflexivity | now apply Hline].
    + rewrite markdown_heading_lines_exact; [reflexivity|].
      intros rec Hin. rewrite lines_no_lf; [reflexivity | now apply Hline].
Qed.

(** Witness of X5: the analysis of the failing service. *)
Lemma analysis_record_exports_witness :
  exists a st' doc,
    analyze_startup_idea failing_generate ticking_clock "A subscription box"
      (__init__ stub_start) = (Ok a, st')
    /\ export_analysis a "markdown" st' = (Ok doc, st')
    /\ bullet_lines doc
       = ["- {'error': '503 Service Unavailable', 'source': 'Gemini'}"]
    /\ heading_lines doc = markdown_headings.
Proof.
  assert (exists a st',
            analyze_startup_idea failing_generate ticking_clock "A subscription box"
              (__init__ stub_start) = (Ok a, st')) as (a & st' & Hrun)
    by (eexists; eexists; vm_compute; reflexivity).
  exists a, st'.
  destruct (analysis_record_exports stub_world failing_generate ticking_clock
              "A subscription box" (__init__ stub_start) st' a Hrun)
    as (_ & doc & rec & Hdoc & Hrec & Hbullets & Hheadings).
  exists doc. split; [exact Hrun|]. split; [exact Hdoc|].
  split; [|exact Hheadings].
  rewrite Hbullets. f_equal. f_equal.
  vm_compute in Hrun. injection Hrun as <- _. cbn in Hrec. now injection Hrec as <-.
Defined.

(** * The routes of api.py *)

(** ** [isoformat] is read back by [fromisoformat] *)

Lemma read_digits_zeros (k m : nat) (s : string) :
  read_digits (k + m) 0 (zeros k ++ s) = read_digits m 0 s.
Proof. induction k as [|k IH]; [reflexivity | exact IH]. Qed.

Lemma read_digits_uint (d : Decimal.uint) (rest : string) :
  forall acc,
    read_digits (String.length (NilEmpty.string_of_uint d)) acc
      (NilEmpty.string_of_uint d ++ rest)
    = Some (uint_value acc d, rest).
Proof.
  induction d as [|d IH|d IH|d IH|d IH|d IH|d IH|d IH|d IH|d IH|d IH];
    intros acc; [reflexivity|..]; apply IH.
Qed.

Lemma uint_value_lower (d : Decimal.uint) :
  forall acc,
    (acc * 10 ^ N.of_nat (String.length (NilEmpty.string_of_uint d))
     <= uint_value acc d)%N.
Proof.
  induction d as [|d IH|d IH|d IH|d IH|d IH|d IH|d IH|d IH|d IH|d IH];
    intros acc;
    cbn [NilEmpty.string_of_uint String.length uint_value];
    [cbn; lia|..];
    rewrite Nat2N.inj_succ, N.pow_succ_r';
    (eapply N.le_trans; [|apply IH]);
    rewrite N.mul_assoc; apply N.mul_le_mono_r; lia.
Qed.

Lemma nat_str_length (w : nat) (n : N) :
  1 <= w -> (n < 10 ^ N.of_nat w)%N -> String.length (nat_str n) <= w.
Proof.
  intros Hw Hn. unfold nat_str.
  pose proof (uint_value_of_uint (N.to_uint n)) as Hval.
  rewrite DecimalN.Unsigned.of_to in Hval.
  destruct (to_uint_head n) as [E|[Hnil Hzero]]; [rewrite E; cbn; lia|].
  destruct (N.to_uint n) as [|d|d|d|d|d|d|d|d|d|d];
    [contradiction | now contradiction (Hzero d) | ..];
    cbn [uint_value] in Hval; cbn [NilEmpty.string_of_uint String.length];
    match type of Hval with
    | uint_value ?k d = n =>
        pose proof (uint_value_lower d k) as Hlow; rewrite Hval in Hlow
    end;
    assert (Hpow : (10 ^ N.of_nat (String.length (NilEmpty.string_of_uint d))
                    < 10 ^ N.of_nat w)%N) by nia;
    apply N.pow_lt_mono_r_iff in Hpow; lia.
Qed.

Lemma read_digits_zero_pad (w : nat) (n : N) (rest : string) :
  1 <= w -> (n < 10 ^ N.of_nat w)%N ->
  read_digits w 0 (zero_pad w n ++ rest) = Some (n, rest).
Proof.
  intros Hw Hn. pose proof (nat_str_length w n Hw Hn) as Hlen.
  unfold zero_pad. rewrite append_assoc.
  replace w with ((w - String.length (nat_str n)) + String.length (nat_str n))
    at 1 by lia.
  rewrite read_digits_zeros. unfold nat_str. rewrite read_digits_uint.
  now rewrite uint_value_of_uint, DecimalN.Unsigned.of_to.
Qed.

Lemma fromisoformat_isoformat_sep (sep : ascii) (t : datetime) :
  valid_datetime t = true -> fromisoformat (isoformat_sep sep t) = Some t.
Proof.
  intros Hvalid. pose proof Hvalid as Hv. unfold valid_datetime in Hv.
  repeat (apply andb_true_iff in Hv as [Hv ?]).
  repeat match goal with
         | H : (_ <=? _)%N = true |- _ => apply N.leb_le in H
         end.
  unfold fromisoformat, isoformat_sep.
  rewrite (read_digits_zero_pad 4) by (cbn; lia). cbn [append]. rewrite expect_same.
  rewrite (read_digits_zero_pad 2) by (cbn; lia). cbn [append]. rewrite expect_same.
  rewrite (read_digits_zero_pad 2)
    by (cbn; try lia; unfold days_in_month in *;
        repeat match goal with
               | H : context [if ?b then _ else _] |- _ => destruct b
               end; lia).
  unfold chr. cbn [append skip_char].
  rewrite (read_digits_zero_pad 2) by (cbn; lia). cbn [append]. rewrite expect_same.
  rewrite (read_digits_zero_pad 2) by (cbn; lia). cbn [append]. rewrite expect_same.
  rewrite (read_digits_zero_pad 2) by (cbn; lia).
  destruct (N.eqb_spec (microsecond t) 0) as [Hus|Hus].
  - cbn [read_fraction]. destruct t; cbn in *. subst. now rewrite Hvalid.
  - cbn [append read_fraction]. change (Ascii.eqb "." ".") with true. cbn iota.
    rewrite <- (append_nil_r (zero_pad 6 (microsecond t))).
    rewrite (read_digits_zero_pad 6) by (cbn; lia).
    destruct t; cbn in *. now rewrite Hvalid.
Qed.

Lemma fromisoformat_isoformat (t : datetime) :
  valid_datetime t = true -> fromisoformat (isoformat t) = Some t.
Proof. apply fromisoformat_isoformat_sep. Qed.

(** ** One record by its identifier *)

Lemma select_in_range {World : Type} (fw : Framework)
    (history : list StartupAnalysis) (analysis_id : Z) (st : State World) :
  (0 <= analysis_id < Z.of_nat (length history))%Z ->
  exists analysis,
    nth_error history (Z.to_nat analysis_id) = Some analysis
    /\ Api.select fw history analysis_id st = (Ok analysis, st).
Proof.
  intros Hrange. unfold Api.select.
  destruct (Z.ltb_spec analysis_id 0) as [|_]; [lia|].
  destruct (Z.leb_spec (Z.of_nat (length history)) analysis_id) as [|_]; [lia|].
  cbn [orb].
  destruct (nth_error history (Z.to_nat analysis_id)) as [analysis|] eqn:E.
  - now exists analysis.
  - apply nth_error_None in E. lia.
Qed.

Lemma select_out_of_range {World : Type} (fw : Framework)
    (history : list StartupAnalysis) (analysis_id : Z) (st : State World) :
  (analysis_id < 0 \/ Z.of_nat (length history) <= analysis_id)%Z ->
  Api.select fw history analysis_id st
  = (Raise (HTTPException 404 "Analysis not found"), st).
Proof.
  intros Hrange. unfold Api.select.
  destruct (Z.ltb_spec analysis_id 0) as [|Hneg]; [reflexivity|].
  destruct (Z.leb_spec (Z.of_nat (length history)) analysis_id) as [|Hlt];
    [reflexivity | lia].
Qed.

Lemma range_cases (n : nat) (i : Z) :
  (i < 0 \/ Z.of_nat n <= i)%Z \/ (0 <= i < Z.of_nat n)%Z.
Proof. lia. Qed.

(** the response that carries the fields [fields] under the number [i] *)
Lemma respond_accepted {World : Type} (fw : Framework) (i : Z)
    (analysis fields : StartupAnalysis) (st : State World) :
  response_model fw analysis = inl fields ->
  Api.respond fw i analysis st
  = (Ok {| AnalysisResponse.analysis_id := i;
           AnalysisResponse.created_at := created_at fields;
           AnalysisResponse.market_research := market_research fields;
           AnalysisResponse.customer_analysis := customer_analysis fields;
           AnalysisResponse.business_model := business_model fields;
           AnalysisResponse.technical_feasibility := technical_feasibility fields;
           AnalysisResponse.financial_projections := financial_projections fields;
           AnalysisResponse.go_to_market := go_to_market fields;
           AnalysisResponse.risk_assessment := risk_assessment fields;
           AnalysisResponse.recommendations := recommendations fields |}, st).
Proof. intros H. unfold Api.respond. now rewrite H. Qed.

Lemma respond_state {World : Type} (fw : Framework) (i : Z)
    (analysis : StartupAnalysis) (st : State World) :
  snd (Api.respond fw i analysis st) = st
  /\ forall e, fst (Api.respond fw i analysis st) = Raise e ->
               exists message, e = ValueError message.
Proof.
  unfold Api.respond. destruct (response_model fw analysis) as [fields|message].
  - split; [reflexivity | intros e H; discriminate H].
  - split; [reflexivity|]. intros e H. injection H as <-. now exists message.
Qed.

(** what the route does after its bounds test *)
Lemma get_analysis_cases {World : Type} (fw : Framework) (analysis_id : Z)
    (st : State World) :
  ((analysis_id < 0 \/ Z.of_nat (length (analysis_history st)) <= analysis_id)%Z
   /\ Api.get_analysis fw analysis_id st
      = (Raise (HTTPException 404 "Analysis not found"), st))
  \/ ((0 <= analysis_id < Z.of_nat (length (analysis_history st)))%Z
      /\ exists analysis,
           nth_error (analysis_history st) (Z.to_nat analysis_id) = Some analysis
           /\ Api.get_analysis fw analysis_id st
              = Api.reraise_http fw "Failed to get analysis: "
                  (Api.respond fw analysis_id analysis) st).
Proof.
  assert (Hunfold : Api.get_analysis fw analysis_id st
            = Api.reraise_http fw "Failed to get analysis: "
                (bind (Api.select fw (analysis_history st) analysis_id)
                      (fun analysis => Api.respond fw analysis_id analysis)) st)
    by reflexivity.
  destruct (range_cases (length (analysis_history st)) analysis_id) as [Hout|Hin].
  - left. split; [exact Hout|].
    rewrite Hunfold. unfold Api.reraise_http, bind.
    now rewrite (select_out_of_range fw _ _ st Hout).
  - right. split; [exact Hin|].
    destruct (select_in_range fw _ _ st Hin) as (analysis & Hnth & Hsel).
    exists analysis. split; [exact Hnth|].
    rewrite Hunfold. unfold Api.reraise_http, bind. now rewrite Hsel.
Qed.

Lemma get_analysis_not_found_iff {World : Type} (fw : Framework) (analysis_id : Z)
    (st : State World) :
  (analysis_id < 0 \/ Z.of_nat (length (analysis_history st)) <= analysis_id)%Z
  <-> Api.get_analysis fw analysis_id st
      = (Raise (HTTPException 404 "Analysis not found"), st).
Proof.
  destruct (get_analysis_cases fw analysis_id st)
    as [[Hout E]|[Hin (analysis & Hnth & E)]].
  - split; [intros _; exact E | intros _; exact Hout].
  - split; [lia|]. intros H404. exfalso. rewrite E in H404.
    unfold Api.reraise_http in H404.
    destruct (respond_state fw analysis_id analysis st) as [_ Hexn].
    destruct (Api.respond fw analysis_id analysis st) as [[r|e] st1];
      [discriminate H404|].
    destruct (Hexn e eq_refl) as [message ->]. cbn in H404. discriminate H404.
Qed.

(** X6.  GET /analyses/{id} answers 404, Analysis not found, exactly when
    the identifier is negative or not below the length of the history;
    otherwise it answers for the record at that index, with the fields that
    the response model accepted and the identifier it was asked for.  The
    request leaves the agent as it was. *)
Theorem get_analysis_checks_bounds :
  forall (World : Type) (fw : Framework) (analysis_id : Z) (st : State World),
    ((analysis_id < 0 \/ Z.of_nat (length (analysis_history st)) <= analysis_id)%Z
     <-> Api.get_analysis fw analysis_id st
         = (Raise (HTTPException 404 "Analysis not found"), st))
    /\ (forall analysis fields,
          (0 <= analysis_id)%Z ->
          nth_error (analysis_history st) (Z.to_nat analysis_id) = Some analysis ->
          response_model fw analysis = inl fields ->
          Api.get_analysis fw analysis_id st
          = (Ok {| AnalysisResponse.analysis_id := analysis_id;
                   AnalysisResponse.created_at := created_at fields;
                   AnalysisResponse.market_research := market_research fields;
                   AnalysisResponse.customer_analysis := customer_analysis fields;
                   AnalysisResponse.business_model := business_model fields;
                   AnalysisResponse.technical_feasibility :=
                     technical_feasibility fields;
                   AnalysisResponse.financial_projections :=
                     financial_projections fields;
                   AnalysisResponse.go_to_market := go_to_market fields;
                   AnalysisResponse.risk_assessment := risk_assessment fields;
                   AnalysisResponse.recommendations := recommendations fields |},
             st))
    /\ snd (Api.get_analysis fw analysis_id st) = st.
Proof.
  intros World fw analysis_id st.
  split; [apply get_analysis_not_found_iff|].
  destruct (get_analysis_cases fw analysis_id st)
    as [[Hout E]|[Hin (analysis & Hnth & E)]].
  - split.
    + intros analysis fields Hpos Hnth _.
      assert (Z.to_nat analysis_id < length (analysis_history st))%nat
        by (apply nth_error_Some; rewrite Hnth; discriminate).
      lia.
    + now rewrite E.
  - destruct (respond_state fw analysis_id analysis st) as [Hst Hexn].
    split.
    + intros analysis' fields _ Hnth' Hmodel.
      rewrite Hnth in Hnth'. injection Hnth' as <-.
      rewrite E. unfold Api.reraise_http.
      now rewrite (respond_accepted fw analysis_id analysis fields st Hmodel).
    + rewrite E. unfold Api.reraise_http.
      destruct (Api.respond fw analysis_id analysis st) as [[r|e] st1];
        cbn [snd] in *; [exact Hst|].
      destruct (Hexn e eq_refl) as [message ->]. exact Hst.
Qed.

(** Witness of X6: the first record of a session, and an identifier past
    the end. *)
Lemma get_analysis_checks_bounds_witness :
  Api.get_analysis sample_framework 2
    {| world := stub_start; analysis_history := [sample_analysis] |}
  = (Raise (HTTPException 404 "Analysis not found"),
     {| world := stub_start; analysis_history := [sample_analysis] |})
  /\ exists r,
       Api.get_analysis sample_framework 0
         {| world := stub_start; analysis_history := [sample_analysis] |}
       = (Ok r, {| world := stub_start; analysis_history := [sample_analysis] |})
       /\ AnalysisResponse.recommendations r = [PStr "Test recommendation"].
Proof.
  split.
  - apply (proj1 (get_analysis_checks_bounds stub_world sample_framework 2
             {| world := stub_start; analysis_history := [sample_analysis] |})).
    right. cbn. lia.
  - eexists. split.
    + apply (proj1 (proj2 (get_analysis_checks_bounds stub_world sample_framework 0
               {| world := stub_start; analysis_history := [sample_analysis] |}))
               sample_analysis sample_analysis); [lia | reflexivity | reflexivity].
    + reflexivity.
Defined.

(** ** The routes and the history *)

Section RouteState.

Variable World : Type.
Variable generate_content : string -> World -> outcome * World.
Variable datetime_now : World -> datetime * World.
Variable fw : Framework.

Lemma keeps_ret {A : Type} (a : A) : keeps_history (ret (World := World) a).
Proof. intros st. reflexivity. Qed.

Lemma keeps_raise {A : Type} (e : exn) :
  keeps_history (raise (World := World) (A := A) e).
Proof. intros st. reflexivity. Qed.

Lemma keeps_bind {A B : Type} (c : M World A) (k : A -> M World B) :
  keeps_history c -> (forall a, keeps_history (k a)) -> keeps_history (bind c k).
Proof.
  intros Hc Hk st. unfold bind. specialize (Hc st).
  destruct (c st) as [[a|e] st1]; cbn [snd] in *.
  - now rewrite Hk.
  - exact Hc.
Qed.

Lemma keeps_call_service (prompt : string) :
  keeps_history (call_service generate_content prompt).
Proof.
  intros st. unfold call_service.
  now destruct (generate_content prompt (world st)).
Qed.

Lemma keeps_read_clock : keeps_history (read_clock datetime_now).
Proof.
  intros st. unfold read_clock. now destruct (datetime_now (world st)).
Qed.

Lemma keeps_subscript (d : pydict) (key : string) :
  keeps_history (subscript (World := World) d key).
Proof.
  unfold subscript. destruct (dict_get d key); [apply keeps_ret | apply keeps_raise].
Qed.

Lemma keeps_rewrap {A : Type} (prefix : string) (body : M World A) :
  keeps_history body -> keeps_history (Api.rewrap fw prefix body).
Proof.
  intros Hb st. unfold Api.rewrap. specialize (Hb st).
  now destruct (body st) as [[a|e] st1].
Qed.

Lemma keeps_reraise_http {A : Type} (prefix : string) (body : M World A) :
  keeps_history body -> keeps_history (Api.reraise_http fw prefix body).
Proof.
  intros Hb st. unfold Api.reraise_http. specialize (Hb st).
  now destruct (body st) as [[a|[key|msg|status_code detail]] st1].
Qed.

Lemma keeps_get_analysis_history :
  keeps_history (get_analysis_history (World := World)).
Proof. intros st. reflexivity. Qed.

Lemma keeps_select (history : list StartupAnalysis) (analysis_id : Z) :
  keeps_history (Api.select (World := World) fw history analysis_id).
Proof.
  unfold Api.select.
  destruct ((analysis_id <? 0) || (Z.of_nat (length history) <=? analysis_id))%Z;
    [apply keeps_raise|].
  destruct (nth_error history (Z.to_nat analysis_id));
    [apply keeps_ret | apply keeps_raise].
Qed.

Lemma keeps_respond (analysis_id : Z) (analysis : StartupAnalysis) :
  keeps_history (Api.respond (World := World) fw analysis_id analysis).
Proof.
  unfold Api.respond.
  destruct (response_model fw analysis); [apply keeps_ret | apply keeps_raise].
Qed.

Lemma keeps_generate_pitch_deck (analysis : StartupAnalysis) :
  keeps_history (generate_pitch_deck generate_content datetime_now analysis).
Proof.
  unfold generate_pitch_deck. apply keeps_bind; [apply keeps_call_service|].
  intros [text|message]; [|apply keeps_ret].
  apply keeps_bind; [apply keeps_read_clock | intros t; apply keeps_ret].
Qed.

Lemma keeps_validate_business_model (business_model : pyval) :
  keeps_history (validate_business_model generate_content datetime_now business_model).
Proof.
  unfold validate_business_model. apply keeps_bind; [apply keeps_call_service|].
  intros [text|message]; [|apply keeps_ret].
  apply keeps_bind; [apply keeps_read_clock | intros t; apply keeps_ret].
Qed.

Lemma keeps_export (analysis : StartupAnalysis) (format : string) :
  keeps_history (export_analysis (World := World) analysis format).
Proof.
  unfold export_analysis.
  destruct (String.eqb (lower format) "json"); [apply keeps_ret|].
  destruct (String.eqb (lower format) "markdown"); [apply keeps_ret | apply keeps_raise].
Qed.

Lemma keeps_pitch_response (analysis_id : Z) (d : pydict) :
  keeps_history (Api.pitch_response (World := World) fw analysis_id d).
Proof.
  unfold Api.pitch_response.
  apply keeps_bind; [apply keeps_subscript | intros text].
  apply keeps_bind; [apply keeps_subscript | intros stamp].
  destruct text; try apply keeps_raise.
  destruct stamp; try apply keeps_raise.
  destruct (fromisoformat _); [apply keeps_ret | apply keeps_raise].
Qed.

Lemma keeps_validation_response (d : pydict) :
  keeps_history (Api.validation_response (World := World) fw d).
Proof.
  unfold Api.validation_response.
  apply keeps_bind; [apply keeps_subscript | intros text].
  apply keeps_bind; [apply keeps_subscript | intros stamp].
  destruct text; try apply keeps_raise.
  destruct stamp; try apply keeps_raise.
  destruct (fromisoformat _); [apply keeps_ret | apply keeps_raise].
Qed.

Lemma keeps_count_records (test : datetime -> StartupAnalysis -> bool)
    (history : list StartupAnalysis) :
  keeps_history (Api.count_records datetime_now test history).
Proof.
  induction history as [|h rest IH]; cbn [Api.count_records]; [apply keeps_ret|].
  apply keeps_bind; [apply keeps_read_clock | intros t].
  apply keeps_bind; [exact IH | intros n; apply keeps_ret].
Qed.

Lemma keeps_route_get_analysis_history :
  keeps_history (Api.get_analysis_history (World := World) fw).
Proof.
  apply keeps_rewrap. apply keeps_bind; [apply keeps_get_analysis_history|].
  intros h. apply keeps_ret.
Qed.

Lemma keeps_route_get_analysis (analysis_id : Z) :
  keeps_history (Api.get_analysis (World := World) fw analysis_id).
Proof.
  apply keeps_reraise_http. apply keeps_bind; [apply keeps_get_analysis_history|].
  intros h. apply keeps_bind; [apply keeps_select | intros a; apply keeps_respond].
Qed.

Lemma keeps_route_generate_pitch_deck (request : PitchDeckRequest.t) :
  keeps_history (Api.generate_pitch_deck generate_content datetime_now fw request).
Proof.
  apply keeps_reraise_http. apply keeps_bind; [apply keeps_get_analysis_history|].
  intros h. apply keeps_bind; [apply keeps_select | intros a].
  apply keeps_bind; [apply keeps_generate_pitch_deck | intros d].
  destruct d; try apply keeps_raise.
  destruct (dict_get _ _); [apply keeps_raise | apply keeps_pitch_response].
Qed.

Lemma keeps_route_validate_business_model (request : BusinessModelValidationRequest.t) :
  keeps_history (Api.validate_business_model generate_content datetime_now fw request).
Proof.
  apply keeps_reraise_http.
  apply keeps_bind; [apply keeps_validate_business_model | intros d].
  destruct d; try apply keeps_raise.
  destruct (dict_get _ _); [apply keeps_raise | apply keeps_validation_response].
Qed.

Lemma keeps_route_export_analysis (request : ExportRequest.t) :
  keeps_history (Api.export_analysis datetime_now fw request).
Proof.
  apply keeps_rewrap. apply keeps_bind; [apply keeps_get_analysis_history|].
  intros h. apply keeps_bind; [apply keeps_select | intros a].
  apply keeps_bind; [apply keeps_export | intros content].
  apply keeps_bind; [apply keeps_read_clock | intros t; apply keeps_ret].
Qed.

Lemma keeps_route_get_metrics :
  keeps_history (Api.get_metrics datetime_now fw).
Proof.
  apply keeps_rewrap. apply keeps_bind; [apply keeps_get_analysis_history|].
  intros h. repeat (apply keeps_bind; [apply keeps_count_records | intros ?]).
  apply keeps_ret.
Qed.

(** the state that POST /analyze leaves is the one that the agent left *)
Lemma route_analyze_state (request : StartupIdeaRequest.t) (st : State World) :
  snd (Api.analyze_startup_idea generate_content datetime_now fw request st)
  = snd (analyze_startup_idea generate_content datetime_now
           (StartupIdeaRequest.idea request) st).
Proof.
  destruct (analyze_appends generate_content datetime_now
              (StartupIdeaRequest.idea request) st) as (a & Hrun & _).
  unfold Api.analyze_startup_idea, Api.rewrap, bind, agent.analyze_startup_idea,
    agent.get_analysis_history.
  rewrite Hrun. cbn [get_analysis_history snd].
  pose proof (keeps_respond 
    (Z.of_nat (length (analysis_history st ++ [a])) - 1) a) as Hk.
  destruct (respond_state fw (Z.of_nat (length (analysis_history st ++ [a])) - 1) a
     {| world := snd (datetime_now (snd (section_outcomes generate_content
                   (StartupIdeaRequest.idea request) tasks (world st))));
        analysis_history := analysis_history st ++ [a] |}) as [Hst _].
  cbn [analysis_history] in *.
  destruct (Api.respond _ _ _ _) as [[r|e] st1]; exact Hst.
Qed.

(** No request removes or changes a record: the history after a request
    starts with the history before it. *)
Lemma serve_extends (r : Api.request) (st : State World) :
  exists more,
    analysis_history (Api.serve generate_content datetime_now fw r st)
    = (analysis_history st ++ more)%list.
Proof.
  destruct r as [r| |i|r|r|r|i| ]; cbn [Api.serve].
  - rewrite route_analyze_state.
    destruct (analyze_appends generate_content datetime_now
                (StartupIdeaRequest.idea r) st) as (a & Hrun & _).
    rewrite Hrun. now exists [a].
  - exists []. rewrite app_nil_r. apply keeps_route_get_analysis_history.
  - exists []. rewrite app_nil_r. apply keeps_route_get_analysis.
  - exists []. rewrite app_nil_r. apply keeps_route_generate_pitch_deck.
  - exists []. rewrite app_nil_r. apply keeps_route_validate_business_model.
  - exists []. rewrite app_nil_r. apply keeps_route_export_analysis.
  - exists []. rewrite app_nil_r. reflexivity.
  - exists []. rewrite app_nil_r. apply keeps_route_get_metrics.
Qed.

Lemma serve_all_extends (rs : list Api.request) (st : State World) :
  exists more,
    analysis_history (Api.serve_all generate_content datetime_now fw rs st)
    = (analysis_history st ++ more)%list.
Proof.
  revert st. induction rs as [|r rs IH]; intros st.
  - exists []. now rewrite app_nil_r.
  - destruct (serve_extends r st) as [m1 H1].
    destruct (IH (Api.serve generate_content datetime_now fw r st)) as [m2 H2].
    exists (m1 ++ m2)%list.
    change (Api.serve_all generate_content datetime_now fw (r :: rs) st)
      with (Api.serve_all generate_content datetime_now fw rs
              (Api.serve generate_content datetime_now fw r st)).
    now rewrite H2, H1, <- app_assoc.
Qed.

End RouteState.

(** ** POST /analyze *)

Lemma section_value_is_dict (o : outcome) : is_dict (section_value o) = true.
Proof. now destruct o. Qed.

Lemma section_value_true (o : outcome) : py_bool (section_value o) = true.
Proof. now destruct o. Qed.

(** a record of the agent, from the outcomes of its eight calls *)
Lemma analyze_record_sections {World : Type}
    (generate_content : string -> World -> outcome * World)
    (datetime_now : World -> datetime * World)
    (idea : string) (st : State World) :
  exists o1 o2 o3 o4 o5 o6 o7 o8 t st',
    analyze_startup_idea generate_content datetime_now idea st
    = (Ok {| market_research := section_value o1;
             customer_analysis := section_value o2;
             business_model := section_value o3;
             technical_feasibility := section_value o4;
             financial_projections := section_value o5;
             go_to_market := section_value o6;
             risk_assessment := section_value o7;
             recommendations := [PStr (py_str (section_value o8))];
             created_at := t |}, st').
Proof.
  destruct (section_outcomes_tasks generate_content idea (world st))
    as (o1 & o2 & o3 & o4 & o5 & o6 & o7 & o8 & Houts).
  exists o1, o2, o3, o4, o5, o6, o7, o8. eexists. eexists.
  exact (analyze_startup_idea_run generate_content datetime_now idea st
           o1 o2 o3 o4 o5 o6 o7 o8 Houts).
Qed.

Lemma analyze_record_typed {World : Type}
    (generate_content : string -> World -> outcome * World)
    (datetime_now : World -> datetime * World)
    (idea : string) (st st' : State World) (a : StartupAnalysis) :
  analyze_startup_idea generate_content datetime_now idea st = (Ok a, st') ->
  typed_analysis a = true.
Proof.
  destruct (analyze_record_sections generate_content datetime_now idea st)
    as (o1 & o2 & o3 & o4 & o5 & o6 & o7 & o8 & t & st1 & Hrun).
  rewrite Hrun. intros H. injection H as <- _.
  unfold typed_analysis.
  cbn [market_research customer_analysis business_model technical_feasibility
       financial_projections go_to_market risk_assessment recommendations].
  now rewrite !section_value_is_dict.
Qed.

Lemma nth_error_middle {A : Type} (h more : list A) (a : A) :
  nth_error ((h ++ [a]) ++ more) (length h) = Some a.
Proof.
  rewrite <- app_assoc. rewrite nth_error_app2 by lia.
  now rewrite Nat.sub_diag.
Qed.

(** X7.  When the response model accepts well-typed records, POST /analyze
    succeeds; the identifier in its response is the number of records the
    history held before the request; the record is appended to the history
    with the fields of the response; and after any further requests
    GET /analyses/{id} with that identifier gives the same response again. *)
Theorem analyze_route_numbers_records :
  forall (World : Type)
         (generate_content : string -> World -> outcome * World)
         (datetime_now : World -> datetime * World)
         (fw : Framework),
    accepts_typed fw ->
    forall (request : StartupIdeaRequest.t) (st : State World),
    exists response st1,
      Api.analyze_startup_idea generate_content datetime_now fw request st
      = (Ok response, st1)
      /\ AnalysisResponse.analysis_id response
         = Z.of_nat (length (analysis_history st))
      /\ analysis_history st1
         = (analysis_history st ++ [response_fields response])%list
      /\ forall rs : list Api.request,
           Api.get_analysis fw (AnalysisResponse.analysis_id response)
             (Api.serve_all generate_content datetime_now fw rs st1)
           = (Ok response, Api.serve_all generate_content datetime_now fw rs st1).
Proof.
  intros World generate_content datetime_now fw Haccepts request st.
  destruct (analyze_appends generate_content datetime_now
              (StartupIdeaRequest.idea request) st) as (a & Hrun & _).
  pose proof (analyze_record_typed generate_content datetime_now _ _ _ _ Hrun)
    as Htyped.
  pose proof (Haccepts a Htyped) as Hmodel.
  assert (Hlen : (Z.of_nat (length (analysis_history st ++ [a])) - 1
                  = Z.of_nat (length (analysis_history st)))%Z).
  { rewrite length_app. cbn [length]. lia. }
  eexists. eexists. split; [|split; [|split]].
  - unfold Api.analyze_startup_idea, Api.rewrap, bind, agent.analyze_startup_idea,
      agent.get_analysis_history.
    rewrite Hrun. cbn [get_analysis_history analysis_history].
    rewrite (respond_accepted fw _ a a _ Hmodel). reflexivity.
  - cbn [AnalysisResponse.analysis_id]. exact Hlen.
  - cbn [analysis_history]. now destruct a.
  - intros rs. cbn [AnalysisResponse.analysis_id]. rewrite Hlen.
    set (st1 := {| world := _; analysis_history := _ |}).
    destruct (serve_all_extends World generate_content datetime_now fw rs st1)
      as [more Hmore].
    set (st2 := Api.serve_all generate_content datetime_now fw rs st1) in *.
    assert (Hnth : nth_error (analysis_history st2)
                     (Z.to_nat (Z.of_nat (length (analysis_history st)))) = Some a).
    { rewrite Hmore. subst st1. cbn [analysis_history].
      rewrite Nat2Z.id. apply nth_error_middle. }
    assert (Hin : (0 <= Z.of_nat (length (analysis_history st))
                   < Z.of_nat (length (analysis_history st2)))%Z).
    { split; [lia|]. apply inj_lt. apply nth_error_Some.
      rewrite Nat2Z.id in Hnth. rewrite Hnth. discriminate. }
    destruct (select_in_range fw (analysis_history st2) _ st2 Hin)
      as (a' & Hnth' & Hsel).
    rewrite Hnth in Hnth'. injection Hnth' as <-.
    unfold Api.get_analysis, Api.reraise_http, bind, agent.get_analysis_history.
    cbn [get_analysis_history]. rewrite Hsel.
    now rewrite (respond_accepted fw _ a a st2 Hmodel).
Qed.

Lemma sample_framework_accepts : accepts_typed sample_framework.
Proof.
  intros analysis H. unfold sample_framework. cbn [response_model]. now rewrite H.
Qed.

(** Witness of X7: a first analysis on a fresh agent gets the identifier 0. *)
Lemma analyze_route_numbers_records_witness :
  exists response st1,
    Api.analyze_startup_idea stub_generate ticking_clock sample_framework
      {| StartupIdeaRequest.idea := "A marketplace for used bicycles";
         StartupIdeaRequest.include_market_research := true;
         StartupIdeaRequest.include_customer_analysis := true;
         StartupIdeaRequest.include_business_model := true;
         StartupIdeaRequest.include_technical_feasibility := true;
         StartupIdeaRequest.include_financial_projections := true;
         StartupIdeaRequest.include_go_to_market := true;
         StartupIdeaRequest.include_risk_assessment := true |}
      (__init__ stub_start)
    = (Ok response, st1)
    /\ AnalysisResponse.analysis_id response
       = Z.of_nat (length (analysis_history (__init__ stub_start)))
    /\ analysis_history st1
       = (analysis_history (__init__ stub_start) ++ [response_fields response])%list
    /\ forall rs : list Api.request,
         Api.get_analysis sample_framework (AnalysisResponse.analysis_id response)
           (Api.serve_all stub_generate ticking_clock sample_framework rs st1)
         = (Ok response,
            Api.serve_all stub_generate ticking_clock sample_framework rs st1).
Proof.
  apply (analyze_route_numbers_records stub_world stub_generate ticking_clock
           sample_framework sample_framework_accepts).
Defined.

(** X8.  POST /analyze reads nothing of its request but the idea.  With
    every include flag false it still submits the eight prompts of the tasks
    and answers with seven sections that are all non-empty; a request with
    the same idea and other flags gets the same response and leaves the same
    state. *)
Theorem analyze_route_ignores_flags :
  forall (respond : string -> outcome) (t : datetime) (fw : Framework)
         (request : StartupIdeaRequest.t) (st : State (list string)),
    accepts_typed fw ->
    exists response st1,
      Api.analyze_startup_idea (recording_generate respond) (fixed_clock t) fw
        request st = (Ok response, st1)
      /\ world st1
         = (world st ++ analysis_prompts (StartupIdeaRequest.idea request))%list
      /\ map py_bool
           [ AnalysisResponse.market_research response;
             AnalysisResponse.customer_analysis response;
             AnalysisResponse.business_model response;
             AnalysisResponse.technical_feasibility response;
             AnalysisResponse.financial_projections response;
             AnalysisResponse.go_to_market response;
             AnalysisResponse.risk_assessment response ]
         = [true; true; true; true; true; true; true]
      /\ forall request' : StartupIdeaRequest.t,
           StartupIdeaRequest.idea request' = StartupIdeaRequest.idea request ->
           Api.analyze_startup_idea (recording_generate respond) (fixed_clock t) fw
             request' st = (Ok response, st1).
Proof.
  intros respond t fw request st Haccepts.
  destruct (section_outcomes_tasks (recording_generate respond)
              (StartupIdeaRequest.idea request) (world st))
    as (o1 & o2 & o3 & o4 & o5 & o6 & o7 & o8 & Houts).
  pose proof (analyze_startup_idea_run (recording_generate respond) (fixed_clock t)
                (StartupIdeaRequest.idea request) st
                o1 o2 o3 o4 o5 o6 o7 o8 Houts) as Hrun.
  cbv zeta in Hrun.
  pose proof (analyze_record_typed _ _ _ _ _ _ Hrun) as Htyped.
  pose proof (Haccepts _ Htyped) as Hmodel.
  assert (Hroute : forall request' : StartupIdeaRequest.t,
            StartupIdeaRequest.idea request' = StartupIdeaRequest.idea request ->
            Api.analyze_startup_idea (recording_generate respond) (fixed_clock t) fw
              request' st
            = Api.rewrap fw "Analysis failed: "
                (bind (analyze_startup_idea (recording_generate respond)
                         (fixed_clock t) (StartupIdeaRequest.idea request))
                   (fun analysis =>
                      bind get_analysis_history
                        (fun history =>
                           Api.respond fw (Z.of_nat (length history) - 1) analysis)))
                st).
  { intros request' Hidea. unfold Api.analyze_startup_idea. now rewrite Hidea. }
  assert (Hresult : exists response st1,
            Api.rewrap fw "Analysis failed: "
                (bind (analyze_startup_idea (recording_generate respond)
                         (fixed_clock t) (StartupIdeaRequest.idea request))
                   (fun analysis =>
                      bind get_analysis_history
                        (fun history =>
                           Api.respond fw (Z.of_nat (length history) - 1) analysis)))
                st = (Ok response, st1)
            /\ world st1
               = (world st ++ analysis_prompts (StartupIdeaRequest.idea request))%list
            /\ map py_bool
                 [ AnalysisResponse.market_research response;
                   AnalysisResponse.customer_analysis response;
                   AnalysisResponse.business_model response;
                   AnalysisResponse.technical_feasibility response;
                   AnalysisResponse.financial_projections response;
                   AnalysisResponse.go_to_market response;
                   AnalysisResponse.risk_assessment response ]
               = [true; true; true; true; true; true; true]).
  { eexists. eexists. split; [|split].
    - unfold Api.rewrap, bind. rewrite Hrun.
      cbn [get_analysis_history analysis_history].
      rewrite (respond_accepted fw _ _ _ _ Hmodel). reflexivity.
    - cbn [world fixed_clock snd]. apply recording_section_outcomes.
    - cbn [map AnalysisResponse.market_research AnalysisResponse.customer_analysis
             AnalysisResponse.business_model AnalysisResponse.technical_feasibility
             AnalysisResponse.financial_projections AnalysisResponse.go_to_market
             AnalysisResponse.risk_assessment market_research customer_analysis
             business_model technical_feasibility financial_projections
             go_to_market risk_assessment].
      now rewrite !section_value_true. }
  destruct Hresult as (response & st1 & Hres & Hworld & Hbool).
  exists response, st1. split; [|split; [|split]].
  - rewrite (Hroute request eq_refl). exact Hres.
  - exact Hworld.
  - exact Hbool.
  - intros request' Hidea. rewrite (Hroute request' Hidea). exact Hres.
Qed.

(** Witness of X8: a request with every flag false. *)
Lemma analyze_route_ignores_flags_witness :
  exists response st1,
    Api.analyze_startup_idea (recording_generate (fun _ => Raised "quota exceeded"))
      (fixed_clock (noon 1)) sample_framework
      {| StartupIdeaRequest.idea := "A marketplace for used bicycles";
         StartupIdeaRequest.include_market_research := false;
         StartupIdeaRequest.include_customer_analysis := false;
         StartupIdeaRequest.include_business_model := false;
         StartupIdeaRequest.include_technical_feasibility := false;
         StartupIdeaRequest.include_financial_projections := false;
         StartupIdeaRequest.include_go_to_market := false;
         StartupIdeaRequest.include_risk_assessment := false |}
      (__init__ []) = (Ok response, st1)
    /\ length (world st1) = 8
    /\ AnalysisResponse.market_research response
       = PDict [("error", PStr "quota exceeded"); ("source", PStr "Gemini")].
Proof.
  destruct (analyze_route_ignores_flags (fun _ => Raised "quota exceeded") (noon 1)
              sample_framework
              {| StartupIdeaRequest.idea := "A marketplace for used bicycles";
                 StartupIdeaRequest.include_market_research := false;
                 StartupIdeaRequest.include_customer_analysis := false;
                 StartupIdeaRequest.include_business_model := false;
                 StartupIdeaRequest.include_technical_feasibility := false;
                 StartupIdeaRequest.include_financial_projections := false;
                 StartupIdeaRequest.include_go_to_market := false;
                 StartupIdeaRequest.include_risk_assessment := false |}
              (__init__ []) sample_framework_accepts)
    as (response & st1 & Hres & Hworld & _ & _).
  exists response, st1. split; [exact Hres|]. split.
  - rewrite Hworld. reflexivity.
  - vm_compute in Hres. injection Hres as <- _. reflexivity.
Defined.

(** ** POST /export *)

(** X9.  POST /export never answers 404.  For an identifier outside the
    history the 404 of its bounds test is caught by its own handler and
    answered as a 500 whose detail quotes the text of that exception; an
    unsupported format is a 500 that names the format; otherwise the answer
    carries the identifier and the format as requested, the text of the
    agent's export, and the ISO form of one reading of the clock.  Every
    failure of the route is a 500, and the history is never changed. *)
Theorem export_route_never_answers_404 :
  forall (World : Type) (datetime_now : World -> datetime * World)
         (fw : Framework) (request : ExportRequest.t) (st : State World),
    ((ExportRequest.analysis_id request < 0
      \/ Z.of_nat (length (analysis_history st)) <= ExportRequest.analysis_id request)%Z ->
     Api.export_analysis datetime_now fw request st
     = (Raise (HTTPException 500
                 ("Failed to export analysis: "
                  ++ http_exception_str fw 404 "Analysis not found")), st))
    /\ (forall analysis,
          (0 <= ExportRequest.analysis_id request)%Z ->
          nth_error (analysis_history st)
            (Z.to_nat (ExportRequest.analysis_id request)) = Some analysis ->
          (forall content,
             fst (export_analysis analysis (ExportRequest.format request) st)
               = Ok content ->
             Api.export_analysis datetime_now fw request st
             = (Ok (PDict
                      [ ("analysis_id", PInt (ExportRequest.analysis_id request));
                        ("format", PStr (ExportRequest.format request));
                        ("content", PStr content);
                        ("exported_at",
                         PStr (isoformat (fst (datetime_now (world st))))) ]),
                {| world := snd (datetime_now (world st));
                   analysis_history := analysis_history st |}))
          /\ (lower (ExportRequest.format request) <> "json" ->
              lower (ExportRequest.format request) <> "markdown" ->
              Api.export_analysis datetime_now fw request st
              = (Raise (HTTPException 500
                          ("Failed to export analysis: Unsupported format: "
                           ++ ExportRequest.format request)), st)))
    /\ (forall e,
          fst (Api.export_analysis datetime_now fw request st) = Raise e ->
          exists detail, e = HTTPException 500 detail)
    /\ analysis_history (snd (Api.export_analysis datetime_now fw request st))
       = analysis_history st.
Proof.
  intros World datetime_now fw request st.
  split; [|split; [|split]].
  - intros Hout. unfold Api.export_analysis, Api.rewrap, bind,
      agent.get_analysis_history.
    cbn [get_analysis_history]. now rewrite (select_out_of_range fw _ _ st Hout).
  - intros analysis Hpos Hnth.
    assert (Hin : (0 <= ExportRequest.analysis_id request
                   < Z.of_nat (length (analysis_history st)))%Z).
    { split; [exact Hpos|].
      assert (Z.to_nat (ExportRequest.analysis_id request)
              < length (analysis_history st))%nat
        by (apply nth_error_Some; rewrite Hnth; discriminate).
      lia. }
    destruct (select_in_range fw _ _ st Hin) as (a' & Hnth' & Hsel).
    rewrite Hnth in Hnth'. injection Hnth' as <-.
    unfold Api.export_analysis, Api.rewrap, bind, agent.get_analysis_history,
      agent.export_analysis.
    cbn [get_analysis_history]. rewrite Hsel.
    destruct (export_analysis_cases analysis (ExportRequest.format request) st)
      as [[Hj E]|[(Hj & Hm & E)|(Hj & Hm & E)]]; rewrite E; cbn [fst].
    + split.
      * intros content Hc. injection Hc as <-.
        unfold read_clock, ret. now destruct (datetime_now (world st)).
      * intros Hnj. contradiction.
    + split.
      * intros content Hc. injection Hc as <-.
        unfold read_clock, ret. now destruct (datetime_now (world st)).
      * intros _ Hnm. contradiction.
    + split; [intros content Hc; discriminate Hc | reflexivity].
  - intros e. unfold Api.export_analysis, Api.rewrap.
    destruct (bind _ _ st) as [[r|e'] st1]; cbn [fst]; intros H;
      [discriminate H | injection H as <-]. eexists. reflexivity.
  - apply keeps_route_export_analysis.
Qed.

(** Witness of X9: an identifier past the end, and an unknown format. *)
Lemma export_route_never_answers_404_witness :
  Api.export_analysis ticking_clock sample_framework
    {| ExportRequest.analysis_id := 5; ExportRequest.format := "json" |}
    {| world := stub_start; analysis_history := [sample_analysis] |}
  = (Raise (HTTPException 500 "Failed to export analysis: 404: Analysis not found"),
     {| world := stub_start; analysis_history := [sample_analysis] |})
  /\ Api.export_analysis ticking_clock sample_framework
       {| ExportRequest.analysis_id := 0; ExportRequest.format := "xml" |}
       {| world := stub_start; analysis_history := [sample_analysis] |}
     = (Raise (HTTPException 500
                 "Failed to export analysis: Unsupported format: xml"),
        {| world := stub_start; analysis_history := [sample_analysis] |}).
Proof.
  split.
  - apply (proj1 (export_route_never_answers_404 stub_world ticking_clock
                    sample_framework
                    {| ExportRequest.analysis_id := 5; ExportRequest.format := "json" |}
                    {| world := stub_start;
                       analysis_history := [sample_analysis] |})).
    right. cbn. lia.
  - apply (proj2 (proj1 (proj2 (export_route_never_answers_404 stub_world
                    ticking_clock sample_framework
                    {| ExportRequest.analysis_id := 0; ExportRequest.format := "xml" |}
                    {| world := stub_start;
                       analysis_history := [sample_analysis] |}))
                  sample_analysis ltac:(cbn; lia) eq_refl));
      cbn; discriminate.
Defined.

(** ** POST /pitch-deck and POST /validate-business-model *)

Lemma pitch_deck_answer {World : Type} (fw : Framework) (analysis_id : Z)
    (text stamp : string) (st : State World) :
  match dict_get [("pitch_deck", PStr text); ("generated_at", PStr stamp)] "error" with
  | Some message =>
      raise (HTTPException 500 ("Failed to generate pitch deck: " ++ py_str message))
  | None =>
      Api.pitch_response fw analysis_id
        [("pitch_deck", PStr text); ("generated_at", PStr stamp)]
  end st
  = match fromisoformat stamp with
    | Some t => (Ok {| PitchDeckResponse.analysis_id := analysis_id;
                       PitchDeckResponse.pitch_deck := text;
                       PitchDeckResponse.generated_at := t |}, st)
    | None => (Raise (ValueError ("Invalid isoformat string: " ++ repr_str stamp)), st)
    end.
Proof.
  change (dict_get [("pitch_deck", PStr text); ("generated_at", PStr stamp)] "error")
    with (@None pyval).
  unfold Api.pitch_response, bind, subscript.
  change (dict_get [("pitch_deck", PStr text); ("generated_at", PStr stamp)]
            "pitch_deck") with (Some (PStr text)).
  change (dict_get [("pitch_deck", PStr text); ("generated_at", PStr stamp)]
            "generated_at") with (Some (PStr stamp)).
  unfold ret. now destruct (fromisoformat stamp).
Qed.

Lemma validation_answer {World : Type} (fw : Framework)
    (text stamp : string) (st : State World) :
  match dict_get [("validation", PStr text); ("validated_at", PStr stamp)] "error" with
  | Some message =>
      raise (HTTPException 500 ("Validation failed: " ++ py_str message))
  | None =>
      Api.validation_response fw
        [("validation", PStr text); ("validated_at", PStr stamp)]
  end st
  = match fromisoformat stamp with
    | Some t => (Ok {| ValidationResponse.validation := text;
                       ValidationResponse.validated_at := t |}, st)
    | None => (Raise (ValueError ("Invalid isoformat string: " ++ repr_str stamp)), st)
    end.
Proof.
  change (dict_get [("validation", PStr text); ("validated_at", PStr stamp)] "error")
    with (@None pyval).
  unfold Api.validation_response, bind, subscript.
  change (dict_get [("validation", PStr text); ("validated_at", PStr stamp)]
            "validation") with (Some (PStr text)).
  change (dict_get [("validation", PStr text); ("validated_at", PStr stamp)]
            "validated_at") with (Some (PStr stamp)).
  unfold ret. now destruct (fromisoformat stamp).
Qed.

(** the route after its bounds test, for the record it selected *)
Lemma pitch_route_selected {World : Type}
    (generate_content : string -> World -> outcome * World)
    (datetime_now : World -> datetime * World) (fw : Framework)
    (request : PitchDeckRequest.t) (st : State World) (analysis : StartupAnalysis) :
  Api.select fw (analysis_history st) (PitchDeckRequest.analysis_id request) st
    = (Ok analysis, st) ->
  Api.generate_pitch_deck generate_content datetime_now fw request st
  = match generate_content (pitch_prompt analysis) (world st) with
    | (Raised message, w1) =>
        (Raise (HTTPException 500 ("Failed to generate pitch deck: " ++ message)),
         {| world := w1; analysis_history := analysis_history st |})
    | (Returned text, w1) =>
        match fromisoformat (isoformat (fst (datetime_now w1))) with
        | Some t =>
            (Ok {| PitchDeckResponse.analysis_id := PitchDeckRequest.analysis_id request;
                   PitchDeckResponse.pitch_deck := text;
                   PitchDeckResponse.generated_at := t |},
             {| world := snd (datetime_now w1);
                analysis_history := analysis_history st |})
        | None =>
            (Raise (HTTPException 500
                      ("Failed to generate pitch deck: Invalid isoformat string: "
                       ++ repr_str (isoformat (fst (datetime_now w1))))),
             {| world := snd (datetime_now w1);
                analysis_history := analysis_history st |})
        end
    end.
Proof.
  intros Hsel.
  unfold Api.generate_pitch_deck, Api.reraise_http, agent.get_analysis_history,
    agent.generate_pitch_deck.
  unfold bind at 1. cbn [get_analysis_history].
  unfold bind at 1. rewrite Hsel.
  unfold bind at 1. unfold generate_pitch_deck.
  unfold bind at 1. unfold call_service.
  destruct (generate_content (pitch_prompt analysis) (world st)) as [[text|message] w1].
  - unfold bind at 1. unfold read_clock. cbn [world analysis_history].
    destruct (datetime_now w1) as [t w2]. unfold ret at 1. cbn [fst snd].
    rewrite pitch_deck_answer.
    destruct (fromisoformat (isoformat t)); reflexivity.
  - reflexivity.
Qed.

Lemma validate_route_run {World : Type}
    (generate_content : string -> World -> outcome * World)
    (datetime_now : World -> datetime * World) (fw : Framework)
    (request : BusinessModelValidationRequest.t) (st : State World) :
  Api.validate_business_model generate_content datetime_now fw request st
  = match generate_content
            (validation_prompt (BusinessModelValidationRequest.business_model request))
            (world st) with
    | (Raised message, w1) =>
        (Raise (HTTPException 500 ("Validation failed: " ++ message)),
         {| world := w1; analysis_history := analysis_history st |})
    | (Returned text, w1) =>
        match fromisoformat (isoformat (fst (datetime_now w1))) with
        | Some t =>
            (Ok {| ValidationResponse.validation := text;
                   ValidationResponse.validated_at := t |},
             {| world := snd (datetime_now w1);
                analysis_history := analysis_history st |})
        | None =>
            (Raise (HTTPException 500
                      ("Failed to validate business model: Invalid isoformat string: "
                       ++ repr_str (isoformat (fst (datetime_now w1))))),
             {| world := snd (datetime_now w1);
                analysis_history := analysis_history st |})
        end
    end.
Proof.
  unfold Api.validate_business_model, Api.reraise_http, agent.validate_business_model.
  unfold bind at 1. unfold validate_business_model.
  unfold bind at 1. unfold call_service.
  destruct (generate_content _ (world st)) as [[text|message] w1].
  - unfold bind at 1. unfold read_clock. cbn [world analysis_history].
    destruct (datetime_now w1) as [t w2]. unfold ret at 1. cbn [fst snd].
    rewrite validation_answer.
    destruct (fromisoformat (isoformat t)); reflexivity.
  - reflexivity.
Qed.

(** X10.  POST /pitch-deck answers 404, Analysis not found, exactly when the
    identifier is outside the history, and then calls nothing.  For a record
    of the history it submits the pitch prompt of that record: when the call
    raises, the answer is a 500 whose detail is the fixed prefix and the
    message of the failure; when it returns a text and the clock reads a
    calendar date, the response carries the identifier, the text verbatim and
    that very reading of the clock, which went through its ISO form and
    back.  The history is never changed. *)
Theorem pitch_route_outcomes :
  forall (World : Type)
         (generate_content : string -> World -> outcome * World)
         (datetime_now : World -> datetime * World)
         (fw : Framework) (request : PitchDeckRequest.t) (st : State World),
    ((PitchDeckRequest.analysis_id request < 0
      \/ Z.of_nat (length (analysis_history st))
         <= PitchDeckRequest.analysis_id request)%Z
     <-> Api.generate_pitch_deck generate_content datetime_now fw request st
         = (Raise (HTTPException 404 "Analysis not found"), st))
    /\ (forall analysis,
          (0 <= PitchDeckRequest.analysis_id request)%Z ->
          nth_error (analysis_history st)
            (Z.to_nat (PitchDeckRequest.analysis_id request)) = Some analysis ->
          (forall message,
             fst (generate_content (pitch_prompt analysis) (world st))
               = Raised message ->
             Api.generate_pitch_deck generate_content datetime_now fw request st
             = (Raise (HTTPException 500
                         ("Failed to generate pitch deck: " ++ message)),
                {| world := snd (generate_content (pitch_prompt analysis) (world st));
                   analysis_history := analysis_history st |}))
          /\ (forall text,
                fst (generate_content (pitch_prompt analysis) (world st))
                  = Returned text ->
                valid_datetime
                  (fst (datetime_now
                          (snd (generate_content (pitch_prompt analysis) (world st)))))
                  = true ->
                Api.generate_pitch_deck generate_content datetime_now fw request st
                = (Ok {| PitchDeckResponse.analysis_id :=
                           PitchDeckRequest.analysis_id request;
                         PitchDeckResponse.pitch_deck := text;
                         PitchDeckResponse.generated_at :=
                           fst (datetime_now
                                  (snd (generate_content (pitch_prompt analysis)
                                          (world st)))) |},
                   {| world :=
                        snd (datetime_now
                               (snd (generate_content (pitch_prompt analysis)
                                       (world st))));
                      analysis_history := analysis_history st |})))
    /\ analysis_history
         (snd (Api.generate_pitch_deck generate_content datetime_now fw request st))
       = analysis_history st.
Proof.
  intros World generate_content datetime_now fw request st.
  split; [|split]; [| |apply keeps_route_generate_pitch_deck].
  - destruct (range_cases (length (analysis_history st))
                (PitchDeckRequest.analysis_id request)) as [Hout|Hin].
    + split; [intros _ | intros _; exact Hout].
      unfold Api.generate_pitch_deck, Api.reraise_http, bind,
        agent.get_analysis_history.
      cbn [get_analysis_history]. now rewrite (select_out_of_range fw _ _ st Hout).
    + split; [lia|]. intros H404. exfalso.
      destruct (select_in_range fw _ _ st Hin) as (analysis & _ & Hsel).
      rewrite (pitch_route_selected generate_content datetime_now fw request st
                 analysis Hsel) in H404.
      destruct (generate_content (pitch_prompt analysis) (world st))
        as [[text|message] w1]; [|discriminate H404].
      destruct (fromisoformat _); discriminate H404.
  - intros analysis Hpos Hnth.
    assert (Hin : (0 <= PitchDeckRequest.analysis_id request
                   < Z.of_nat (length (analysis_history st)))%Z).
    { split; [exact Hpos|].
      assert (Z.to_nat (PitchDeckRequest.analysis_id request)
              < length (analysis_history st))%nat
        by (apply nth_error_Some; rewrite Hnth; discriminate).
      lia. }
    destruct (select_in_range fw _ _ st Hin) as (a' & Hnth' & Hsel).
    rewrite Hnth in Hnth'. injection Hnth' as <-.
    rewrite (pitch_route_selected generate_content datetime_now fw request st
               analysis Hsel).
    destruct (generate_content (pitch_prompt analysis) (world st))
      as [o w1]; cbn [fst snd]. split.
    + intros message ->. reflexivity.
    + intros text -> Hvalid. now rewrite (fromisoformat_isoformat _ Hvalid).
Qed.

(** Witness of X10: a pitch deck for the one record of a session. *)
Lemma pitch_route_outcomes_witness :
  exists text t st',
    Api.generate_pitch_deck stub_generate ticking_clock sample_framework
      {| PitchDeckRequest.analysis_id := 0 |}
      {| world := stub_start; analysis_history := [sample_analysis] |}
    = (Ok {| PitchDeckResponse.analysis_id := 0;
             PitchDeckResponse.pitch_deck := text;
             PitchDeckResponse.generated_at := t |}, st')
    /\ t = noon 0.
Proof.
  eexists. eexists. eexists. split.
  - apply (proj2 (proj1 (proj2 (pitch_route_outcomes stub_world stub_generate
                    ticking_clock sample_framework
                    {| PitchDeckRequest.analysis_id := 0 |}
                    {| world := stub_start;
                       analysis_history := [sample_analysis] |}))
                  sample_analysis ltac:(cbn; lia) eq_refl)).
    + vm_compute. reflexivity.
    + vm_compute. reflexivity.
  - vm_compute. reflexivity.
Defined.

(** X11.  POST /validate-business-model submits the validation prompt of
    the mapping it was given.  When the call raises, the answer is a 500
    whose detail is Validation failed and the message of the failure; when
    it returns a text and the clock reads a calendar date, the response
    carries the text verbatim and that reading of the clock.  The route
    never answers 404 and never changes the history. *)
Theorem validate_route_outcomes :
  forall (World : Type)
         (generate_content : string -> World -> outcome * World)
         (datetime_now : World -> datetime * World)
         (fw : Framework) (request : BusinessModelValidationRequest.t)
         (st : State World),
    (forall message,
       fst (generate_content
              (validation_prompt (BusinessModelValidationRequest.business_model request))
              (world st)) = Raised message ->
       Api.validate_business_model generate_content datetime_now fw request st
       = (Raise (HTTPException 500 ("Validation failed: " ++ message)),
          {| world :=
               snd (generate_content
                      (validation_prompt
                         (BusinessModelValidationRequest.business_model request))
                      (world st));
             analysis_history := analysis_history st |}))
    /\ (forall text,
          fst (generate_content
                 (validation_prompt
                    (BusinessModelValidationRequest.business_model request))
                 (world st)) = Returned text ->
          valid_datetime
            (fst (datetime_now
                    (snd (generate_content
                            (validation_prompt
                               (BusinessModelValidationRequest.business_model request))
                            (world st))))) = true ->
          Api.validate_business_model generate_content datetime_now fw request st
          = (Ok {| ValidationResponse.validation := text;
                   ValidationResponse.validated_at :=
                     fst (datetime_now
                            (snd (generate_content
                                    (validation_prompt
                                       (BusinessModelValidationRequest.business_model
                                          request))
                                    (world st)))) |},
             {| world :=
                  snd (datetime_now
                         (snd (generate_content
                                 (validation_prompt
                                    (BusinessModelValidationRequest.business_model
                                       request))
                                 (world st))));
                analysis_history := analysis_history st |}))
    /\ (forall e,
          fst (Api.validate_business_model generate_content datetime_now fw request st)
            = Raise e ->
          exists detail, e = HTTPException 500 detail)
    /\ analysis_history
         (snd (Api.validate_business_model generate_content datetime_now fw request st))
       = analysis_history st.
Proof.
  intros World generate_content datetime_now fw request st.
  split; [|split; [|split]]; [| | |apply keeps_route_validate_business_model].
  - rewrite validate_route_run.
    destruct (generate_content _ (world st)) as [o w1]; cbn [fst snd].
    intros message ->. reflexivity.
  - rewrite validate_route_run.
    destruct (generate_content _ (world st)) as [o w1]; cbn [fst snd].
    intros text -> Hvalid. now rewrite (fromisoformat_isoformat _ Hvalid).
  - rewrite validate_route_run.
    destruct (generate_content _ (world st)) as [[text|message] w1].
    + destruct (fromisoformat _); cbn [fst]; intros e H;
        [discriminate H | injection H as <-; eexists; reflexivity].
    + cbn [fst]. intros e H. injection H as <-. eexists. reflexivity.
Qed.

(** Witness of X11: a service that is down. *)
Lemma validate_route_outcomes_witness :
  exists st',
    Api.validate_business_model failing_generate ticking_clock sample_framework
      {| BusinessModelValidationRequest.business_model :=
           PDict [("revenue", PStr "subscriptions")] |}
      (__init__ stub_start)
    = (Raise (HTTPException 500 "Validation failed: 503 Service Unavailable"), st').
Proof.
  eexists.
  apply (proj1 (validate_route_outcomes stub_world failing_generate ticking_clock
                  sample_framework
                  {| BusinessModelValidationRequest.business_model :=
                       PDict [("revenue", PStr "subscriptions")] |}
                  (__init__ stub_start)) "503 Service Unavailable").
  vm_compute. reflexivity.
Defined.

(** ** GET /analyses *)

Lemma summaries_length (history : list StartupAnalysis) (i : nat) :
  length (Api.summaries i history) = length history.
Proof.
  revert i. induction history as [|a rest IH]; intros i; cbn; [reflexivity|].
  now rewrite IH.
Qed.

Lemma summaries_ids (history : list StartupAnalysis) (i : nat) :
  map (field "analysis_id") (Api.summaries i history)
  = map (fun k => Some (PInt (Z.of_nat k))) (seq i (length history)).
Proof.
  revert i. induction history as [|a rest IH]; intros i; [reflexivity|].
  cbn [Api.summaries map length seq]. now rewrite IH.
Qed.

Lemma summaries_created_at (history : list StartupAnalysis) (i : nat) :
  map (field "created_at") (Api.summaries i history)
  = map (fun a => Some (PStr (isoformat (created_at a)))) history.
Proof.
  revert i. induction history as [|a rest IH]; intros i; [reflexivity|].
  cbn [Api.summaries map]. now rewrite IH.
Qed.

Lemma summaries_filled (history : list StartupAnalysis) (i : nat) :
  Forall (fun a => filled a = true) history ->
  map (field "summary") (Api.summaries i history)
  = map (fun _ => Some full_summary) history.
Proof.
  revert i. induction history as [|a rest IH]; intros i Hall; [reflexivity|].
  inversion Hall as [|a' rest' Ha Hrest]; subst.
  cbn [Api.summaries map]. rewrite (IH _ Hrest). f_equal.
  unfold filled in Ha. repeat (apply andb_prop in Ha; destruct Ha as [Ha ?]).
  unfold Api.summary_entry, field, full_summary.
  change (dict_get ?d "summary") with (dict_get (tl (tl d)) "summary").
  cbn [tl]. cbn [dict_get]. change ("summary" =? "summary") with true. cbv iota.
  repeat match goal with H : py_bool _ = true |- _ => rewrite H; clear H end.
  reflexivity.
Qed.

(** X12.  GET /analyses answers with one entry per record of the history, in
    its order; the entries carry the identifiers 0, 1, 2, ... and the ISO form
    of the timestamps of their records.  The identifiers listed are exactly
    those that GET /analyses/{id} does not answer with 404; the request
    leaves the agent as it was. *)
Theorem history_route_lists_ids :
  forall (World : Type) (fw : Framework) (st : State World),
    exists entries,
      Api.get_analysis_history fw st = (Ok (PList entries), st)
      /\ map (field "analysis_id") entries
         = map (fun k => Some (PInt (Z.of_nat k)))
               (seq 0 (length (analysis_history st)))
      /\ map (field "created_at") entries
         = map (fun a => Some (PStr (isoformat (created_at a))))
               (analysis_history st)
      /\ forall analysis_id : Z,
           In (Some (PInt analysis_id)) (map (field "analysis_id") entries)
           <-> Api.get_analysis fw analysis_id st
               <> (Raise (HTTPException 404 "Analysis not found"), st).
Proof.
  intros World fw st. exists (Api.summaries 0 (analysis_history st)).
  split; [reflexivity|]. split; [apply summaries_ids|].
  split; [apply summaries_created_at|].
  intros analysis_id. rewrite summaries_ids. rewrite in_map_iff.
  rewrite <- (get_analysis_not_found_iff fw analysis_id st). split.
  - intros (k & Hk & Hin). injection Hk as <-. apply in_seq in Hin. lia.
  - intros Hrange. exists (Z.to_nat analysis_id). split.
    + f_equal. f_equal. lia.
    + apply in_seq. lia.
Qed.

(** ** Sessions of requests *)

Section RouteSessions.

Variable World : Type.
Variable generate_content : string -> World -> outcome * World.
Variable datetime_now : World -> datetime * World.
Variable fw : Framework.

Lemma analyze_record_filled (idea : string) (st st' : State World)
    (a : StartupAnalysis) :
  analyze_startup_idea generate_content datetime_now idea st = (Ok a, st') ->
  filled a = true.
Proof.
  destruct (analyze_record_sections generate_content datetime_now idea st)
    as (o1 & o2 & o3 & o4 & o5 & o6 & o7 & o8 & t & st1 & Hrun).
  rewrite Hrun. intros H. injection H as <- _.
  unfold filled.
  cbn [market_research customer_analysis business_model technical_feasibility
       financial_projections go_to_market risk_assessment].
  now rewrite !section_value_true.
Qed.

Lemma serve_filled (r : Api.request) (st : State World) :
  Forall (fun a => filled a = true) (analysis_history st) ->
  Forall (fun a => filled a = true)
    (analysis_history (Api.serve generate_content datetime_now fw r st)).
Proof.
  intros Hall.
  destruct r as [r| |i|r|r|r|i| ]; cbn [Api.serve].
  - rewrite route_analyze_state.
    destruct (analyze_appends generate_content datetime_now
                (StartupIdeaRequest.idea r) st) as (a & Hrun & _).
    rewrite Hrun. cbn [snd analysis_history]. apply Forall_app. split; [exact Hall|].
    constructor; [|constructor]. exact (analyze_record_filled _ _ _ _ Hrun).
  - now rewrite keeps_route_get_analysis_history.
  - now rewrite keeps_route_get_analysis.
  - now rewrite keeps_route_generate_pitch_deck.
  - now rewrite keeps_route_validate_business_model.
  - now rewrite keeps_route_export_analysis.
  - exact Hall.
  - now rewrite keeps_route_get_metrics.
Qed.

Lemma serve_all_filled (rs : list Api.request) (st : State World) :
  Forall (fun a => filled a = true) (analysis_history st) ->
  Forall (fun a => filled a = true)
    (analysis_history (Api.serve_all generate_content datetime_now fw rs st)).
Proof.
  revert st. induction rs as [|r rs IH]; intros st Hall; [exact Hall|].
  change (Api.serve_all generate_content datetime_now fw (r :: rs) st)
    with (Api.serve_all generate_content datetime_now fw rs
            (Api.serve generate_content datetime_now fw r st)).
  apply IH. now apply serve_filled.
Qed.

End RouteSessions.

(** X13.  After any requests on a fresh agent, every entry of GET /analyses
    has all seven flags of its summary set: the flags are the truth values of
    the sections, and a section is a non-empty mapping also when its service
    call failed, so the summary does not tell failed sections from the
    others. *)
Theorem listed_summaries_are_all_true :
  forall (World : Type)
         (generate_content : string -> World -> outcome * World)
         (datetime_now : World -> datetime * World)
         (fw : Framework) (w : World) (rs : list Api.request),
    exists entries,
      fst (Api.get_analysis_history fw
             (Api.serve_all generate_content datetime_now fw rs (__init__ w)))
      = Ok (PList entries)
      /\ length entries
         = length (analysis_history
                     (Api.serve_all generate_content datetime_now fw rs (__init__ w)))
      /\ forall entry, In entry entries -> field "summary" entry = Some full_summary.
Proof.
  intros World generate_content datetime_now fw w rs.
  set (st := Api.serve_all generate_content datetime_now fw rs (__init__ w)).
  exists (Api.summaries 0 (analysis_history st)).
  split; [reflexivity|]. split; [apply summaries_length|].
  intros entry Hin.
  assert (Hall : Forall (fun a => filled a = true) (analysis_history st)).
  { apply serve_all_filled. constructor. }
  pose proof (summaries_filled (analysis_history st) 0 Hall) as Hmap.
  apply (in_map (field "summary")) in Hin. rewrite Hmap in Hin.
  apply in_map_iff in Hin. destruct Hin as (a & Ha & _). now rewrite <- Ha.
Qed.

(** ** GET /metrics *)

Lemma after_readings_add {World : Type} (datetime_now : World -> datetime * World)
    (n m : nat) (w : World) :
  after_readings datetime_now (n + m) w
  = after_readings datetime_now m (after_readings datetime_now n w).
Proof.
  revert w. induction n as [|n IH]; intros w; [reflexivity|].
  cbn [Nat.add after_readings]. apply IH.
Qed.

Lemma count_records_run {World : Type} (datetime_now : World -> datetime * World)
    (test : datetime -> StartupAnalysis -> bool) (history : list StartupAnalysis)
    (st : State World) :
  exists n,
    Api.count_records datetime_now test history st
    = (Ok n, {| world := after_readings datetime_now (length history) (world st);
                analysis_history := analysis_history st |})
    /\ n <= length history.
Proof.
  revert st. induction history as [|h rest IH]; intros st.
  - exists 0. split; [now destruct st | reflexivity].
  - cbn [Api.count_records]. unfold bind at 1. unfold read_clock.
    destruct (datetime_now (world st)) as [t w1] eqn:Hnow.
    destruct (IH {| world := w1; analysis_history := analysis_history st |})
      as (n & Hrun & Hle).
    unfold bind at 1. rewrite Hrun. cbn [world analysis_history length after_readings].
    rewrite Hnow. cbn [snd]. unfold ret.
    exists (if test t h then S n else n). split; [reflexivity|].
    destruct (test t h); lia.
Qed.

Lemma count_records_fixed {World : Type} (t : datetime)
    (test : datetime -> StartupAnalysis -> bool) (history : list StartupAnalysis)
    (st : State World) :
  Api.count_records (fixed_clock t) test history st
  = (Ok (length (filter (test t) history)), st).
Proof.
  induction history as [|h rest IH].
  - reflexivity.
  - cbn [Api.count_records filter]. unfold bind at 1. unfold read_clock.
    cbn [fixed_clock]. destruct st as [w hist]. cbn [world analysis_history] in *.
    unfold bind at 1. rewrite IH. unfold ret.
    now destruct (test t h).
Qed.

Lemma within_week (a b : datetime) :
  (days_between a b <=? 7)%Z
  = (to_microseconds a - to_microseconds b <? 8 * 86400000000)%Z.
Proof.
  unfold days_between.
  destruct (Z.ltb_spec (to_microseconds a - to_microseconds b) (8 * 86400000000))
    as [Hlt|Hge].
  - apply Z.leb_le.
    assert ((to_microseconds a - to_microseconds b) / 86400000000 < 8)%Z
      by (apply Z.div_lt_upper_bound; lia).
    lia.
  - apply Z.leb_gt.
    assert (8 <= (to_microseconds a - to_microseconds b) / 86400000000)%Z
      by (apply Z.div_le_lower_bound; lia).
    lia.
Qed.

(** X14.  GET /metrics always succeeds.  Its total is the length of the
    history, and none of its three other counts exceeds the total.  It reads
    the clock once per record for each of the three counts, three times the
    length of the history in all, and leaves the history as it was. *)
Theorem metrics_counts_are_bounded :
  forall (World : Type) (datetime_now : World -> datetime * World)
         (fw : Framework) (st : State World),
    exists today week this_month,
      Api.get_metrics datetime_now fw st
      = (Ok (metrics_reply (length (analysis_history st)) today week this_month),
         {| world := after_readings datetime_now (3 * length (analysis_history st))
                       (world st);
            analysis_history := analysis_history st |})
      /\ today <= length (analysis_history st)
      /\ week <= length (analysis_history st)
      /\ this_month <= length (analysis_history st).
Proof.
  intros World datetime_now fw st.
  unfold Api.get_metrics, Api.rewrap, agent.get_analysis_history.
  unfold bind at 1. cbn [get_analysis_history].
  set (h := analysis_history st).
  destruct (count_records_run datetime_now
              (fun t a => same_date (created_at a) t) h st) as (n1 & H1 & L1).
  unfold bind at 1. rewrite H1.
  destruct (count_records_run datetime_now
              (fun t a => (days_between t (created_at a) <=? 7)%Z) h
              {| world := after_readings datetime_now (length h) (world st);
                 analysis_history := analysis_history st |}) as (n2 & H2 & L2).
  unfold bind at 1. rewrite H2. cbn [world analysis_history].
  destruct (count_records_run datetime_now
              (fun t a => (month (created_at a) =? month t)%N) h
              {| world := after_readings datetime_now (length h)
                            (after_readings datetime_now (length h) (world st));
                 analysis_history := analysis_history st |}) as (n3 & H3 & L3).
  unfold bind at 1. rewrite H3. cbn [world analysis_history]. unfold ret.
  exists n1, n2, n3. split; [|now repeat split].
  replace (3 * length h) with (length h + length h + length h) by lia.
  now rewrite !after_readings_add.
Qed.

(** X15.  While the clock stands at [t], GET /metrics counts as follows:
    today, the records stamped on the calendar date of [t]; this week, the
    records stamped less than eight full days before [t], which includes
    every record stamped after [t]; this month, the records whose month
    number is that of [t], in whatever year. *)
Theorem metrics_counts_at_a_standing_clock :
  forall (World : Type) (t : datetime) (fw : Framework) (st : State World),
    Api.get_metrics (fixed_clock t) fw st
    = (Ok (metrics_reply
             (length (analysis_history st))
             (length (filter (fun a => same_date (created_at a) t)
                             (analysis_history st)))
             (length (filter (fun a =>
                                (to_microseconds t - to_microseconds (created_at a)
                                 <? 8 * 86400000000)%Z)
                             (analysis_history st)))
             (length (filter (fun a => (month (created_at a) =? month t)%N)
                             (analysis_history st)))),
       st).
Proof.
  intros World t fw st.
  unfold Api.get_metrics, Api.rewrap, agent.get_analysis_history.
  unfold bind at 1. cbn [get_analysis_history].
  unfold bind at 1. rewrite count_records_fixed.
  unfold bind at 1. rewrite count_records_fixed.
  unfold bind at 1. rewrite count_records_fixed.
  unfold ret, metrics_reply.
  rewrite (filter_ext (fun h => (days_between t (created_at h) <=? 7)%Z)
             (fun a => (to_microseconds t - to_microseconds (created_at a)
                        <? 8 * 86400000000)%Z)
             (fun a => within_week t (created_at a))).
  now destruct st.
Qed.

(** * utils.py *)

(** ** [clean_text] *)

Lemma space_is_space : utils.is_space " " = true.
Proof. reflexivity. Qed.

Lemma is_space_not_blank (c : ascii) :
  utils.is_space c = false -> Ascii.eqb c " " = false.
Proof.
  intros H. destruct (Ascii.eqb_spec c " ") as [->|]; [discriminate H | reflexivity].
Qed.

Lemma clean_char_kept (c : ascii) : clean_char c = true -> utils.kept c = true.
Proof.
  unfold clean_char. destruct (Ascii.eqb_spec c " ") as [->|_]; [reflexivity|].
  cbn [orb]. intros H. now apply andb_prop in H.
Qed.

Lemma clean_char_space (c : ascii) :
  clean_char c = true -> utils.is_space c = Ascii.eqb c " ".
Proof.
  unfold clean_char. destruct (Ascii.eqb_spec c " ") as [->|_]; [reflexivity|].
  cbn [orb]. intros H. apply andb_prop in H. destruct H as [_ H].
  now destruct (utils.is_space c).
Qed.

(** what [collapse] writes is a space or a character that is not white space *)
Lemma collapse_chars (p : ascii -> bool) (s : string) (b : bool) :
  all_chars (fun c => utils.is_space c || p c) s = true ->
  all_chars (fun c => Ascii.eqb c " " || negb (utils.is_space c) && p c)
    (utils.collapse b s) = true.
Proof.
  revert b. induction s as [|c s IH]; intros b H; [reflexivity|].
  cbn [all_chars] in H. apply andb_prop in H. destruct H as [Hc Hs].
  cbn [utils.collapse]. destruct (utils.is_space c) eqn:Ec.
  - destruct b; [now apply IH|]. cbn [all_chars]. now rewrite IH.
  - cbn [all_chars]. rewrite Ec in *. cbn [orb negb andb] in *. rewrite Hc.
    rewrite orb_true_r. now apply IH.
Qed.

Lemma all_chars_true (s : string) : all_chars (fun _ => true) s = true.
Proof. induction s as [|c s IH]; [reflexivity | exact IH]. Qed.

Lemma remove_special_chars (s : string) :
  all_chars (fun c => Ascii.eqb c " " || negb (utils.is_space c)) s = true ->
  all_chars clean_char (utils.remove_special s) = true.
Proof.
  induction s as [|c s IH]; intros H; [reflexivity|].
  cbn [all_chars] in H. apply andb_prop in H. destruct H as [Hc Hs].
  cbn [utils.remove_special]. destruct (utils.kept c) eqn:Ek; [|now apply IH].
  cbn [all_chars]. rewrite (IH Hs), andb_true_r.
  unfold clean_char. rewrite Ek. cbn [andb]. exact Hc.
Qed.

Lemma remove_special_length (s : string) :
  String.length (utils.remove_special s) <= String.length s.
Proof.
  induction s as [|c s IH]; [reflexivity|].
  cbn [utils.remove_special]. destruct (utils.kept c); cbn [String.length]; lia.
Qed.

Lemma collapse_length (s : string) (b : bool) :
  String.length (utils.collapse b s) <= String.length s.
Proof.
  revert b. induction s as [|c s IH]; intros b; [reflexivity|].
  cbn [utils.collapse].
  pose proof (IH true) as Ht. pose proof (IH false) as Hf.
  destruct (utils.is_space c); [destruct b|]; cbn [String.length]; lia.
Qed.

Lemma lstrip_length (s : string) :
  String.length (utils.lstrip s) <= String.length s.
Proof.
  induction s as [|c s IH]; [reflexivity|].
  cbn [utils.lstrip]. destruct (utils.is_space c); cbn [String.length] in *; lia.
Qed.

Lemma rstrip_length (s : string) :
  String.length (utils.rstrip s) <= String.length s.
Proof.
  induction s as [|c s IH]; [reflexivity|].
  cbn [utils.rstrip]. destruct (utils.rstrip s) as [|d r].
  - destruct (utils.is_space c); cbn [String.length] in *; lia.
  - cbn [String.length] in *. lia.
Qed.

Lemma all_chars_weaken (p q : ascii -> bool) (s : string) :
  (forall c, p c = true -> q c = true) ->
  all_chars p s = true -> all_chars q s = true.
Proof.
  intros Hpq. induction s as [|c s IH]; [reflexivity|].
  cbn [all_chars]. intros H. apply andb_prop in H. destruct H as [Hc Hs].
  now rewrite (Hpq c Hc), IH.
Qed.

(** the text after the two substitutions, whatever it was before *)
Lemma cleaned_chars (s : string) :
  all_chars clean_char (utils.remove_special (utils.collapse false s)) = true.
Proof.
  apply remove_special_chars.
  apply (all_chars_weaken
           (fun c => Ascii.eqb c " " || negb (utils.is_space c) && true)).
  - intros c H. now rewrite andb_true_r in H.
  - apply collapse_chars.
    apply (all_chars_weaken (fun _ => true)); [|apply all_chars_true].
    intros c _. apply orb_true_r.
Qed.

(** every result of [clean_text] is made of clean characters *)
Lemma clean_text_chars (text : option string) :
  all_chars clean_char (utils.clean_text text) = true.
Proof.
  destruct text as [[|c s]|]; cbn [utils.clean_text]; try reflexivity.
  apply cleaned_chars.
Qed.

(** X16.  [clean_text] gives the empty text for [None] and for the empty
    text.  Whatever the text, the result is no longer than it and holds only
    spaces, word characters and the punctuation marks . , ! ? - : ; ( ) : no
    tab, line break or other white space than the space, and no other
    symbol. *)
Theorem clean_text_keeps_plain_characters :
  forall text : option string,
    all_chars clean_char (utils.clean_text text) = true
    /\ String.length (utils.clean_text text)
       <= match text with Some s => String.length s | None => 0 end
    /\ utils.clean_text None = ""
    /\ utils.clean_text (Some "") = "".
Proof.
  intros [[|c s]|]; cbn [utils.clean_text]; repeat split; try reflexivity.
  - apply cleaned_chars.
  - etransitivity; [apply remove_special_length|].
    etransitivity; [apply collapse_length|].
    unfold utils.strip.
    etransitivity; [apply rstrip_length | apply lstrip_length].
Qed.

(** *** Cleaning twice *)

Lemma lstrip_starts_clear (s : string) : starts_clear (utils.lstrip s) = true.
Proof.
  induction s as [|c s IH]; [reflexivity|].
  cbn [utils.lstrip]. destruct (utils.is_space c) eqn:E; [exact IH|].
  cbn [starts_clear]. now rewrite E.
Qed.

Lemma rstrip_starts_clear (s : string) :
  starts_clear s = true -> starts_clear (utils.rstrip s) = true.
Proof.
  destruct s as [|c s]; [reflexivity|]. cbn [starts_clear utils.rstrip].
  intros H. destruct (utils.rstrip s).
  - apply negb_true_iff in H. rewrite H. cbn [starts_clear]. now rewrite H.
  - exact H.
Qed.

Lemma rstrip_ends_clear (s : string) : ends_with_space (utils.rstrip s) = false.
Proof.
  induction s as [|c s IH]; [reflexivity|].
  cbn [utils.rstrip]. destruct (utils.rstrip s) as [|d r] eqn:E.
  - destruct (utils.is_space c) eqn:Ec; [reflexivity|]. cbn. exact Ec.
  - exact IH.
Qed.

Lemma collapse_single_spaced (s : string) (b : bool) :
  single_spaced b (utils.collapse b s) = true.
Proof.
  revert b. induction s as [|c s IH]; intros b; [reflexivity|].
  cbn [utils.collapse]. destruct (utils.is_space c) eqn:Ec.
  - destruct b; [apply IH|]. cbn [single_spaced].
    change (Ascii.eqb " " " ") with true. cbn [negb andb]. apply IH.
  - cbn [single_spaced]. rewrite (is_space_not_blank c Ec). apply IH.
Qed.

Lemma collapse_starts_clear (s : string) :
  starts_clear s = true ->
  single_spaced true (utils.collapse false s) = true.
Proof.
  destruct s as [|c s]; [reflexivity|]. cbn [starts_clear]. intros H.
  apply negb_true_iff in H. cbn [utils.collapse]. rewrite H.
  cbn [single_spaced]. rewrite (is_space_not_blank c H).
  apply collapse_single_spaced.
Qed.

Lemma collapse_empty (s : string) (b : bool) :
  utils.collapse b s = "" -> s = "" \/ ends_with_space s = true.
Proof.
  revert b. induction s as [|c s IH]; intros b H; [now left|]. right.
  cbn [utils.collapse] in H. destruct (utils.is_space c) eqn:Ec; [|discriminate H].
  destruct b; [|discriminate H].
  destruct (IH true H) as [->|Hs]; [exact Ec|].
  destruct s as [|d s']; [discriminate Hs | exact Hs].
Qed.

Lemma collapse_ends_clear (s : string) (b : bool) :
  ends_with_space s = false -> ends_with_space (utils.collapse b s) = false.
Proof.
  revert b. induction s as [|c s IH]; intros b H; [reflexivity|].
  destruct s as [|d s'].
  - cbn in H. cbn [utils.collapse]. rewrite H. cbn. exact H.
  - change (ends_with_space (String c (String d s')))
      with (ends_with_space (String d s')) in H.
    assert (Hne : forall b', utils.collapse b' (String d s') <> "").
    { intros b' E. destruct (collapse_empty _ _ E) as [E'|E'];
        [discriminate E' | rewrite E' in H; discriminate H]. }
    pose proof (IH true H) as Ht. pose proof (IH false H) as Hf.
    pose proof (Hne true) as Nt. pose proof (Hne false) as Nf.
    clear IH Hne H. revert Ht Hf Nt Nf. generalize (String d s'). intros t Ht Hf Nt Nf.
    cbn [utils.collapse].
    destruct (utils.is_space c); [destruct b|].
    + exact Ht.
    + destruct (utils.collapse true t); [congruence | exact Ht].
    + destruct (utils.collapse false t); [congruence | exact Hf].
Qed.

Lemma all_chars_lstrip (p : ascii -> bool) (s : string) :
  all_chars p s = true -> all_chars p (utils.lstrip s) = true.
Proof.
  induction s as [|c s IH]; [reflexivity|]. intros H.
  cbn [utils.lstrip]. destruct (utils.is_space c); [|exact H].
  cbn [all_chars] in H. apply andb_prop in H. now apply IH.
Qed.

Lemma all_chars_rstrip (p : ascii -> bool) (s : string) :
  all_chars p s = true -> all_chars p (utils.rstrip s) = true.
Proof.
  induction s as [|c s IH]; [reflexivity|]. intros H.
  cbn [all_chars] in H. apply andb_prop in H. destruct H as [Hc Hs].
  cbn [utils.rstrip]. specialize (IH Hs). destruct (utils.rstrip s) as [|d r].
  - destruct (utils.is_space c); [reflexivity|]. cbn [all_chars]. now rewrite Hc.
  - cbn [all_chars] in *. now rewrite Hc.
Qed.

Lemma all_chars_collapse (s : string) (b : bool) :
  all_chars clean_char s = true ->
  all_chars clean_char (utils.collapse b s) = true.
Proof.
  revert b. induction s as [|c s IH]; intros b H; [reflexivity|].
  cbn [all_chars] in H. apply andb_prop in H. destruct H as [Hc Hs].
  cbn [utils.collapse]. destruct (utils.is_space c); [destruct b|].
  - now apply IH.
  - cbn [all_chars]. now rewrite IH.
  - cbn [all_chars]. now rewrite Hc, IH.
Qed.

Lemma remove_special_clean (s : string) :
  all_chars clean_char s = true -> utils.remove_special s = s.
Proof.
  induction s as [|c s IH]; [reflexivity|]. intros H.
  cbn [all_chars] in H. apply andb_prop in H. destruct H as [Hc Hs].
  cbn [utils.remove_special]. rewrite (clean_char_kept c Hc). now rewrite IH.
Qed.

(** a text of clean characters, with single spaces inside and none at its
    ends, is left as it is by every step of [clean_text] *)
Lemma collapse_tidy (s : string) (b : bool) :
  all_chars clean_char s = true -> single_spaced b s = true ->
  utils.collapse b s = s.
Proof.
  revert b. induction s as [|c s IH]; intros b Hall Hsp; [reflexivity|].
  cbn [all_chars] in Hall. apply andb_prop in Hall. destruct Hall as [Hc Hs].
  cbn [utils.collapse single_spaced] in *.
  rewrite (clean_char_space c Hc).
  destruct (Ascii.eqb_spec c " ") as [->|Hne].
  - apply andb_prop in Hsp. destruct Hsp as [Hb Hsp].
    apply negb_true_iff in Hb. subst b. now rewrite IH.
  - now rewrite IH.
Qed.

Lemma single_spaced_weaken (s : string) :
  single_spaced true s = true -> single_spaced false s = true.
Proof.
  destruct s as [|c s]; [reflexivity|]. cbn [single_spaced].
  destruct (Ascii.eqb c " "); [discriminate | trivial].
Qed.

Lemma lstrip_tidy (s : string) :
  all_chars clean_char s = true -> single_spaced true s = true ->
  utils.lstrip s = s.
Proof.
  destruct s as [|c s]; [reflexivity|]. intros Hall Hsp.
  cbn [all_chars] in Hall. apply andb_prop in Hall. destruct Hall as [Hc _].
  cbn [utils.lstrip single_spaced] in *. rewrite (clean_char_space c Hc).
  destruct (Ascii.eqb c " "); [discriminate Hsp | reflexivity].
Qed.

Lemma rstrip_cons (c : ascii) (s : string) :
  utils.rstrip (String c s)
  = match utils.rstrip s with
    | "" => if utils.is_space c then "" else String c ""
    | String d r => String c (String d r)
    end.
Proof. reflexivity. Qed.

Lemma rstrip_tidy (s : string) :
  ends_with_space s = false -> utils.rstrip s = s.
Proof.
  induction s as [|c s IH]; [reflexivity|]. intros H.
  destruct s as [|d s'].
  - cbn in *. now rewrite H.
  - change (ends_with_space (String c (String d s')))
      with (ends_with_space (String d s')) in H.
    rewrite rstrip_cons, (IH H). reflexivity.
Qed.

Lemma clean_text_tidy (s : string) :
  all_chars clean_char s = true -> single_spaced true s = true ->
  ends_with_space s = false ->
  utils.clean_text (Some s) = s.
Proof.
  intros Hall Hsp Hend. destruct s as [|c s]; [reflexivity|].
  unfold utils.clean_text, utils.strip.
  rewrite (lstrip_tidy _ Hall Hsp), (rstrip_tidy _ Hend).
  rewrite (collapse_tidy _ false Hall (single_spaced_weaken _ Hsp)).
  now apply remove_special_clean.
Qed.

(** the second cleaning of a text gives a tidy text *)
Lemma clean_text_of_clean (s : string) :
  all_chars clean_char s = true ->
  all_chars clean_char (utils.clean_text (Some s)) = true
  /\ single_spaced true (utils.clean_text (Some s)) = true
  /\ ends_with_space (utils.clean_text (Some s)) = false.
Proof.
  intros Hall. destruct s as [|c s]; [now repeat split|].
  unfold utils.clean_text. set (t := String c s) in *.
  assert (Hstrip : all_chars clean_char (utils.strip t) = true)
    by (unfold utils.strip; now apply all_chars_rstrip, all_chars_lstrip).
  pose proof (all_chars_collapse _ false Hstrip) as Hcol.
  rewrite (remove_special_clean _ Hcol).
  split; [exact Hcol|]. split.
  - apply collapse_starts_clear. unfold utils.strip.
    apply rstrip_starts_clear, lstrip_starts_clear.
  - apply collapse_ends_clear. unfold utils.strip. apply rstrip_ends_clear.
Qed.

(** X17.  Cleaning a text that was cleaned twice changes nothing: the
    second pass leaves single spaces inside the text and none at its ends.
    One pass is not enough for that, since the symbols are removed after
    the white space was collapsed: a @ b becomes a, two spaces, b, and a
    text that starts with a symbol and a space still starts with a space. *)
Theorem clean_text_settles_after_two_passes :
  (forall text : option string,
     utils.clean_text (Some (utils.clean_text (Some (utils.clean_text text))))
     = utils.clean_text (Some (utils.clean_text text))
     /\ single_spaced true (utils.clean_text (Some (utils.clean_text text))) = true
     /\ ends_with_space (utils.clean_text (Some (utils.clean_text text))) = false)
  /\ utils.clean_text (Some "a @ b") = "a  b"
  /\ utils.clean_text (Some "a  b") = "a b"
  /\ utils.clean_text (Some "@ a") = " a".
Proof.
  split; [|now repeat split].
  intros text.
  destruct (clean_text_of_clean _ (clean_text_chars text)) as (Hall & Hsp & Hend).
  split; [|split]; [|exact Hsp|exact Hend].
  now apply clean_text_tidy.
Qed.

(** ** [generate_swot_analysis] *)

Lemma dict_get_set_same (d : pydict) (k : string) (v : pyval) :
  dict_get (dict_set d k v) k = Some v.
Proof.
  induction d as [|[k' v'] d IH]; cbn [dict_set dict_get].
  - now rewrite String.eqb_refl.
  - destruct (String.eqb k' k) eqn:E; cbn [dict_get]; rewrite E; [reflexivity | exact IH].
Qed.

Lemma dict_set_set_same (d : pydict) (k : string) (v v' : pyval) :
  dict_set (dict_set d k v) k v' = dict_set d k v'.
Proof.
  induction d as [|[k0 v0] d IH]; cbn [dict_set].
  - now rewrite String.eqb_refl.
  - destruct (String.eqb k0 k) eqn:E; cbn [dict_set]; rewrite E; [reflexivity|].
    now rewrite IH.
Qed.

Lemma dict_set_get_same (d : pydict) (k : string) (v : pyval) :
  dict_get d k = Some v -> dict_set d k v = d.
Proof.
  induction d as [|[k0 v0] d IH]; cbn [dict_set dict_get]; [discriminate|].
  destruct (String.eqb_spec k0 k) as [->|_].
  - intros H. now injection H as ->.
  - intros H. now rewrite IH.
Qed.

(** the loop over the keywords of one list appends, in their order, the
    phrases of the keywords that occur in the text *)
Lemma collect_appends (analysis_text key : string) (phrase : string -> string)
    (keywords : list string) :
  forall (swot : pydict) (items : list pyval),
    dict_get swot key = Some (PList items) ->
    utils.collect analysis_text key phrase keywords swot
    = dict_set swot key
        (PList (items
                ++ map PStr
                     (map phrase
                        (filter (fun keyword => utils.occurs keyword analysis_text)
                                keywords)))%list).
Proof.
  induction keywords as [|keyword rest IH]; intros swot items Hget.
  - cbn [utils.collect filter map]. rewrite app_nil_r.
    symmetry. now apply dict_set_get_same.
  - cbn [utils.collect filter].
    destruct (utils.occurs keyword analysis_text).
    + unfold utils.list_append. rewrite Hget.
      rewrite (IH _ (items ++ [PStr (phrase keyword)])%list
                 (dict_get_set_same _ _ _)).
      rewrite dict_set_set_same. cbn [map]. now rewrite <- app_assoc.
    + now apply IH.
Qed.

Lemma default_items_found (key : string) (defaults found : list string)
    (swot : pydict) :
  dict_get swot key = Some (PList (map PStr found)) ->
  utils.default_items key defaults swot
  = dict_set swot key
      (PList (map PStr match found with [] => defaults | _ => found end)).
Proof.
  intros Hget. unfold utils.default_items. rewrite Hget.
  destruct found as [|item found']; cbn [map py_bool]; [reflexivity|].
  symmetry. now apply dict_set_get_same.
Qed.

Lemma swot_items_as_found (analysis_text : string) (phrase : string -> string)
    (keywords defaults : list string) :
  match map phrase (filter (fun keyword => utils.occurs keyword analysis_text)
                      keywords) with
  | [] => defaults
  | _ => map phrase (filter (fun keyword => utils.occurs keyword analysis_text)
                       keywords)
  end
  = swot_items analysis_text phrase keywords defaults.
Proof.
  unfold swot_items.
  now destruct (filter (fun keyword => utils.occurs keyword analysis_text) keywords).
Qed.

Lemma swot_items_bounds (analysis_text : string) (phrase : string -> string)
    (keywords defaults : list string) :
  defaults <> [] ->
  swot_items analysis_text phrase keywords defaults <> []
  /\ length (swot_items analysis_text phrase keywords defaults)
     <= Nat.max (length keywords) (length defaults).
Proof.
  intros Hdef. unfold swot_items.
  pose proof (filter_length_le (fun keyword => utils.occurs keyword analysis_text)
                keywords) as Hle.
  destruct (filter (fun keyword => utils.occurs keyword analysis_text) keywords)
    as [|k found].
  - split; [exact Hdef | lia].
  - split; [discriminate|]. rewrite length_map. lia.
Qed.

(** X18.  [generate_swot_analysis] returns the four lists strengths,
    weaknesses, opportunities and threats, in this order.  The matching is
    on the lower-cased text of [str(analysis_data)], so it ignores case and
    also sees the keys of the mapping.  Each list holds one phrase per
    keyword of its group that occurs in that text, in the order of the
    keywords, and the three default phrases of its group exactly when none
    occurs: no list is ever empty, and the lists have at most 8, 9, 7 and 7
    entries. *)
Theorem swot_lists_are_never_empty :
  forall analysis_data : pyval,
    utils.generate_swot_analysis analysis_data
    = [ ("strengths",
         PList (map PStr
                  (swot_items (lower (py_str analysis_data)) utils.strength_phrase
                     utils.strength_keywords
                     [ "Innovative solution"; "Market opportunity";
                       "Scalable business model" ])));
        ("weaknesses",
         PList (map PStr
                  (swot_items (lower (py_str analysis_data)) utils.weakness_phrase
                     utils.weakness_keywords
                     [ "New market entrant"; "Limited resources";
                       "Unproven concept" ])));
        ("opportunities",
         PList (map PStr
                  (swot_items (lower (py_str analysis_data)) utils.opportunity_phrase
                     utils.opportunity_keywords
                     [ "Market growth"; "Technology advancement";
                       "Partnership potential" ])));
        ("threats",
         PList (map PStr
                  (swot_items (lower (py_str analysis_data)) utils.threat_phrase
                     utils.threat_keywords
                     [ "Competition"; "Market changes"; "Economic factors" ]))) ]
    /\ Forall2 (fun entry bound =>
                  exists items,
                    snd entry = PList (map PStr items)
                    /\ items <> [] /\ length items <= bound)
         (utils.generate_swot_analysis analysis_data) [8; 9; 7; 7].
Proof.
  intros analysis_data.
  set (text := lower (py_str analysis_data)).
  assert (Hrun : utils.generate_swot_analysis analysis_data
            = [ ("strengths",
                 PList (map PStr
                          (swot_items text utils.strength_phrase
                             utils.strength_keywords
                             [ "Innovative solution"; "Market opportunity";
                               "Scalable business model" ])));
                ("weaknesses",
                 PList (map PStr
                          (swot_items text utils.weakness_phrase
                             utils.weakness_keywords
                             [ "New market entrant"; "Limited resources";
                               "Unproven concept" ])));
                ("opportunities",
                 PList (map PStr
                          (swot_items text utils.opportunity_phrase
                             utils.opportunity_keywords
                             [ "Market growth"; "Technology advancement";
                               "Partnership potential" ])));
                ("threats",
                 PList (map PStr
                          (swot_items text utils.threat_phrase
                             utils.threat_keywords
                             [ "Competition"; "Market changes";
                               "Economic factors" ]))) ]).
  { unfold utils.generate_swot_analysis. fold text. cbv zeta.
    rewrite (collect_appends text "strengths" _ _ _ []) by reflexivity.
    rewrite (collect_appends text "weaknesses" _ _ _ []) by reflexivity.
    rewrite (collect_appends text "opportunities" _ _ _ []) by reflexivity.
    rewrite (collect_appends text "threats" _ _ _ []) by reflexivity.
    cbn [app].
    rewrite (default_items_found "strengths" _
               (map utils.strength_phrase
                  (filter (fun keyword => utils.occurs keyword text)
                     utils.strength_keywords))) by reflexivity.
    rewrite (default_items_found "weaknesses" _
               (map utils.weakness_phrase
                  (filter (fun keyword => utils.occurs keyword text)
                     utils.weakness_keywords))) by reflexivity.
    rewrite (default_items_found "opportunities" _
               (map utils.opportunity_phrase
                  (filter (fun keyword => utils.occurs keyword text)
                     utils.opportunity_keywords))) by reflexivity.
    rewrite (default_items_found "threats" _
               (map utils.threat_phrase
                  (filter (fun keyword => utils.occurs keyword text)
                     utils.threat_keywords))) by reflexivity.
    rewrite !swot_items_as_found. reflexivity. }
  split; [exact Hrun|].
  pose proof (swot_items_bounds text utils.strength_phrase utils.strength_keywords
                [ "Innovative solution"; "Market opportunity";
                  "Scalable business model" ] ltac:(discriminate)) as [N1 L1].
  pose proof (swot_items_bounds text utils.weakness_phrase utils.weakness_keywords
                [ "New market entrant"; "Limited resources"; "Unproven concept" ]
                ltac:(discriminate)) as [N2 L2].
  pose proof (swot_items_bounds text utils.opportunity_phrase
                utils.opportunity_keywords
                [ "Market growth"; "Technology advancement";
                  "Partnership potential" ] ltac:(discriminate)) as [N3 L3].
  pose proof (swot_items_bounds text utils.threat_phrase utils.threat_keywords
                [ "Competition"; "Market changes"; "Economic factors" ]
                ltac:(discriminate)) as [N4 L4].
  cbn [length utils.strength_keywords utils.weakness_keywords
       utils.opportunity_keywords utils.threat_keywords Nat.max] in L1, L2, L3, L4.
  rewrite Hrun.
  repeat constructor; cbn [snd]; eexists; (split; [reflexivity|]);
    (split; [assumption | lia]).
Qed.

(** * cli.py *)

Section CommandLine.

Variable World : Type.
Variable generate_content : string -> World -> outcome * World.
Variable datetime_now : World -> datetime * World.
Variable input : World -> (string + py_exn) * World.
Variable read_text : string -> World -> (string + py_exn) * World.
Variable load_json : string -> World -> (pyval + py_exn) * World.
Variable write_text : string -> string -> World -> option py_exn * World.

(** ** The commands on an agent *)

(** the record that [run_pitch] and [run_export] take for an identifier *)
Lemma chosen_record (analysis_id : Z) (history : list StartupAnalysis) :
  history <> [] ->
  (cli.chosen analysis_id history < Z.of_nat (length history))%Z ->
  exists analysis,
    nth_error history (Z.to_nat (cli.chosen analysis_id history)) = Some analysis
    /\ ((0 <= analysis_id)%Z ->
        nth_error history (Z.to_nat analysis_id) = Some analysis)
    /\ ((analysis_id < 0)%Z ->
        exists before, history = (before ++ [analysis])%list).
Proof.
  intros Hne Hlt.
  assert (Hpos : (0 <= cli.chosen analysis_id history)%Z).
  { unfold cli.chosen. destruct (Z.leb_spec 0 analysis_id); [assumption|].
    destruct history; [congruence|]. cbn [length]. lia. }
  destruct (nth_error history (Z.to_nat (cli.chosen analysis_id history)))
    as [analysis|] eqn:Hnth.
  - exists analysis. split; [reflexivity|]. split.
    + intros H0. unfold cli.chosen in Hnth.
      destruct (Z.leb_spec 0 analysis_id); [exact Hnth | lia].
    + intros Hneg. unfold cli.chosen in Hnth.
      destruct (Z.leb_spec 0 analysis_id); [lia|].
      destruct (exists_last Hne) as (before & last & ->).
      exists before. f_equal. f_equal.
      rewrite length_app in Hnth. cbn [length] in Hnth.
      replace (Z.to_nat (Z.of_nat (length before + 1) - 1)) with (length before)
        in Hnth by lia.
      rewrite nth_error_app2 in Hnth by lia. rewrite Nat.sub_diag in Hnth.
      cbn in Hnth. now injection Hnth.
  - apply nth_error_None in Hnth. lia.
Qed.

Lemma run_pitch_on_record (analysis_id : Z) (st : State World)
    (analysis : StartupAnalysis) :
  analysis_history st <> [] ->
  (cli.chosen analysis_id (analysis_history st)
   < Z.of_nat (length (analysis_history st)))%Z ->
  nth_error (analysis_history st)
    (Z.to_nat (cli.chosen analysis_id (analysis_history st))) = Some analysis ->
  cli.run_pitch generate_content datetime_now analysis_id st
  = (Done tt, snd (generate_pitch_deck generate_content datetime_now analysis st)).
Proof.
  intros Hne Hlt Hnth.
  unfold cli.run_pitch, cli.and_then, cli.call_agent, agent.get_analysis_history,
    agent.generate_pitch_deck.
  cbn [get_analysis_history].
  destruct (analysis_history st) as [|a0 h0] eqn:Hh; [congruence|].
  rewrite <- Hh in *. cbv zeta.
  destruct (Z.leb_spec (Z.of_nat (length (analysis_history st)))
              (cli.chosen analysis_id (analysis_history st))) as [Hge|_]; [lia|].
  unfold cli.item. rewrite Hnth. unfold cli.done at 1.
  unfold generate_pitch_deck, bind, call_service.
  destruct (generate_content (pitch_prompt analysis) (world st))
    as [[text|message] w1].
  - unfold read_clock. cbn [world analysis_history].
    destruct (datetime_now w1) as [t w2]. reflexivity.
  - reflexivity.
Qed.

Lemma run_export_on_record (a : ExportArgs.t) (st : State World)
    (analysis : StartupAnalysis) :
  analysis_history st <> [] ->
  (cli.chosen (ExportArgs.analysis_id a) (analysis_history st)
   < Z.of_nat (length (analysis_history st)))%Z ->
  nth_error (analysis_history st)
    (Z.to_nat (cli.chosen (ExportArgs.analysis_id a) (analysis_history st)))
    = Some analysis ->
  cli.run_export write_text a st
  = match export_analysis analysis (ExportArgs.format a) st with
    | (Ok content, _) =>
        match given (ExportArgs.output a) with
        | Some path => cli.write_file write_text path content st
        | None => (Done tt, st)
        end
    | (Raise e, _) => (Thrown (Exn e), st)
    end.
Proof.
  intros Hne Hlt Hnth.
  unfold cli.run_export, cli.and_then, cli.call_agent, agent.get_analysis_history,
    agent.export_analysis.
  cbn [get_analysis_history].
  destruct (analysis_history st) as [|a0 h0] eqn:Hh; [congruence|].
  rewrite <- Hh in *. cbv zeta.
  destruct (Z.leb_spec (Z.of_nat (length (analysis_history st)))
              (cli.chosen (ExportArgs.analysis_id a) (analysis_history st)))
    as [Hge|_]; [lia|].
  unfold cli.item. rewrite Hnth. unfold cli.done at 1.
  destruct (export_analysis_cases analysis (ExportArgs.format a) st)
    as [[_ E]|[(_ & _ & E)|(_ & _ & E)]]; rewrite E; try reflexivity;
    now destruct (given (ExportArgs.output a)).
Qed.

Lemma run_pitch_nothing (analysis_id : Z) (st : State World) :
  analysis_history st = []
  \/ (Z.of_nat (length (analysis_history st)) <= analysis_id)%Z ->
  cli.run_pitch generate_content datetime_now analysis_id st = (Done tt, st).
Proof.
  intros H.
  unfold cli.run_pitch, cli.and_then, cli.call_agent, agent.get_analysis_history.
  cbn [get_analysis_history].
  destruct (analysis_history st) as [|a0 h0] eqn:Hh; [reflexivity|].
  destruct H as [H|H]; [discriminate H|]. cbv zeta.
  unfold cli.chosen. destruct (Z.leb_spec 0 analysis_id) as [_|Hneg]; [|lia].
  destruct (Z.leb_spec (Z.of_nat (length (a0 :: h0))) analysis_id); [reflexivity | lia].
Qed.

Lemma run_export_nothing (a : ExportArgs.t) (st : State World) :
  analysis_history st = []
  \/ (Z.of_nat (length (analysis_history st)) <= ExportArgs.analysis_id a)%Z ->
  cli.run_export write_text a st = (Done tt, st).
Proof.
  intros H.
  unfold cli.run_export, cli.and_then, cli.call_agent, agent.get_analysis_history.
  cbn [get_analysis_history].
  destruct (analysis_history st) as [|a0 h0] eqn:Hh; [reflexivity|].
  destruct H as [H|H]; [discriminate H|]. cbv zeta.
  unfold cli.chosen.
  destruct (Z.leb_spec 0 (ExportArgs.analysis_id a)) as [_|Hneg]; [|lia].
  destruct (Z.leb_spec (Z.of_nat (length (a0 :: h0))) (ExportArgs.analysis_id a));
    [reflexivity | lia].
Qed.

End CommandLine.

(** X19.  Every command of the command line runs on an agent of its own,
    created for it.  So the commands pitch, export and history find an empty
    history whatever their arguments: they end without an error and without
    one call of the service, one reading of the clock, one line read from
    the terminal or one file read or written. *)
Theorem one_shot_commands_find_no_history :
  forall (World : Type)
         (generate_content : string -> World -> outcome * World)
         (datetime_now : World -> datetime * World)
         (input : World -> (string + py_exn) * World)
         (read_text : string -> World -> (string + py_exn) * World)
         (load_json : string -> World -> (pyval + py_exn) * World)
         (write_text : string -> string -> World -> option py_exn * World)
         (rounds : nat) (w : World),
    (forall analysis_id,
       cli.run_command generate_content datetime_now input read_text load_json
         write_text rounds (CmdPitch analysis_id) w
       = Some (Completed, __init__ w))
    /\ (forall a,
          cli.run_command generate_content datetime_now input read_text load_json
            write_text rounds (CmdExport a) w
          = Some (Completed, __init__ w))
    /\ cli.run_command generate_content datetime_now input read_text load_json
         write_text rounds CmdHistory w
       = Some (Completed, __init__ w).
Proof.
  intros. split; [|split].
  - intros analysis_id. unfold cli.run_command, cli.once.
    now rewrite run_pitch_nothing by (left; reflexivity).
  - intros a. unfold cli.run_command, cli.once.
    now rewrite run_export_nothing by (left; reflexivity).
  - reflexivity.
Qed.

(** X20.  On an agent with records, [run_pitch] takes the record at the
    identifier when it is not negative and the last record when it is
    negative; it submits the pitch prompt of that record, once, and ends
    without an error also when the service fails.  For an identifier at or
    past the end, and on an empty history, it does nothing. *)
Theorem run_pitch_chooses_the_record :
  forall (World : Type)
         (generate_content : string -> World -> outcome * World)
         (datetime_now : World -> datetime * World)
         (analysis_id : Z) (st : State World),
    (analysis_history st = []
     \/ (Z.of_nat (length (analysis_history st)) <= analysis_id)%Z ->
     cli.run_pitch generate_content datetime_now analysis_id st = (Done tt, st))
    /\ (forall analysis,
          (0 <= analysis_id)%Z ->
          nth_error (analysis_history st) (Z.to_nat analysis_id) = Some analysis ->
          cli.run_pitch generate_content datetime_now analysis_id st
          = (Done tt,
             snd (generate_pitch_deck generate_content datetime_now analysis st)))
    /\ (forall before analysis,
          (analysis_id < 0)%Z ->
          analysis_history st = (before ++ [analysis])%list ->
          cli.run_pitch generate_content datetime_now analysis_id st
          = (Done tt,
             snd (generate_pitch_deck generate_content datetime_now analysis st))).
Proof.
  intros World generate_content datetime_now analysis_id st.
  split; [apply run_pitch_nothing|]. split.
  - intros analysis Hpos Hnth.
    assert (Hlt : (Z.to_nat analysis_id < length (analysis_history st))%nat)
      by (apply nth_error_Some; rewrite Hnth; discriminate).
    assert (Hc : cli.chosen analysis_id (analysis_history st) = analysis_id).
    { unfold cli.chosen. destruct (Z.leb_spec 0 analysis_id); [reflexivity | lia]. }
    apply run_pitch_on_record.
    + intros E. rewrite E in Hlt. cbn in Hlt. lia.
    + rewrite Hc. lia.
    + now rewrite Hc.
  - intros before analysis Hneg Hh.
    assert (Hc : cli.chosen analysis_id (analysis_history st)
                 = Z.of_nat (length before)).
    { unfold cli.chosen. destruct (Z.leb_spec 0 analysis_id); [lia|].
      rewrite Hh, length_app. cbn [length]. lia. }
    apply run_pitch_on_record.
    + rewrite Hh. now destruct before.
    + rewrite Hc, Hh, length_app. cbn [length]. lia.
    + rewrite Hc, Nat2Z.id, Hh. rewrite nth_error_app2 by lia.
      now rewrite Nat.sub_diag.
Qed.

(** Witness of X20: the identifier -1 on a history of one record. *)
Lemma run_pitch_chooses_the_record_witness :
  cli.run_pitch (desk_generate (fun _ => Returned "ten slides")) (fixed_clock (noon 0))
    (-1) {| world := empty_desk; analysis_history := [sample_analysis] |}
  = (Done tt,
     {| world := {| prompts := [pitch_prompt sample_analysis];
                    typed := []; files := [] |};
        analysis_history := [sample_analysis] |}).
Proof.
  rewrite (proj2 (proj2 (run_pitch_chooses_the_record desk
             (desk_generate (fun _ => Returned "ten slides")) (fixed_clock (noon 0))
             (-1) {| world := empty_desk; analysis_history := [sample_analysis] |}))
             [] sample_analysis ltac:(lia) eq_refl).
  reflexivity.
Defined.

(** X21.  [run_export] takes its record like [run_pitch]: the one at the
    identifier, or the last one for a negative identifier.  With an output
    path it writes the text of the agent's export of that record to that
    path, and nothing else; an unsupported format raises the agent's
    [ValueError] before any file is touched.  For an identifier at or past
    the end, and on an empty history, it does nothing. *)
Theorem run_export_writes_the_export :
  forall (World : Type)
         (write_text : string -> string -> World -> option py_exn * World)
         (a : ExportArgs.t) (st : State World),
    (analysis_history st = []
     \/ (Z.of_nat (length (analysis_history st)) <= ExportArgs.analysis_id a)%Z ->
     cli.run_export write_text a st = (Done tt, st))
    /\ (forall analysis,
          ((0 <= ExportArgs.analysis_id a)%Z
           /\ nth_error (analysis_history st) (Z.to_nat (ExportArgs.analysis_id a))
              = Some analysis)
          \/ ((ExportArgs.analysis_id a < 0)%Z
              /\ exists before, analysis_history st = (before ++ [analysis])%list) ->
          (forall content path,
             fst (export_analysis analysis (ExportArgs.format a) st) = Ok content ->
             given (ExportArgs.output a) = Some path ->
             cli.run_export write_text a st
             = (match fst (write_text path content (world st)) with
                | None => Done tt
                | Some e => Thrown e
                end,
                {| world := snd (write_text path content (world st));
                   analysis_history := analysis_history st |}))
          /\ (forall content,
                fst (export_analysis analysis (ExportArgs.format a) st) = Ok content ->
                given (ExportArgs.output a) = None ->
                cli.run_export write_text a st = (Done tt, st))
          /\ (lower (ExportArgs.format a) <> "json" ->
              lower (ExportArgs.format a) <> "markdown" ->
              cli.run_export write_text a st
              = (Thrown (Exn
                           (ValueError ("Unsupported format: "
                                        ++ ExportArgs.format a))), st))).
Proof.
  intros World write_text a st.
  split; [apply run_export_nothing|].
  intros analysis Hrec.
  assert (Hon : cli.run_export write_text a st
            = match export_analysis analysis (ExportArgs.format a) st with
              | (Ok content, _) =>
                  match given (ExportArgs.output a) with
                  | Some path => cli.write_file write_text path content st
                  | None => (Done tt, st)
                  end
              | (Raise e, _) => (Thrown (Exn e), st)
              end).
  { destruct Hrec as [[Hpos Hnth]|[Hneg [before Hh]]].
    - assert (Hlt : (Z.to_nat (ExportArgs.analysis_id a)
                     < length (analysis_history st))%nat)
        by (apply nth_error_Some; rewrite Hnth; discriminate).
      assert (Hc : cli.chosen (ExportArgs.analysis_id a) (analysis_history st)
                   = ExportArgs.analysis_id a).
      { unfold cli.chosen.
        destruct (Z.leb_spec 0 (ExportArgs.analysis_id a)); [reflexivity | lia]. }
      apply run_export_on_record.
      + intros E. rewrite E in Hlt. cbn in Hlt. lia.
      + rewrite Hc. lia.
      + now rewrite Hc.
    - assert (Hc : cli.chosen (ExportArgs.analysis_id a) (analysis_history st)
                   = Z.of_nat (length before)).
      { unfold cli.chosen.
        destruct (Z.leb_spec 0 (ExportArgs.analysis_id a)); [lia|].
        rewrite Hh, length_app. cbn [length]. lia. }
      apply run_export_on_record.
      + rewrite Hh. now destruct before.
      + rewrite Hc, Hh, length_app. cbn [length]. lia.
      + rewrite Hc, Nat2Z.id, Hh. rewrite nth_error_app2 by lia.
        now rewrite Nat.sub_diag. }
  rewrite Hon.
  destruct (export_analysis_cases analysis (ExportArgs.format a) st)
    as [[Hj E]|[(Hj & Hm & E)|(Hj & Hm & E)]]; rewrite E; cbn [fst].
  - split; [|split].
    + intros content path Hc ->. injection Hc as <-. unfold cli.write_file.
      now destruct (write_text path _ (world st)) as [[e|] w1].
    + now intros content _ ->.
    + intros Hnj. contradiction.
  - split; [|split].
    + intros content path Hc ->. injection Hc as <-. unfold cli.write_file.
      now destruct (write_text path _ (world st)) as [[e|] w1].
    + now intros content _ ->.
    + intros _ Hnm. contradiction.
  - split; [|split]; [intros ? ? Hc; discriminate Hc
                     | intros ? Hc; discriminate Hc | reflexivity].
Qed.

(** Witness of X21: the last record, exported to a file. *)
Lemma run_export_writes_the_export_witness :
  exists content,
    cli.run_export desk_write_text
      {| ExportArgs.analysis_id := -1; ExportArgs.format := "JSON";
         ExportArgs.output := Some "report.json" |}
      {| world := empty_desk; analysis_history := [sample_analysis] |}
    = (Done tt,
       {| world := {| prompts := []; typed := [];
                      files := [("report.json", content)] |};
          analysis_history := [sample_analysis] |})
    /\ json_loads content = Some (PDict (analysis_dict sample_analysis)).
Proof.
  eexists. split.
  - rewrite (proj1 (proj2 (run_export_writes_the_export desk desk_write_text
               {| ExportArgs.analysis_id := -1; ExportArgs.format := "JSON";
                  ExportArgs.output := Some "report.json" |}
               {| world := empty_desk; analysis_history := [sample_analysis] |})
               sample_analysis
               (or_intror (conj eq_refl (ex_intro _ [] eq_refl))))
             (json_dumps (PDict (analysis_dict sample_analysis))) "report.json"
             eq_refl eq_refl).
    reflexivity.
  - vm_compute. reflexivity.
Defined.

(** ** [run_analyze] *)

(** X22.  [run_analyze] analyses the text of the file when a file is named,
    stripped of the white space at its ends, and the idea of the command
    line otherwise; without either, or with an empty text, it does nothing.
    The analysis is recorded in the history first.  With an output path and
    the format json it then writes to that path a text that [json.loads]
    reads back as the mapping of the recorded analysis; with a format that
    the agent does not support, the [ValueError] comes after the analysis was
    made and recorded, and no file is written. *)
Theorem run_analyze_saves_the_record :
  forall (World : Type)
         (generate_content : string -> World -> outcome * World)
         (datetime_now : World -> datetime * World)
         (read_text : string -> World -> (string + py_exn) * World)
         (write_text : string -> string -> World -> option py_exn * World)
         (a : AnalyzeArgs.t) (st : State World),
    (given (AnalyzeArgs.file a) = None -> given (AnalyzeArgs.idea a) = None ->
     cli.run_analyze generate_content datetime_now read_text write_text a st
     = (Done tt, st))
    /\ (forall path text,
          given (AnalyzeArgs.file a) = Some path ->
          fst (read_text path (world st)) = inl text ->
          cli.run_analyze generate_content datetime_now read_text write_text a st
          = cli.run_analyze generate_content datetime_now read_text write_text
              {| AnalyzeArgs.idea := Some (utils.strip text);
                 AnalyzeArgs.file := None;
                 AnalyzeArgs.output := AnalyzeArgs.output a;
                 AnalyzeArgs.format := AnalyzeArgs.format a |}
              {| world := snd (read_text path (world st));
                 analysis_history := analysis_history st |})
    /\ (forall startup_idea,
          given (AnalyzeArgs.file a) = None ->
          given (AnalyzeArgs.idea a) = Some startup_idea ->
          exists record st1,
            analyze_startup_idea generate_content datetime_now startup_idea st
              = (Ok record, st1)
            /\ analysis_history st1 = (analysis_history st ++ [record])%list
            /\ (given (AnalyzeArgs.output a) = None ->
                cli.run_analyze generate_content datetime_now read_text write_text
                  a st = (Done tt, st1))
            /\ (forall path,
                  given (AnalyzeArgs.output a) = Some path ->
                  lower (AnalyzeArgs.format a) = "json" ->
                  exists content,
                    json_loads content = Some (PDict (analysis_dict record))
                    /\ cli.run_analyze generate_content datetime_now read_text
                         write_text a st
                       = cli.write_file write_text path content st1)
            /\ (forall path,
                  given (AnalyzeArgs.output a) = Some path ->
                  lower (AnalyzeArgs.format a) <> "json" ->
                  lower (AnalyzeArgs.format a) <> "markdown" ->
                  cli.run_analyze generate_content datetime_now read_text
                    write_text a st
                  = (Thrown (Exn
                               (ValueError ("Unsupported format: "
                                            ++ AnalyzeArgs.format a))), st1))).
Proof.
  intros World generate_content datetime_now read_text write_text a st.
  split; [|split].
  - intros Hfile Hidea. unfold cli.run_analyze, cli.and_then.
    rewrite Hfile. unfold cli.done at 1. now rewrite Hidea.
  - intros path text Hfile Hread.
    unfold cli.run_analyze, cli.and_then. rewrite Hfile.
    cbn [AnalyzeArgs.file AnalyzeArgs.idea AnalyzeArgs.output AnalyzeArgs.format
         given].
    unfold cli.ask at 1. destruct (read_text path (world st)) as [r w1].
    cbn [fst snd] in *. subst r. reflexivity.
  - intros startup_idea Hfile Hidea.
    destruct (analyze_appends generate_content datetime_now startup_idea st)
      as (record & Hrun & _).
    exists record. eexists. split; [exact Hrun|]. split; [reflexivity|].
    assert (Hstep : cli.run_analyze generate_content datetime_now read_text
                      write_text a st
              = match given (AnalyzeArgs.output a) with
                | Some path =>
                    cli.and_then
                      (cli.call_agent
                         (export_analysis record (AnalyzeArgs.format a)))
                      (fun content => cli.write_file write_text path content)
                | None => cli.done tt
                end
                  {| world :=
                       snd (datetime_now
                              (snd (section_outcomes generate_content startup_idea
                                      tasks (world st))));
                     analysis_history := (analysis_history st ++ [record])%list |}).
    { unfold cli.run_analyze. unfold cli.and_then at 1. rewrite Hfile.
      unfold cli.done at 1. rewrite Hidea.
      unfold cli.and_then at 1. unfold cli.call_agent at 1.
      unfold agent.analyze_startup_idea. rewrite Hrun. reflexivity. }
    rewrite Hstep. split; [|split].
    + now intros ->.
    + intros path -> Hjson. eexists. split.
      * apply json_loads_dumps.
        exact (proj1 (analyze_record_well_formed World generate_content
                        datetime_now startup_idea st _ record Hrun)).
      * unfold cli.and_then, cli.call_agent.
        destruct (export_analysis_cases record (AnalyzeArgs.format a)
                    {| world :=
                         snd (datetime_now
                                (snd (section_outcomes generate_content
                                        startup_idea tasks (world st))));
                       analysis_history := (analysis_history st ++ [record])%list |})
          as [[_ E]|[(Hj & _)|(Hj & _)]]; [now rewrite E | contradiction..].
    + intros path -> Hnj Hnm. unfold cli.and_then, cli.call_agent.
      destruct (export_analysis_cases record (AnalyzeArgs.format a)
                  {| world :=
                       snd (datetime_now
                              (snd (section_outcomes generate_content
                                      startup_idea tasks (world st))));
                     analysis_history := (analysis_history st ++ [record])%list |})
        as [[Hj _]|[(_ & Hm & _)|(_ & _ & E)]]; [contradiction.. | now rewrite E].
Qed.

(** Witness of X22: an idea read from a file, the result saved as JSON. *)
Lemma run_analyze_saves_the_record_witness :
  exists record content,
    cli.run_analyze (desk_generate (fun _ => Returned "fine")) (fixed_clock (noon 0))
      desk_read_text desk_write_text
      {| AnalyzeArgs.idea := None;
         AnalyzeArgs.file := Some "idea.txt";
         AnalyzeArgs.output := Some "out.json";
         AnalyzeArgs.format := "json" |}
      (__init__ {| prompts := []; typed := [];
                   files := [("idea.txt", "  Bicycle sharing for villages
")] |})
    = (Done tt,
       {| world := {| prompts := analysis_prompts "Bicycle sharing for villages";
                      typed := [];
                      files := [("out.json", content);
                                ("idea.txt", "  Bicycle sharing for villages
")] |};
          analysis_history := [record] |})
    /\ json_loads content = Some (PDict (analysis_dict record)).
Proof.
  pose (a := {| AnalyzeArgs.idea := None;
                AnalyzeArgs.file := Some "idea.txt";
                AnalyzeArgs.output := Some "out.json";
                AnalyzeArgs.format := "json" |}).
  pose (w := {| prompts := []; typed := [];
                files := [("idea.txt", "  Bicycle sharing for villages
")] |}).
  pose (a' := {| AnalyzeArgs.idea := Some "Bicycle sharing for villages";
                 AnalyzeArgs.file := None;
                 AnalyzeArgs.output := Some "out.json";
                 AnalyzeArgs.format := "json" |}).
  destruct (proj2 (proj2 (run_analyze_saves_the_record desk
              (desk_generate (fun _ => Returned "fine")) (fixed_clock (noon 0))
              desk_read_text desk_write_text a' (__init__ w)))
              "Bicycle sharing for villages" eq_refl eq_refl)
    as (record & st1 & Hrun & _ & _ & Hjson & _).
  destruct (Hjson "out.json" eq_refl eq_refl) as (content & Hloads & Hwrite).
  exists record, content. split; [|exact Hloads].
  change (cli.run_analyze (desk_generate (fun _ => Returned "fine"))
            (fixed_clock (noon 0)) desk_read_text desk_write_text a (__init__ w)
          = (Done tt,
             {| world := {| prompts := analysis_prompts "Bicycle sharing for villages";
                            typed := [];
                            files := [("out.json", content);
                                      ("idea.txt", "  Bicycle sharing for villages
")] |};
                analysis_history := [record] |})).
  rewrite (proj1 (proj2 (run_analyze_saves_the_record desk
             (desk_generate (fun _ => Returned "fine")) (fixed_clock (noon 0))
             desk_read_text desk_write_text a (__init__ w)))
             "idea.txt" "  Bicycle sharing for villages
" eq_refl eq_refl).
  change (cli.run_analyze (desk_generate (fun _ => Returned "fine"))
            (fixed_clock (noon 0)) desk_read_text desk_write_text a' (__init__ w)
          = (Done tt,
             {| world := {| prompts := analysis_prompts "Bicycle sharing for villages";
                            typed := [];
                            files := [("out.json", content);
                                      ("idea.txt", "  Bicycle sharing for villages
")] |};
                analysis_history := [record] |})).
  rewrite Hwrite. vm_compute in Hrun. injection Hrun as <- <-.
  reflexivity.
Defined.

(** ** [run_interactive] *)

Section Interactive.

Variable World : Type.
Variable generate_content : string -> World -> outcome * World.
Variable datetime_now : World -> datetime * World.
Variable input : World -> (string + py_exn) * World.
Variable read_text : string -> World -> (string + py_exn) * World.
Variable load_json : string -> World -> (pyval + py_exn) * World.
Variable write_text : string -> string -> World -> option py_exn * World.

(** a round whose [input] raises *)
Lemma round_raises (rounds : nat) (st : State World) (e : py_exn) :
  fst (input (world st)) = inr e ->
  cli.round generate_content datetime_now input read_text write_text rounds st
  = Some (Thrown e, {| world := snd (input (world st));
                       analysis_history := analysis_history st |}).
Proof.
  intros H. unfold cli.round, cli.loop_then, cli.once, cli.ask.
  destruct (input (world st)) as [r w1]. cbn [fst snd] in *. now subst r.
Qed.

(** a round that reads one of the words that end the loop *)
Lemma round_quits (rounds : nat) (st : State World) (line : string) :
  fst (input (world st)) = inl line ->
  In (lower (utils.strip line)) ["quit"; "exit"; "q"] ->
  cli.round generate_content datetime_now input read_text write_text rounds st
  = Some (Done true, {| world := snd (input (world st));
                        analysis_history := analysis_history st |}).
Proof.
  intros H Hin. unfold cli.round, cli.loop_then, cli.once, cli.ask.
  destruct (input (world st)) as [r w1]. cbn [fst snd] in *. subst r.
  destruct Hin as [<-|[<-|[<-|[]]]]; reflexivity.
Qed.

Lemma end_of_input_never_ends (rounds : nat) :
  (forall w, fst (input w) = inr EOFError) ->
  forall st,
    cli.run_interactive generate_content datetime_now input read_text write_text
      rounds st = None.
Proof.
  intros Heof. induction rounds as [|rounds IH]; intros st; [reflexivity|].
  cbn [cli.run_interactive].
  rewrite (round_raises rounds st EOFError (Heof (world st))).
  cbn [is_exception]. apply IH.
Qed.

End Interactive.

(** X23.  The interactive loop ends when a line reads quit, exit or q, in
    any case and with white space around it, and when the input is
    interrupted from the keyboard.  The end of the input does not end it:
    [input] then raises [EOFError] in every round, the loop takes it for an
    error of the round and goes on, so with the input at its end the loop
    runs for ever, whatever number of rounds it is given. *)
Theorem interactive_loop_ends_on_quit_only :
  forall (World : Type)
         (generate_content : string -> World -> outcome * World)
         (datetime_now : World -> datetime * World)
         (input : World -> (string + py_exn) * World)
         (read_text : string -> World -> (string + py_exn) * World)
         (load_json : string -> World -> (pyval + py_exn) * World)
         (write_text : string -> string -> World -> option py_exn * World),
    (forall rounds st line,
       fst (input (world st)) = inl line ->
       In (lower (utils.strip line)) ["quit"; "exit"; "q"] ->
       cli.run_interactive generate_content datetime_now input read_text write_text
         (S rounds) st
       = Some (Done tt, {| world := snd (input (world st));
                           analysis_history := analysis_history st |}))
    /\ (forall rounds st,
          fst (input (world st)) = inr KeyboardInterrupt ->
          cli.run_interactive generate_content datetime_now input read_text
            write_text (S rounds) st
          = Some (Done tt, {| world := snd (input (world st));
                              analysis_history := analysis_history st |}))
    /\ ((forall w, fst (input w) = inr EOFError) ->
        forall rounds w,
          cli.run_interactive generate_content datetime_now input read_text
            write_text rounds (__init__ w) = None
          /\ cli.run_command generate_content datetime_now input read_text load_json
               write_text rounds CmdInteractive w = None).
Proof.
  intros. split; [|split].
  - intros rounds st line Hline Hin. cbn [cli.run_interactive].
    now rewrite (round_quits World generate_content datetime_now input read_text
                   write_text rounds st line Hline Hin).
  - intros rounds st Hint. cbn [cli.run_interactive].
    now rewrite (round_raises World generate_content datetime_now input read_text
                   write_text rounds st KeyboardInterrupt Hint).
  - intros Heof rounds w.
    pose proof (end_of_input_never_ends World generate_content datetime_now input
                  read_text write_text rounds Heof (__init__ w)) as Hnone.
    split; [exact Hnone|]. unfold cli.run_command. now rewrite Hnone.
Qed.

(** Witness of X23: a terminal whose input is at its end, and one on which
    Quit is typed. *)
Lemma interactive_loop_ends_on_quit_only_witness :
  cli.run_command (desk_generate (fun _ => Returned "fine")) (fixed_clock (noon 0))
    (fun w : desk => (inr EOFError, w)) desk_read_text desk_load_json
    desk_write_text 1000 CmdInteractive empty_desk = None
  /\ cli.run_interactive (desk_generate (fun _ => Returned "fine"))
       (fixed_clock (noon 0)) desk_input desk_read_text desk_write_text 1
       (__init__ {| prompts := []; typed := ["  Quit "]; files := [] |})
     = Some (Done tt, __init__ empty_desk).
Proof.
  split.
  - apply (proj2 (proj2 (interactive_loop_ends_on_quit_only desk
             (desk_generate (fun _ => Returned "fine")) (fixed_clock (noon 0))
             (fun w : desk => (inr EOFError, w)) desk_read_text desk_load_json
             desk_write_text)) (fun w => eq_refl) 1000 empty_desk).
  - apply (proj1 (interactive_loop_ends_on_quit_only desk
             (desk_generate (fun _ => Returned "fine")) (fixed_clock (noon 0))
             desk_input desk_read_text desk_load_json desk_write_text)
             0 (__init__ {| prompts := []; typed := ["  Quit "]; files := [] |})
             "  Quit " eq_refl).
    vm_compute. now left.
Defined.

(** ** A session at the terminal *)

Lemma desk_section_outcomes (respond : string -> outcome) (idea : string)
    (ts : list (string * string)) :
  forall d : desk,
    snd (section_outcomes (desk_generate respond) idea ts d)
    = {| prompts := (prompts d
                     ++ map (fun task => analysis_prompt idea (snd task)) ts)%list;
         typed := typed d; files := files d |}.
Proof.
  induction ts as [|[name description] ts IH]; intros d.
  - cbn. rewrite app_nil_r. now destruct d.
  - cbn [section_outcomes desk_generate map snd].
    specialize (IH {| prompts := (prompts d ++ [analysis_prompt idea description])%list;
                      typed := typed d; files := files d |}).
    destruct (section_outcomes (desk_generate respond) idea ts _) as [os w2].
    cbn [snd prompts typed files] in *. rewrite IH, <- app_assoc. reflexivity.
Qed.

(** [run_analyze] for an idea of the command line, without file or output *)
Lemma run_analyze_plain {World : Type}
    (generate_content : string -> World -> outcome * World)
    (datetime_now : World -> datetime * World)
    (read_text : string -> World -> (string + py_exn) * World)
    (write_text : string -> string -> World -> option py_exn * World)
    (c : ascii) (s format : string) (st : State World) :
  cli.run_analyze generate_content datetime_now read_text write_text
    {| AnalyzeArgs.idea := Some (String c s); AnalyzeArgs.file := None;
       AnalyzeArgs.output := None; AnalyzeArgs.format := format |} st
  = (Done tt, snd (analyze_startup_idea generate_content datetime_now (String c s) st)).
Proof.
  destruct (analyze_appends generate_content datetime_now (String c s) st)
    as (record & Hrun & _).
  unfold cli.run_analyze, cli.and_then.
  cbn [AnalyzeArgs.file AnalyzeArgs.idea AnalyzeArgs.output given].
  unfold cli.done at 1. cbn [given].
  unfold cli.call_agent, agent.analyze_startup_idea. now rewrite Hrun.
Qed.

Lemma round_runs {World : Type}
    (generate_content : string -> World -> outcome * World)
    (datetime_now : World -> datetime * World)
    (input : World -> (string + py_exn) * World)
    (read_text : string -> World -> (string + py_exn) * World)
    (write_text : string -> string -> World -> option py_exn * World)
    (rounds : nat) (st : State World) (line : string) :
  fst (input (world st)) = inl line ->
  (lower (utils.strip line) = "analyze" ->
   cli.round generate_content datetime_now input read_text write_text rounds st
   = cli.loop_then
       (cli.interactive_analyze generate_content datetime_now input read_text
          write_text rounds)
       (fun _ => cli.once (cli.done false))
       {| world := snd (input (world st));
          analysis_history := analysis_history st |})
  /\ (lower (utils.strip line) = "pitch" ->
      cli.round generate_content datetime_now input read_text write_text rounds st
      = cli.loop_then
          (cli.once (cli.interactive_pitch generate_content datetime_now))
          (fun _ => cli.once (cli.done false))
          {| world := snd (input (world st));
             analysis_history := analysis_history st |}).
Proof.
  intros H.
  split; intros E; unfold cli.round; unfold cli.loop_then at 1;
    unfold cli.once at 1; unfold cli.ask;
    destruct (input (world st)) as [r w1]; cbn [fst snd] in *; subst r;
    cbv zeta; rewrite E; reflexivity.
Qed.

(** X24.  The interactive mode keeps one agent for the whole session.  At a
    terminal where the lines analyze, an idea, an empty line, pitch and quit
    are typed, the idea is analysed with the white space at its ends
    removed, the pitch command finds the record of that analysis and submits
    its pitch prompt, and quit ends the session without an error: nine
    prompts in all, and one record. *)
Theorem interactive_session_keeps_its_agent :
  forall (respond : string -> outcome) (t : datetime) (idea : string) (rounds : nat),
    utils.strip idea <> "" ->
    exists record,
      cli.run_command (desk_generate respond) (fixed_clock t) desk_input
        desk_read_text desk_load_json desk_write_text (3 + rounds) CmdInteractive
        {| prompts := []; typed := ["analyze"; idea; ""; "pitch"; "quit"];
           files := [] |}
      = Some (Completed,
              {| world :=
                   {| prompts := (analysis_prompts (utils.strip idea)
                                  ++ [pitch_prompt record])%list;
                      typed := []; files := [] |};
                 analysis_history := [record] |}).
Proof.
  intros respond t idea rounds Hidea.
  destruct (utils.strip idea) as [|c s] eqn:Hstrip; [congruence|].
  set (st1 := {| world := {| prompts := []; typed := ["pitch"; "quit"]; files := [] |};
                 analysis_history := @nil StartupAnalysis |}).
  destruct (analyze_appends (desk_generate respond) (fixed_clock t) (String c s) st1)
    as (record & Hrun & _).
  rewrite desk_section_outcomes in Hrun. cbn [fixed_clock snd] in Hrun.
  subst st1. cbn [world analysis_history prompts typed files app] in Hrun.
  exists record.
  unfold cli.run_command.
  change (3 + rounds) with (S (S (S rounds))).
  (* the first round: analyze *)
  cbn [cli.run_interactive].
  rewrite (proj1 (round_runs (desk_generate respond) (fixed_clock t) desk_input
                    desk_read_text desk_write_text (S (S rounds))
                    (__init__ {| prompts := [];
                                 typed := ["analyze"; idea; ""; "pitch"; "quit"];
                                 files := [] |}) "analyze" eq_refl) eq_refl).
  assert (Hread : cli.read_idea desk_input (S (S rounds)) []
                    {| world := {| prompts := [];
                                   typed := [idea; ""; "pitch"; "quit"];
                                   files := [] |};
                       analysis_history := [] |}
            = Some (Done [idea],
                    {| world := {| prompts := []; typed := ["pitch"; "quit"];
                                   files := [] |};
                       analysis_history := [] |})).
  { cbn [cli.read_idea]. unfold cli.loop_then at 1. unfold cli.once at 1.
    unfold cli.ask at 1. cbn [desk_input world typed prompts files analysis_history].
    rewrite Hstrip. reflexivity. }
  unfold cli.loop_then at 1. unfold cli.interactive_analyze.
  unfold cli.loop_then at 1.
  cbn [__init__ world analysis_history desk_input typed prompts files snd].
  rewrite Hread.
  change (join (chr LF) [idea]) with idea. rewrite Hstrip. cbn [given].
  unfold cli.once at 1. rewrite run_analyze_plain, Hrun. cbn [snd].
  unfold cli.once at 1. unfold cli.done at 1.
  (* the second round: pitch *)
  cbn [cli.run_interactive].
  rewrite (fun st H =>
             proj2 (round_runs (desk_generate respond) (fixed_clock t) desk_input
                      desk_read_text desk_write_text (S rounds) st "pitch" H)
               eq_refl) by reflexivity.
  unfold cli.loop_then at 1. unfold cli.once at 1. unfold cli.interactive_pitch.
  cbn [world analysis_history desk_input typed prompts files snd].
  rewrite (fun st H1 H2 H3 =>
             run_pitch_on_record desk (desk_generate respond) (fixed_clock t) (-1) st
               record H1 H2 H3)
    by (cbn; first [discriminate | lia | reflexivity]).
  assert (Hpitch : snd (generate_pitch_deck (desk_generate respond) (fixed_clock t)
                          record
                          {| world := {| prompts := analysis_prompts (String c s);
                                         typed := ["quit"]; files := [] |};
                             analysis_history := [record] |})
            = {| world := {| prompts := (analysis_prompts (String c s)
                                         ++ [pitch_prompt record])%list;
                             typed := ["quit"]; files := [] |};
                 analysis_history := [record] |}).
  { unfold generate_pitch_deck, bind, call_service, desk_generate.
    cbn [world analysis_history prompts typed files].
    now destruct (respond (pitch_prompt record)). }
  unfold analysis_prompts in Hpitch |- *. rewrite Hpitch.
  unfold cli.once at 1. unfold cli.done at 1.
  (* the third round: quit *)
  cbn [cli.run_interactive].
  rewrite (fun st H =>
             round_quits desk (desk_generate respond) (fixed_clock t) desk_input
               desk_read_text desk_write_text rounds st "quit" H
               (or_introl eq_refl)) by reflexivity.
  reflexivity.
Qed.

(** Witness of X24: an idea typed with spaces around it. *)
Lemma interactive_session_keeps_its_agent_witness :
  exists record,
    cli.run_command (desk_generate (fun _ => Returned "fine")) (fixed_clock (noon 0))
      desk_input desk_read_text desk_load_json desk_write_text (3 + 0)
      CmdInteractive
      {| prompts := [];
         typed := ["analyze"; " Bicycle sharing for villages "; ""; "pitch"; "quit"];
         files := [] |}
    = Some (Completed,
            {| world :=
                 {| prompts :=
                      (analysis_prompts
                         (utils.strip " Bicycle sharing for villages ")
                       ++ [pitch_prompt record])%list;
                    typed := []; files := [] |};
               analysis_history := [record] |}).
Proof.
  apply (interactive_session_keeps_its_agent (fun _ => Returned "fine") (noon 0)
           " Bicycle sharing for villages " 0).
  vm_compute. discriminate.
Defined.

(** ** [run_validate] *)

(** X25.  The validate command never ends with an error status.  When the
    file of the business model cannot be read or does not hold JSON, the
    command returns without calling the service; otherwise it submits the
    validation prompt of the value in the file, once, and returns normally
    also when the service fails.  The history stays empty. *)
Theorem validate_command_always_completes :
  forall (World : Type)
         (generate_content : string -> World -> outcome * World)
         (datetime_now : World -> datetime * World)
         (input : World -> (string + py_exn) * World)
         (read_text : string -> World -> (string + py_exn) * World)
         (load_json : string -> World -> (pyval + py_exn) * World)
         (write_text : string -> string -> World -> option py_exn * World)
         (rounds : nat) (path : string) (w : World),
    (forall e,
       fst (load_json path w) = inr e ->
       cli.run_command generate_content datetime_now input read_text load_json
         write_text rounds (CmdValidate path) w
       = Some (Completed, __init__ (snd (load_json path w))))
    /\ (forall business_model,
          fst (load_json path w) = inl business_model ->
          cli.run_command generate_content datetime_now input read_text load_json
            write_text rounds (CmdValidate path) w
          = Some (Completed,
                  snd (validate_business_model generate_content datetime_now
                         business_model (__init__ (snd (load_json path w))))))
    /\ exists st,
         cli.run_command generate_content datetime_now input read_text load_json
           write_text rounds (CmdValidate path) w = Some (Completed, st)
         /\ analysis_history st = [].
Proof.
  intros World generate_content datetime_now input read_text load_json write_text
    rounds path w.
  assert (Hrun : cli.run_command generate_content datetime_now input read_text
                   load_json write_text rounds (CmdValidate path) w
            = Some (Completed,
                    match fst (load_json path w) with
                    | inl business_model =>
                        snd (validate_business_model generate_content datetime_now
                               business_model (__init__ (snd (load_json path w))))
                    | inr _ => __init__ (snd (load_json path w))
                    end)).
  { unfold cli.run_command, cli.once, cli.run_validate, cli.ask.
    cbn [__init__ world analysis_history].
    destruct (load_json path w) as [[business_model|e] w1]; cbn [fst snd].
    - unfold cli.and_then, cli.call_agent, agent.validate_business_model,
        validate_business_model, bind, call_service.
      cbn [__init__ world analysis_history].
      destruct (generate_content (validation_prompt business_model) w1)
        as [[text|message] w2].
      + unfold read_clock. cbn [world analysis_history].
        destruct (datetime_now w2) as [t w3]. reflexivity.
      + reflexivity.
    - destruct e; reflexivity. }
  split; [|split].
  - intros e He. rewrite Hrun, He. reflexivity.
  - intros business_model Hb. rewrite Hrun, Hb. reflexivity.
  - eexists. split; [exact Hrun|].
    destruct (fst (load_json path w)) as [business_model|e]; [|reflexivity].
    now rewrite keeps_validate_business_model.
Qed.

(** Witness of X25: a file that is not there. *)
Lemma validate_command_always_completes_witness :
  cli.run_command (desk_generate (fun _ => Returned "fine")) (fixed_clock (noon 0))
    desk_input desk_read_text desk_load_json desk_write_text 0
    (CmdValidate "model.json") empty_desk
  = Some (Completed, __init__ empty_desk).
Proof.
  apply (proj1 (validate_command_always_completes desk
           (desk_generate (fun _ => Returned "fine")) (fixed_clock (noon 0))
           desk_input desk_read_text desk_load_json desk_write_text 0
           "model.json" empty_desk) (OSError "No such file or directory")).
  reflexivity.
Defined.

(** ** [save_analysis_report] and [convert_to_markdown] *)

Lemma save_analysis_report_cases {World : Type}
    (datetime_now : World -> datetime * World)
    (write_text : string -> string -> World -> option py_exn * World)
    (analysis_data : pydict) (filename format : string) (w : World) :
  (lower format = "json"
   /\ utils.save_analysis_report datetime_now write_text analysis_data filename
        format w
      = match utils.write write_text (utils.Path filename)
                (json_dumps (PDict analysis_data)) w with
        | (Done _, w1) => (Done (utils.Path filename), w1)
        | (Thrown e, w1) => (Thrown e, w1)
        end)
  \/ (lower format <> "json" /\ lower format = "markdown"
      /\ utils.save_analysis_report datetime_now write_text analysis_data filename
           format w
         = match utils.convert_to_markdown datetime_now analysis_data w with
           | (Done markdown_content, w1) =>
               match utils.write write_text (utils.Path filename)
                       markdown_content w1 with
               | (Done _, w2) => (Done (utils.Path filename), w2)
               | (Thrown e, w2) => (Thrown e, w2)
               end
           | (Thrown e, w1) => (Thrown e, w1)
           end)
  \/ (lower format <> "json" /\ lower format <> "markdown"
      /\ utils.save_analysis_report datetime_now write_text analysis_data filename
           format w
         = (Thrown (Exn (ValueError ("Unsupported format: " ++ format))), w)).
Proof.
  unfold utils.save_analysis_report. cbv zeta.
  destruct (String.eqb_spec (lower format) "json") as [Hj|Hj].
  - left. now split.
  - right. destruct (String.eqb_spec (lower format) "markdown") as [Hm|Hm].
    + left. now repeat split.
    + right. now repeat split.
Qed.

(** the path of a file name without slashes, other than the dot, is the
    name *)
Lemma Path_of_plain_name (c : ascii) (name : string) :
  contains_char "/" (String c name) = false -> String c name <> "." ->
  utils.Path (String c name) = String c name.
Proof.
  intros Hslash Hdot.
  assert (Hsplit : forall s, contains_char "/" s = false -> utils.split_slashes s = [s]).
  { induction s as [|d s IH]; [reflexivity|].
    cbn [contains_char utils.split_slashes]. rewrite Ascii.eqb_sym. intros H.
    apply orb_false_iff in H as [Hd Hs]. now rewrite Hd, (IH Hs). }
  assert (Hc : Ascii.eqb c "/" = false).
  { cbn [contains_char] in Hslash. apply orb_false_iff in Hslash as [H _].
    now rewrite Ascii.eqb_sym. }
  unfold utils.Path.
  assert (Hrel : utils.lstrip_slashes (String c name) = String c name).
  { cbn [utils.lstrip_slashes].
    destruct c as [[] [] [] [] [] [] [] []]; try reflexivity; discriminate Hc. }
  rewrite Hrel, Nat.sub_diag, (Hsplit _ Hslash). cbn [filter].
  change (String.eqb (String c name) "") with false.
  destruct (String.eqb_spec (String c name) ".") as [E|_]; [contradiction|].
  reflexivity.
Qed.

(** X26.  [save_analysis_report] takes its format without regard to case,
    and writes to and returns [Path(filename)], the file name as [pathlib]
    normalises it (a leading dot and slash, doubled slashes and a slash at
    the end go away; a name without slashes stays as it is).  For json it
    writes the JSON text of the data, which [json.loads] reads back as the
    data when no mapping in them has a key twice.  For markdown it reads the
    clock once and writes the report of [convert_to_markdown]; when the
    recommendations of the data are a value that cannot be gone through
    (None, a truth value or a number), the [TypeError] comes before the file
    is opened.  For any other format it raises [ValueError] with the format
    as it was given, and neither reads the clock nor touches a file. *)
Theorem save_analysis_report_formats :
  forall (World : Type) (datetime_now : World -> datetime * World)
         (write_text : string -> string -> World -> option py_exn * World)
         (analysis_data : pydict) (filename format : string) (w : World),
    (lower format = "json" ->
     exists text,
       utils.save_analysis_report datetime_now write_text analysis_data filename
         format w
       = (match fst (write_text (utils.Path filename) text w) with
          | None => Done (utils.Path filename)
          | Some e => Thrown e
          end, snd (write_text (utils.Path filename) text w))
       /\ (valid_value (PDict analysis_data) = true ->
           json_loads text = Some (PDict analysis_data)))
    /\ (lower format = "markdown" ->
        (forall e,
           utils.iterate (utils.get analysis_data "recommendations" (PList []))
             = inr e ->
           utils.save_analysis_report datetime_now write_text analysis_data filename
             format w
           = (Thrown e, snd (datetime_now w)))
        /\ (forall recs,
              utils.iterate (utils.get analysis_data "recommendations" (PList []))
                = inl recs ->
              exists text,
                utils.convert_to_markdown datetime_now analysis_data w
                  = (Done text, snd (datetime_now w))
                /\ utils.save_analysis_report datetime_now write_text analysis_data
                     filename format w
                   = (match fst (write_text (utils.Path filename) text
                                   (snd (datetime_now w))) with
                      | None => Done (utils.Path filename)
                      | Some e => Thrown e
                      end,
                      snd (write_text (utils.Path filename) text
                             (snd (datetime_now w))))))
    /\ (lower format <> "json" -> lower format <> "markdown" ->
        utils.save_analysis_report datetime_now write_text analysis_data filename
          format w
        = (Thrown (Exn (ValueError ("Unsupported format: " ++ format))), w))
    /\ utils.Path "./report.json" = "report.json"
    /\ utils.Path "out//reports/" = "out/reports"
    /\ (forall c name,
          contains_char "/" (String c name) = false -> String c name <> "." ->
          utils.Path (String c name) = String c name).
Proof.
  intros World datetime_now write_text analysis_data filename format w.
  split; [|split; [|split; [|split; [reflexivity|split;
    [reflexivity | apply Path_of_plain_name]]]]];
  destruct (save_analysis_report_cases datetime_now write_text analysis_data
              filename format w)
    as [[Hj E]|[(Hj & Hm & E)|(Hj & Hm & E)]]; rewrite E.
  - intros _. exists (json_dumps (PDict analysis_data)). split.
    + unfold utils.write. now destruct (write_text _ _ w) as [[e|] w1].
    + apply json_loads_dumps.
  - intros Hj'. contradiction.
  - intros Hj'. contradiction.
  - intros Hm. rewrite Hj in Hm. discriminate Hm.
  - intros _. unfold utils.convert_to_markdown.
    destruct (datetime_now w) as [t w1]. cbn [snd]. split.
    + intros e ->. reflexivity.
    + intros recs ->. eexists. split; [reflexivity|].
      unfold utils.write. now destruct (write_text _ _ w1) as [[e|] w2].
  - intros Hm'. contradiction.
  - intros Hnj. contradiction.
  - intros _ Hnm. contradiction.
  - reflexivity.
Qed.

(** Witness of X26: a report in an unknown format, and one in JSON whose
    file name starts with a dot and a slash. *)
Lemma save_analysis_report_formats_witness :
  utils.save_analysis_report (fixed_clock (noon 0)) desk_write_text
    [("risk_level", PStr "low")] "report.xml" "XML" empty_desk
  = (Thrown (Exn (ValueError "Unsupported format: XML")), empty_desk)
  /\ exists text,
       utils.save_analysis_report (fixed_clock (noon 0)) desk_write_text
         [("risk_level", PStr "low")] "./report.json" "Json" empty_desk
       = (Done "report.json",
          {| prompts := []; typed := []; files := [("report.json", text)] |})
       /\ json_loads text = Some (PDict [("risk_level", PStr "low")]).
Proof.
  split.
  - apply (proj1 (proj2 (proj2 (save_analysis_report_formats desk
             (fixed_clock (noon 0)) desk_write_text [("risk_level", PStr "low")]
             "report.xml" "XML" empty_desk)))); cbn; discriminate.
  - destruct (proj1 (save_analysis_report_formats desk (fixed_clock (noon 0))
               desk_write_text [("risk_level", PStr "low")] "./report.json" "Json"
               empty_desk) eq_refl) as (text & Hsave & Hloads).
    exists text. split; [exact Hsave | apply Hloads; reflexivity].
Defined.
